(** * HumanEval analysis toolkit: resolver, executor, enhancer, coverage runner

    A shallow embedding of the decision logic of

    - [Task3/test_runner.py]            ([run_tests_and_report]),
    - [Task2/test_runner_notebook.py]   ([run_tests]),
    - [code_enhancer.py]                ([CodeEnhancer]),
    - [pytest_cov_enhanced_analyzer.py] ([PytestCovAnalyzer]),
    - [Task3/Buggy_code_files/apps.py]  ([candidate], from its line 19),

    followed by the properties the specification states about them and by
    further properties of the code.

    Conventions.  A Python [str] is a [string] whose characters are code
    points below 256, and a file is the text [read()] returns for it.  The
    Python interpreter itself (loading a module, [exec], [eval], calling the
    candidate, [repr], [ast.parse]) is an interface, [PyInterp]; everything
    the repository's code does around it is written out.  A call into the
    interpreter returns or raises: code under test that never ends is outside
    the model.  Exceptions are instances of [Exception]: what
    [except Exception] does not catch ([SystemExit], [KeyboardInterrupt])
    ends the interpreter and is not modelled.

    Test code handed to [exec] has a namespace of its own.  The text handed
    to [eval] has none: it runs among the variables of
    [run_tests_and_report], and it, the call of the candidate on its value
    and the [repr] of the result can change the lists [test_cases], [passed]
    and [failed] of the runner, which hold texts, integers, and pairs of an
    integer and a text.  Code that puts values of other types in these
    lists, that reaches the runner through the interpreter's internals
    (frames, the garbage collector) or changes the modules it uses
    ([builtins], [re]), or that keeps one of the lists to change it while a
    later test is executed, is outside the model.

    The pass rate of a runner is the binary64 float Python computes.  The
    coverage figures and the share printed by [main] of the analyzer are
    rationals, the exact values of what is printed rounded.  [print] and the
    formatting of what it prints are not modelled. *)

From Stdlib Require Import QArith Ascii DecimalString Uint63.
From Stdlib Require DecimalNat.
From Corelib Require Import PrimFloat.
From stdpp Require Import gmap strings list sorting.

Local Open Scope stdpp_scope.

(** ** Python string primitives *)

Module PyStr.

Definition code (c : ascii) : N := Ascii.N_of_ascii c.

(** [str.isspace] on one character, which is also the class [\s] of [re]
    on [str] patterns: TAB..CR, FS..US, SPACE, NEL and NBSP. *)
Definition is_space (c : ascii) : bool :=
  let n := code c in
  ((9 <=? n) && (n <=? 13) || (28 <=? n) && (n <=? 32)
   || (n =? 133) || (n =? 160))%N.

Definition newline : ascii := Ascii.ascii_of_N 10.

Definition is_newline (c : ascii) : bool := (code c =? 10)%N.

(** [\d] of [re] on [str] patterns; below 256 the decimal digits are 0-9. *)
Definition is_digit (c : ascii) : bool :=
  ((48 <=? code c) && (code c <=? 57))%N.

Definition ascii_eqb (a b : ascii) : bool := Ascii.eqb a b.

Fixpoint lstrip (s : string) : string :=
  match s with
  | EmptyString => EmptyString
  | String c s' => if is_space c then lstrip s' else s
  end.

Fixpoint rstrip (s : string) : string :=
  match s with
  | EmptyString => EmptyString
  | String c s' =>
      match rstrip s' with
      | EmptyString => if is_space c then EmptyString else String c EmptyString
      | r => String c r
      end
  end.

Fixpoint all_space (s : string) : bool :=
  match s with
  | EmptyString => true
  | String c s' => is_space c && all_space s'
  end.

(** [s.strip()] *)
Definition strip (s : string) : string := rstrip (lstrip s).

(** [s.startswith(p)] *)
Fixpoint startswith (s p : string) {struct p} : bool :=
  match p with
  | EmptyString => true
  | String a p' =>
      match s with
      | EmptyString => false
      | String b s' => ascii_eqb a b && startswith s' p'
      end
  end.

(** [s[n:]] *)
Fixpoint drop (n : nat) (s : string) : string :=
  match n, s with
  | O, _ => s
  | S n', String _ s' => drop n' s'
  | S _, EmptyString => EmptyString
  end.

(** [p in s] *)
Fixpoint contains (s p : string) : bool :=
  startswith s p ||
  match s with
  | EmptyString => false
  | String _ s' => contains s' p
  end.

(** [c.lower()] for a code point below 256: A-Z, and the Latin-1 capitals
    except the multiplication sign. *)
Definition lower_char (c : ascii) : ascii :=
  let n := code c in
  if ((65 <=? n) && (n <=? 90)
      || (192 <=? n) && (n <=? 222) && negb (n =? 215))%N
  then Ascii.ascii_of_N (n + 32) else c.

Fixpoint lower (s : string) : string :=
  match s with
  | EmptyString => EmptyString
  | String c s' => String (lower_char c) (lower s')
  end.

(** The part of [s] before its first newline: what a greedy [.+] or [.*]
    takes. *)
Fixpoint take_line (s : string) : string :=
  match s with
  | EmptyString => EmptyString
  | String c s' => if is_newline c then EmptyString else String c (take_line s')
  end.

(** [s.split('\n')] *)
Fixpoint split_lines (s : string) : list string :=
  match s with
  | EmptyString => [EmptyString]
  | String c s' =>
      if is_newline c then EmptyString :: split_lines s'
      else match split_lines s' with
           | l :: ls => String c l :: ls
           | [] => [String c EmptyString]
           end
  end.

(** [str(n)] for a natural number. *)
Definition of_nat (n : nat) : string :=
  DecimalString.NilZero.string_of_uint (Nat.to_uint n).

(** [int(s)] on a run of decimal digits. *)
Definition digits_value (s : string) : nat :=
  (fix go (s : string) (acc : nat) : nat :=
     match s with
     | EmptyString => acc
     | String c s' => go s' (10 * acc + (N.to_nat (code c) - 48))
     end) s O.

(** [sorted(names)]: the order of [str] is that of the code points. *)
Definition sorted (l : list string) : list string := merge_sort String.le l.

End PyStr.

(** ** The two regular expressions of the repository *)

Module Re.
Import PyStr.

(** [\s*(.+)], anchored: the greedy [\s*] gives characters back one at a
    time until [.+] finds a character that is not a newline. *)
Fixpoint ws_then_rest (s : string) : option string :=
  match s with
  | EmptyString => None
  | String c s' =>
      if is_space c then
        match ws_then_rest s' with
        | Some g => Some g
        | None => if is_newline c then None else Some (take_line s)
        end
      else Some (take_line s)
  end.

(** [==\s*(.+)], anchored. *)
Definition eq_then_rest (s : string) : option string :=
  if startswith s "==" then ws_then_rest (drop 2 s) else None.

(** [\s*==\s*(.+)], anchored. *)
Fixpoint ws_eq_then_rest (s : string) : option string :=
  match s with
  | EmptyString => None
  | String c s' =>
      if is_space c then
        match ws_eq_then_rest s' with
        | Some g => Some g
        | None => eq_then_rest s
        end
      else eq_then_rest s
  end.

(** [(.*?)\)\s*==\s*(.+)], anchored: the lazy group grows by one character
    (never a newline) each time the rest fails to match. *)
Fixpoint args_then_rest (s : string) : option (string * string) :=
  match s with
  | EmptyString => None
  | String c s' =>
      match (if ascii_eqb c ")"%char then ws_eq_then_rest s' else None) with
      | Some g => Some (EmptyString, g)
      | None =>
          if is_newline c then None
          else match args_then_rest s' with
               | Some (a, g) => Some (String c a, g)
               | None => None
               end
      end
  end.

(** [re.search(r"candidate\((.*?)\)\s*==\s*(.+)", s)]: groups 1 and 2 of
    the leftmost match. *)
Fixpoint search_candidate_eq (s : string) : option (string * string) :=
  match (if startswith s "candidate(" then args_then_rest (drop 10 s) else None) with
  | Some m => Some m
  | None =>
      match s with
      | EmptyString => None
      | String _ s' => search_candidate_eq s'
      end
  end.

(** [(\d+)] followed by the literal [word], anchored: the greedy [\d+]
    first takes one more digit, and gives it back when the rest fails. *)
Fixpoint digits_then (word : string) (s : string) : option string :=
  match s with
  | EmptyString => None
  | String c s' =>
      if is_digit c then
        match digits_then word s' with
        | Some d => Some (String c d)
        | None => if startswith s' word then Some (String c EmptyString) else None
        end
      else None
  end.

(** [re.search(r'(\d+) passed', s)] with [word] = [" passed"]: group 1 of
    the leftmost match. *)
Fixpoint search_count (word : string) (s : string) : option string :=
  match digits_then word s with
  | Some d => Some d
  | None =>
      match s with
      | EmptyString => None
      | String _ s' => search_count word s'
      end
  end.

End Re.

Import PyStr.

(** ** Exceptions, results and the state-and-exception monad *)

(** An exception as the code observes it: [type(e).__name__], [str(e)] and
    whether [except AssertionError] catches it. *)
Record exn := Exn {
  exn_type : string;
  exn_msg : string;
  exn_is_assertion : bool
}.

Definition ValueError (msg : string) : exn := Exn "ValueError" msg false.
Definition AttributeError (msg : string) : exn := Exn "AttributeError" msg false.
Definition IndexError (msg : string) : exn := Exn "IndexError" msg false.
Definition KeyError (msg : string) : exn := Exn "KeyError" msg false.
Definition FileNotFoundError (path : string) : exn :=
  Exn "FileNotFoundError" ("[Errno 2] No such file or directory: '" +:+ path +:+ "'") false.
Definition SameFileError (src dst : string) : exn :=
  Exn "SameFileError" ("'" +:+ src +:+ "' and '" +:+ dst +:+ "' are the same file") false.
Definition ZeroDivisionError : exn := Exn "ZeroDivisionError" "division by zero" false.

Inductive py_result (A : Type) : Type :=
| Returned (a : A)
| Raised (e : exn).
Arguments Returned {A} a.
Arguments Raised {A} e.

(** A computation over a state [S] that returns or raises; the state it
    leaves behind is kept in both cases. *)
Definition SE (S A : Type) : Type := S -> py_result A * S.

Definition ret {S A} (a : A) : SE S A := fun s => (Returned a, s).

Definition raise {S A} (e : exn) : SE S A := fun s => (Raised e, s).

Definition bind {S A B} (m : SE S A) (k : A -> SE S B) : SE S B :=
  fun s => match m s with
           | (Returned a, s') => k a s'
           | (Raised e, s') => (Raised e, s')
           end.

(** [try: m  except Exception as e: h e] *)
Definition try_except {S A} (m : SE S A) (h : exn -> SE S A) : SE S A :=
  fun s => match m s with
           | (Returned a, s') => (Returned a, s')
           | (Raised e, s') => h e s'
           end.

Definition lift {S A} (r : py_result A) : SE S A := fun s => (r, s).

Notation "x <- m ;; k" := (bind m (fun x => k))
  (at level 100, m at next level, right associativity).

Fixpoint mapM {S A B} (f : A -> SE S B) (l : list A) : SE S (list B) :=
  match l with
  | [] => ret []
  | a :: l' => b <- f a ;; bs <- mapM f l' ;; ret (b :: bs)
  end.

(** [a / b] on integers, where the quotient is only printed: the exact
    quotient, of which the float Python computes is the rounding. *)
Definition truediv (a b : nat) : py_result Q :=
  if Nat.eqb b 0 then Raised ZeroDivisionError
  else Returned (inject_Z (Z.of_nat a) / inject_Z (Z.of_nat b))%Q.

(** ** Syntax trees as [ast.walk] sees them *)

Inductive node_kind :=
| FunctionDef (name : string)
| OtherNode.

(** A node with its child nodes in the order of [ast.iter_child_nodes]. *)
#[warnings="-register-all"]
Inductive ast_node :=
| AstNode (kind : node_kind) (children : list ast_node).

Definition node_kind_of (n : ast_node) : node_kind :=
  match n with AstNode k _ => k end.

Definition child_nodes (n : ast_node) : list ast_node :=
  match n with AstNode _ cs => cs end.

Fixpoint node_count (n : ast_node) : nat :=
  match n with
  | AstNode _ cs => S (foldr (fun c acc => node_count c + acc) 0 cs)
  end.

Definition forest_count (l : list ast_node) : nat :=
  foldr (fun c acc => node_count c + acc) 0 l.

(** The loop of [ast.walk]: pop the leftmost node of the queue, extend the
    queue with its children, yield it. *)
Fixpoint walk_queue (fuel : nat) (todo : list ast_node) : list ast_node :=
  match fuel, todo with
  | S fuel', n :: rest => n :: walk_queue fuel' (rest ++ child_nodes n)
  | _, _ => []
  end.

(** [ast.walk(tree)] *)
Definition ast_walk (tree : ast_node) : list ast_node :=
  walk_queue (node_count tree) [tree].

(** The names, in the order of [ast.walk], of the [FunctionDef] nodes whose
    name does not start with an underscore. *)
Definition public_name (n : ast_node) : option string :=
  match node_kind_of n with
  | FunctionDef name => if negb (startswith name "_") then Some name else None
  | OtherNode => None
  end.

Definition public_function_names (tree : ast_node) : list string :=
  omap public_name (ast_walk tree).

(** ** Insertion-ordered dictionaries (a module's [_dict__]) *)

Section Dict.
Context {V : Type}.

Fixpoint dict_get (k : string) (d : list (string * V)) : option V :=
  match d with
  | [] => None
  | (k', v) :: d' => if String.eqb k k' then Some v else dict_get k d'
  end.

(** [d[k] = v]: a key that is present keeps its position. *)
Fixpoint dict_set (d : list (string * V)) (kv : string * V) : list (string * V) :=
  match d with
  | [] => [kv]
  | (k', v') :: d' =>
      if String.eqb (fst kv) k' then (k', snd kv) :: d'
      else (k', v') :: dict_set d' kv
  end.

Definition dict_keys (d : list (string * V)) : list string := map fst d.

End Dict.

(** ** The interpreter interface *)

(** The three lists of a runner: the tests it was given and the two lists
    it fills.  They are Python lists, changed in place by whoever holds
    them; an index is a Python integer. *)
Record lists := Lists {
  l_test_cases : list string;
  l_passed : list Z;
  l_failed : list (Z * string)
}.

(** [passed.append(i)] and [failed.append((i, reason))] *)
Definition add_passed (ls : lists) (i : Z) : lists :=
  Lists (l_test_cases ls) (l_passed ls ++ [i]) (l_failed ls).

Definition add_failed (ls : lists) (record : Z * string) : lists :=
  Lists (l_test_cases ls) (l_passed ls) (l_failed ls ++ [record]).

(** A computation on the interpreter's state alone, run where the lists
    are at hand: it leaves them as they are. *)
Definition lift_world {W A} (m : SE W A) : SE (W * lists) A :=
  fun s => match m (fst s) with
           | (r, w') => (r, (w', snd s))
           end.

(** The other local variables of [run_tests_and_report] inside the handler
    of [AssertionError], where [eval(input_val)] reads them. *)
Record frame (O : Type) := Frame {
  f_code_file : string;
  f_module : list (string * O);
  f_candidate : O;
  f_i : nat;
  f_test_case : string;
  f_test_code : string;
  f_error : exn
}.
Arguments Frame {O}.

(** What the repository's code asks of Python.  [world] is everything a
    loaded module and the calls into it may read and change.  [exec] is
    given a namespace of its own, in which the test code finds [candidate]
    and nothing of the runner.  [eval] is given none: the text it evaluates
    runs among the local variables of [run_tests_and_report], where it can
    name [test_cases], [passed] and [failed] and change them; what it
    returns can be one of these lists, which the call of the candidate and
    [repr] then receive. *)
Class PyInterp := {
  obj : Type;
  world : Type;
  py_None : obj;
  (** [callable(o)] *)
  callable : obj -> bool;
  (** the truth value of [o], as [not o] tests it *)
  truthy : obj -> bool;
  truthy_None : truthy py_None = false;
  (** [o.__name__] *)
  py_name : obj -> py_result string;
  (** [spec_from_file_location], [module_from_spec] and [exec_module]: the
      top-level bindings the file performs, in the order it performs them *)
  load_module : string -> SE world (list (string * obj));
  (** [exec(test_code, {'candidate': candidate})] *)
  py_exec : obj -> string -> SE world unit;
  (** [eval(input_val)] in the frame of [run_tests_and_report] *)
  py_eval : frame obj -> string -> SE (world * lists) obj;
  (** [candidate(arg)] on what [eval] returned *)
  py_call : obj -> obj -> SE (world * lists) obj;
  (** [repr(actual)] *)
  py_repr : obj -> SE (world * lists) string;
  (** [ast.parse(content)] *)
  ast_parse : string -> py_result ast_node
}.

(** The test-case normalisation shared by the three runners:
    [test_code = test_case.strip()], and [f"assert {test_code}"] unless
    [test_code.startswith('assert')]. *)
Definition normalize_test (test_case : string) : string :=
  let test_code := strip test_case in
  if negb (startswith test_code "assert") then "assert " +:+ test_code
  else test_code.

(** The attributes a module object has before the file's own code runs;
    their values are never inspected, every one is skipped by its name. *)
Definition module_header : list string :=
  ["__name__"; "__doc__"; "__package__"; "__loader__"; "__spec__";
   "__file__"; "__cached__"; "__builtins__"].

(** [l[i]] for a Python integer [i]: a negative index counts from the
    end. *)
Definition index {S} (l : list string) (i : Z) : SE S string :=
  let k := if (i <? 0)%Z then (i + Z.of_nat (length l))%Z else i in
  if (k <? 0)%Z then raise (IndexError "list index out of range")
  else match l !! Z.to_nat k with
       | Some t => ret t
       | None => raise (IndexError "list index out of range")
       end.

(** [float(n)] for the length of a list: exact below 2^53, which is more
    than a list can hold. *)
Definition float_of_nat (n : nat) : float :=
  PrimFloat.of_uint63 (Uint63.of_Z (Z.of_nat n)).

(** Line 120 (and line 57 of the notebook runner):
    [(len(passed) / len(test_cases)) * 100 if test_cases else 0], in the
    floating-point arithmetic of Python.  The [0] of an empty test list and
    the [0.0] of a failed load are one value here, as they are equal in
    Python. *)
Definition compute_pass_rate {A B} (passed : list A) (test_cases : list B) : float :=
  match test_cases with
  | _ :: _ => (float_of_nat (length passed) / float_of_nat (length test_cases) * 100)%float
  | [] => 0%float
  end.

Section Runner.
Context {py : PyInterp}.

(** The module's [_dict__] after the file has run. *)
Definition module_dict (bindings : list (string * obj)) : list (string * obj) :=
  foldl dict_set (map (fun k => (k, py_None)) module_header) bindings.

(** [dir(module)] *)
Definition dir (module : list (string * obj)) : list string :=
  sorted (dict_keys module).

(** [hasattr(module, name)] *)
Definition hasattr (module : list (string * obj)) (name : string) : bool :=
  match dict_get name module with Some _ => true | None => false end.

(** [getattr(module, name)] *)
Definition getattr {S} (module : list (string * obj)) (name : string) : SE S obj :=
  match dict_get name module with
  | Some o => ret o
  | None => raise (AttributeError ("module 'test_module' has no attribute '" +:+ name +:+ "'"))
  end.

(** The scan both runners share:
    [for name in names: obj = getattr(module, name);
       if not name.startswith('_') and callable(obj): candidate = obj; break],
    from [candidate = None]. *)
Fixpoint scan_callable {S} (module : list (string * obj)) (names : list string)
  : SE S (option obj) :=
  match names with
  | [] => ret None
  | name :: rest =>
      o <- getattr module name ;;
      if negb (startswith name "_") && callable o then ret (Some o)
      else scan_callable module rest
  end.

(** *** Task3/test_runner.py *)

(** Lines 34-53: the body of the first [try]. *)
Definition load_candidate (code_file : string)
  : SE world (list (string * obj) * obj) :=
  bindings <- load_module code_file ;;
  let module := module_dict bindings in
  candidate <-
    (if hasattr module "candidate" then getattr module "candidate"
     else
       found <- scan_callable module (dir module) ;;
       match found with
       | Some c => ret c
       | None => raise (ValueError "No function found in module")
       end) ;;
  _ <- lift (py_name candidate) ;;
  ret (module, candidate).

(** The value of [run_tests_and_report]; the two last keys are absent
    from the dictionary returned when loading fails. *)
Record report := Report {
  passed : list Z;
  failed : list (Z * string);
  total : nat;
  pass_rate : float;
  passed_tests : option (list string);
  failed_tests : option (list (string * string))
}.

(** [passed.append(i)] and [failed.append((i, reason))] in the loop. *)
Definition append_passed (i : Z) : SE (world * lists) unit :=
  fun s => (Returned tt, (fst s, add_passed (snd s) i)).

Definition append_failed (record : Z * string) : SE (world * lists) unit :=
  fun s => (Returned tt, (fst s, add_failed (snd s) record)).

(** Lines 97-112: the handler of [AssertionError], up to the message it
    appends to [failed]. *)
Definition assertion_reason (fr : frame obj) : SE (world * lists) string :=
  try_except
    (match Re.search_candidate_eq (f_test_code _ fr) with
     | Some (input_val, group2) =>
         let expected := strip group2 in
         arg <- py_eval fr input_val ;;
         actual <- py_call (f_candidate _ fr) arg ;;
         shown <- py_repr actual ;;
         ret ("Expected: " +:+ expected +:+ ", Got: " +:+ shown)
     | None => ret "Assertion failed"
     end)
    (fun ex => ret ("Assertion failed: " +:+ exn_msg ex)).

(** Lines 114-116: the handler of every other [Exception]. *)
Definition error_reason (e : exn) : string :=
  "Error: " +:+ exn_type e +:+ ": " +:+ exn_msg e.

(** Lines 68-117: one iteration of the loop, on the lists as they are. *)
Definition run_one (code_file : string)
    (module : list (string * obj)) (candidate : obj)
    (i : nat) (test_case : string) : SE (world * lists) unit :=
  let test_code := normalize_test test_case in
  try_except
    (_ <- lift_world (py_exec candidate test_code) ;;
     append_passed (Z.of_nat i))
    (fun e =>
       if exn_is_assertion e then
         reason <- assertion_reason
                     (Frame code_file module candidate i test_case test_code e) ;;
         append_failed (Z.of_nat i, reason)
       else
         append_failed (Z.of_nat i, error_reason e)).

(** [for i, test_case in enumerate(test_cases)], from the index [i] on.
    The iterator of a list reads the list as it is at each step: the loop
    goes on while [i < len(test_cases)], over whatever the iterations before
    left in [test_cases].  [fuel] bounds the number of iterations; the
    answer is [True] when the loop has ended and [False] when it would go
    on. *)
Fixpoint run_loop (fuel : nat) (code_file : string)
    (module : list (string * obj)) (candidate : obj)
    (i : nat) : SE (world * lists) bool :=
  fun s =>
    match l_test_cases (snd s) !! i with
    | None => (Returned true, s)
    | Some test_case =>
        match fuel with
        | O => (Returned false, s)
        | S fuel' =>
            (_ <- run_one code_file module candidate i test_case ;;
             run_loop fuel' code_file module candidate (S i)) s
        end
    end.

(** Lines 57-62: the dictionary returned when loading fails. *)
Definition load_failure_report (e : exn) (test_cases : list string) : report :=
  Report [] (map (fun i => (Z.of_nat i, exn_msg e)) (seq 0 (length test_cases)))
         (length test_cases) 0%float None None.

(** Lines 120-145, on the lists the loop left: the pass rate, the tests
    read back for the lines printed under [FAILED TESTS], and the
    dictionary. *)
Definition summary {S} (ls : lists) : SE S report :=
  let test_cases := l_test_cases ls in
  let pass_rate := compute_pass_rate (l_passed ls) test_cases in
  _ <- mapM (fun ie => index test_cases (fst ie)) (l_failed ls) ;;
  passed_tests <- mapM (index test_cases) (l_passed ls) ;;
  failed_tests <- mapM (fun ie => t <- index test_cases (fst ie) ;;
                                  ret (t, snd ie)) (l_failed ls) ;;
  ret (Report (l_passed ls) (l_failed ls) (length test_cases) pass_rate
              (Some passed_tests) (Some failed_tests)).

(** [run_tests_and_report(code_file, test_cases)]: [None] when the loop
    does not end within [fuel] iterations. *)
Definition run_tests_and_report (fuel : nat) (code_file : string)
    (test_cases : list string) : SE world (option report) :=
  loaded <- try_except
              (mc <- load_candidate code_file ;; ret (inr mc))
              (fun e => ret (inl (load_failure_report e test_cases))) ;;
  match loaded with
  | inl early => ret (Some early)
  | inr (module, candidate) =>
      fun w =>
        match run_loop fuel code_file module candidate 0
                (w, Lists test_cases [] []) with
        | (Returned true, (w', ls)) =>
            (r <- summary ls ;; ret (Some r)) w'
        | (Returned false, (w', _)) => (Returned None, w')
        | (Raised e, (w', _)) => (Raised e, w')
        end
  end.

(** [print_detailed_report(result)], as far as it can raise: it reads
    [result['passed_tests']] when [result['passed']] is not empty and
    [result['failed_tests']] when [result['failed']] is not empty. *)
Definition print_detailed_report {S} (result : report) : SE S unit :=
  _ <- match passed result, passed_tests result with
       | _ :: _, None => raise (KeyError "'passed_tests'")
       | _, _ => ret tt
       end ;;
  match failed result, failed_tests result with
  | _ :: _, None => raise (KeyError "'failed_tests'")
  | _, _ => ret tt
  end.

(** *** Task2/test_runner_notebook.py *)

(** The value of [run_tests]. *)
Record nb_report := NbReport {
  nb_passed : list nat;
  nb_failed : list (nat * string);
  nb_total : nat;
  nb_pass_rate : float;
  nb_passed_count : nat;
  nb_failed_count : nat;
  nb_failed_tests : list (nat * string * string)
}.

(** Lines 28-39: no [try] around loading, and the scan may leave
    [candidate] at [None]. *)
Definition nb_load_candidate (code_file : string) : SE world obj :=
  bindings <- load_module code_file ;;
  let module := module_dict bindings in
  let candidate := default py_None (dict_get "candidate" module) in
  if negb (truthy candidate) then
    found <- scan_callable module (dir module) ;;
    ret (default candidate found)
  else ret candidate.

(** Lines 45-55: one iteration.  Nothing here evaluates a text among the
    runner's variables, so the lists are the runner's own: indices it
    appended, in lists no test can reach. *)
Definition nb_run_one (candidate : obj) (i : nat) (test_case : string)
    (acc : list nat * list (nat * string))
  : SE world (list nat * list (nat * string)) :=
  let '(passed, failed) := acc in
  try_except
    (_ <- py_exec candidate (normalize_test test_case) ;;
     ret (passed ++ [i], failed))
    (fun e => ret (passed, failed ++ [(i, exn_msg e)])).

Fixpoint nb_run_loop (candidate : obj) (i : nat) (rest : list string)
    (acc : list nat * list (nat * string))
  : SE world (list nat * list (nat * string)) :=
  match rest with
  | [] => ret acc
  | test_case :: rest' =>
      acc' <- nb_run_one candidate i test_case acc ;;
      nb_run_loop candidate (S i) rest' acc'
  end.

(** [run_tests(code_file, test_cases)] *)
Definition run_tests (code_file : string) (test_cases : list string)
  : SE world nb_report :=
  candidate <- nb_load_candidate code_file ;;
  lists <- nb_run_loop candidate 0 test_cases ([], []) ;;
  let '(passed, failed) := lists in
  let pass_rate := compute_pass_rate passed test_cases in
  failed_tests <- mapM (fun ie => t <- index test_cases (Z.of_nat (fst ie)) ;;
                                  ret (fst ie, t, snd ie)) failed ;;
  ret (NbReport passed failed (length test_cases) pass_rate
                (length passed) (length failed) failed_tests).

End Runner.

(** ** Files *)

(** The file system, as far as the enhancer and the analyzer use it: the
    text of every file that exists, under its path.  A path is the name of
    one file: two paths that differ name two files (no links, no two
    spellings of one path), and the directory of a path that is written
    exists, so that writing never fails here. *)
Abbreviation files := (gmap string string).

(** [open(path, "r").read()] *)
Definition read_file (path : string) : SE files string :=
  fun fs => match fs !! path with
            | Some content => (Returned content, fs)
            | None => (Raised (FileNotFoundError path), fs)
            end.

(** [open(path, "w").write(content)] *)
Definition write_file (path content : string) : SE files unit :=
  fun fs => (Returned tt, <[path := content]> fs).

(** [shutil.copy2(src, dst)] *)
Definition copy2 (src dst : string) : SE files unit :=
  fun fs => match fs !! src with
            | None => (Raised (FileNotFoundError src), fs)
            | Some content =>
                if String.eqb src dst then (Raised (SameFileError src dst), fs)
                else (Returned tt, <[dst := content]> fs)
            end.

Definition nl : string := String newline EmptyString.

(** A double quote. *)
Definition dq : string := String (Ascii.ascii_of_N 34) EmptyString.

(** [''.join(parts)] *)
Definition join (parts : list string) : string := foldr String.append EmptyString parts.

(** ** code_enhancer.py *)

Section Enhancer.
Context {py : PyInterp}.

(** Lines 43-52: the aliases a primary function needs. *)
Definition needed_aliases_for (primary_func problem_id : string) : list string :=
  (if negb (String.eqb primary_func "candidate") then ["candidate"] else [])
  ++ (if String.eqb problem_id "HumanEval/94"
         && negb (String.eqb primary_func "skjkasdkd")
      then ["skjkasdkd"] else []).

(** [CodeEnhancer.get_function_info(file_path, problem_id)] *)
Definition get_function_info (file_path problem_id : string)
  : SE files (option string * list string) :=
  try_except
    (content <- read_file file_path ;;
     tree <- lift (ast_parse content) ;;
     match public_function_names tree with
     | [] => ret (None, [])
     | primary_func :: _ =>
         ret (Some primary_func, needed_aliases_for primary_func problem_id)
     end)
    (fun e => ret (None, [])).

(** Lines 86-90: the text written for an enhanced file. *)
Definition enhanced_text (content primary_func : string) (needed_aliases : list string)
  : string :=
  rstrip content +:+ nl +:+ nl
  +:+ "# Auto-generated aliases for test compatibility" +:+ nl
  +:+ join (map (fun alias => alias +:+ " = " +:+ primary_func +:+ nl) needed_aliases).

(** [CodeEnhancer.enhance_file(source_path, target_path, problem_id)] *)
Definition enhance_file (source_path target_path problem_id : string)
  : SE files bool :=
  try_except
    (content <- read_file source_path ;;
     info <- get_function_info source_path problem_id ;;
     let '(primary, aliases) := info in
     match primary, aliases with
     | Some (String c p), _ :: _ =>
         let primary_func := String c p in
         let needed_aliases := filter (fun alias => negb (contains content alias)) aliases in
         match needed_aliases with
         | [] => _ <- copy2 source_path target_path ;; ret false
         | _ :: _ =>
             _ <- write_file target_path
                    (enhanced_text content primary_func needed_aliases) ;;
             ret true
         end
     | _, _ => _ <- copy2 source_path target_path ;; ret false
     end)
    (fun e => _ <- copy2 source_path target_path ;; ret false).

(** What [get_function_info] returns for a file that reads as [content]. *)
Definition info_of_text (content problem_id : string) : option string * list string :=
  match ast_parse content with
  | Returned tree =>
      match public_function_names tree with
      | [] => (None, [])
      | primary_func :: _ =>
          (Some primary_func, needed_aliases_for primary_func problem_id)
      end
  | Raised _ => (None, [])
  end.

(** What [enhance_file] returns and leaves at the target, for a source that
    reads as [content] and the answer [info] of [get_function_info]. *)
Definition target_text (content : string) (info : option string * list string)
  : bool * string :=
  match info with
  | (Some (String c p), (_ :: _) as aliases) =>
      match filter (fun alias => negb (contains content alias)) aliases with
      | [] => (false, content)
      | (_ :: _) as needed_aliases =>
          (true, enhanced_text content (String c p) needed_aliases)
      end
  | _ => (false, content)
  end.

End Enhancer.

(** ** pytest_cov_enhanced_analyzer.py *)

(** What [subprocess.run(cmd, ..., timeout=30)] does: the process ends in
    time with its two outputs, or the 30 seconds pass first and
    [TimeoutExpired] is raised, or starting it raises something else. *)
Inductive run_outcome :=
| Completed (stdout stderr : string)
| TimeoutExpired
| RunError (e : exn).

(** The host of the analyzer: temporary directories, paths, the [pytest]
    process and the coverage file it leaves. *)
Class Host := {
  (** [tempfile.mkdtemp(prefix=...)] *)
  mkdtemp : string -> files -> string;
  (** [Path(p).stem] *)
  path_stem : string -> string;
  (** [str(Path(p).parent.absolute())] *)
  path_parent_absolute : string -> string;
  (** [subprocess.run(cmd, capture_output=True, text=True, cwd=..., timeout=30)] *)
  subprocess_run : list string -> string -> files -> run_outcome;
  (** [_parse_coverage(coverage_json, solution_path)] *)
  _parse_coverage : string -> string -> files -> Q * option Q
}.

Record CoverageResult := MkCoverageResult {
  problem_id : string;
  llm_implementation : string;
  tests_passed : nat;
  tests_failed : nat;
  total_tests : nat;
  line_coverage : Q;
  branch_coverage : option Q;
  interpretation : string;
  error_details : list string
}.

Section Analyzer.
Context {py : PyInterp} {host : Host}.

(** [PytestCovAnalyzer.get_function_name(solution_path, problem_id)] *)
Definition get_function_name (solution_path problem_id : string)
  : SE files string :=
  try_except
    (content <- read_file solution_path ;;
     if String.eqb problem_id "HumanEval/94" && contains content "def skjkasdkd"
     then ret "skjkasdkd"
     else
       tree <- lift (ast_parse content) ;;
       match public_function_names tree with
       | name :: _ => ret name
       | [] => ret "candidate"
       end)
    (fun e => ret "candidate").

(** [s.split('/')[-1]] *)
Fixpoint last_segment (s : string) : string :=
  match s with
  | EmptyString => EmptyString
  | String c s' =>
      if contains s' "/" then last_segment s'
      else if ascii_eqb c "/"%char then s' else s
  end.

(** [os.path.join(a, b)] for a relative [b]. *)
Fixpoint path_join (a b : string) : string :=
  match a with
  | EmptyString => b
  | String c EmptyString => if ascii_eqb c "/"%char then String c b else String c ("/" +:+ b)
  | String c a' => String c (path_join a' b)
  end.

(** Lines 93-107: the head of the generated test file. *)
Definition test_file_header (problem_id solution_dir solution_module func_name : string)
  : string :=
  join [ "# Auto-generated pytest test for "; problem_id; nl;
         "import sys"; nl;
         "sys.path.insert(0, r'"; solution_dir; "')"; nl;
         nl;
         "try:"; nl;
         "    from "; solution_module; " import "; func_name; nl;
         "except ImportError as e:"; nl;
         "    print(f"; dq; "Import error: {e}"; dq; ")"; nl;
         "    "; func_name; " = None"; nl;
         nl;
         "# Create aliases for test compatibility"; nl;
         "candidate = "; func_name; nl;
         "skjkasdkd = "; func_name; "  # For HumanEval/94"; nl;
         nl ].

(** Lines 116-120: the test function number [i]. *)
Definition test_function (i : nat) (test_case : string) : string :=
  join [ nl;
         "def test_case_"; of_nat i; "():"; nl;
         "    "; dq; dq; dq; "Test case "; of_nat (i + 1); dq; dq; dq; nl;
         "    "; normalize_test test_case; nl ].

(** Lines 110-120: [for i, test_case in enumerate(test_cases)]. *)
Fixpoint test_functions (i : nat) (test_cases : list string) : string :=
  match test_cases with
  | [] => EmptyString
  | test_case :: rest => test_function i test_case +:+ test_functions (S i) rest
  end.

(** [create_pytest_test_file(solution_path, test_cases, problem_id, temp_dir)] *)
Definition create_pytest_test_file (solution_path : string) (test_cases : list string)
    (problem_id temp_dir : string) : SE files string :=
  let problem_num := last_segment problem_id in
  let test_file_path :=
    path_join temp_dir ("test_humaneval_" +:+ problem_num +:+ ".py") in
  func_name <- get_function_name solution_path problem_id ;;
  let solution_module := path_stem solution_path in
  let solution_dir := path_parent_absolute solution_path in
  let test_content :=
    test_file_header problem_id solution_dir solution_module func_name
    +:+ test_functions 0 test_cases in
  _ <- write_file test_file_path test_content ;;
  ret test_file_path.

(** [_parse_test_counts(output, total_tests)] *)
Definition _parse_test_counts (output : string) (total_tests : nat) : nat * nat :=
  let passed := match Re.search_count " passed" output with
                | Some d => digits_value d | None => 0 end in
  let failed := match Re.search_count " failed" output with
                | Some d => digits_value d | None => 0 end in
  if Nat.eqb passed 0 && Nat.eqb failed 0 then
    if contains (lower output) "passed" then (total_tests, failed)
    else (passed, total_tests)
  else (passed, failed).

Definition Qltb (a b : Q) : bool := negb (Qle_bool b a).

(** [_generate_interpretation(passed, failed, line_cov, branch_cov)] *)
Definition _generate_interpretation (passed failed : nat) (line_cov : Q)
    (branch_cov : option Q) : string :=
  if Nat.ltb 0 failed then
    of_nat failed +:+ " test(s) failed - fix failing tests first"
  else if Qltb line_cov 50 then
    "Low line coverage - significant untested code paths"
  else if Qltb line_cov 80 then
    "Moderate line coverage - some untested code paths"
  else
    match (match branch_cov with
           | Some b =>
               if Qltb b 50 then
                 Some "Low branch coverage - untested conditional logic and error paths"
               else if Qltb b 80 then
                 Some "Moderate branch coverage - some conditional branches untested"
               else None
           | None => None
           end) with
    | Some text => text
    | None =>
        if Qle_bool 90 line_cov then
          match branch_cov with
          | Some b =>
              if negb (Qeq_bool b 0) && Qle_bool 90 b then
                "Excellent coverage - well-tested code"
              else if negb (Qeq_bool b 0) then
                "Good line coverage but some branches untested"
              else "Good line coverage achieved"
          | None => "Good line coverage achieved"
          end
        else "Adequate coverage"
    end.

(** [_extract_errors(output)]: the first three lines that mention a
    failure, stripped. *)
Fixpoint _extract_errors_from (lines : list string) (errors : list string)
  : list string :=
  match lines with
  | [] => errors
  | line :: rest =>
      if contains line "FAILED" || contains line "ERROR"
         || contains line "AssertionError"
      then
        let errors' := errors ++ [strip line] in
        if Nat.leb 3 (length errors') then errors'
        else _extract_errors_from rest errors'
      else _extract_errors_from rest errors
  end.

Definition _extract_errors (output : string) : list string :=
  _extract_errors_from (split_lines output) [].

(** [shutil.rmtree(temp_dir)] inside [try: ... except: pass]. *)
Definition cleanup (temp_dir : string) : SE files unit :=
  fun fs => (Returned tt,
             filter (fun kv => negb (startswith (fst kv) (temp_dir +:+ "/"))) fs).

(** The command line of lines 144-155. *)
Definition pytest_command (test_file solution_module coverage_json html_temp_dir : string)
  : list string :=
  [ "pytest"; test_file;
    "--cov=" +:+ solution_module;
    "--cov-branch";
    "--cov-report=term-missing";
    "--cov-report=json:" +:+ coverage_json;
    "--cov-report=html:" +:+ html_temp_dir;
    "-v"; "--tb=line"; "-p"; "no:warnings" ].

(** [run_pytest_with_coverage(solution_path, test_cases, problem_id, ...)];
    the HTML report it may copy aside does not reach the result. *)
Definition run_pytest_with_coverage (solution_path : string)
    (test_cases : list string) (problem_id : string) : SE files CoverageResult :=
  fun fs0 =>
    let temp_dir := mkdtemp "pytest_cov_" fs0 in
    let body : SE files CoverageResult :=
      try_except
        (test_file <- create_pytest_test_file solution_path test_cases
                        problem_id temp_dir ;;
         let solution_module := path_stem solution_path in
         let coverage_json := path_join temp_dir "coverage.json" in
         let html_temp_dir := path_join temp_dir "htmlcov" in
         let cmd := pytest_command test_file solution_module coverage_json
                      html_temp_dir in
         fun fs =>
           match subprocess_run cmd temp_dir fs with
           | Completed stdout stderr =>
               let '(tests_passed, tests_failed) :=
                 _parse_test_counts (stdout +:+ stderr) (length test_cases) in
               let '(line_cov, branch_cov) :=
                 _parse_coverage coverage_json solution_path fs in
               (Returned
                  (MkCoverageResult problem_id "" tests_passed tests_failed
                     (length test_cases) line_cov branch_cov
                     (_generate_interpretation tests_passed tests_failed
                        line_cov branch_cov)
                     (_extract_errors (stdout +:+ stderr))), fs)
           | TimeoutExpired =>
               (Returned
                  (MkCoverageResult problem_id "" 0 (length test_cases)
                     (length test_cases) 0%Q None
                     "Timeout - execution exceeded 30 seconds" ["Timeout"]), fs)
           | RunError e => (Raised e, fs)
           end)
        (fun e =>
           ret (MkCoverageResult problem_id "" 0 (length test_cases)
                  (length test_cases) 0%Q None
                  ("Error: " +:+ exn_msg e) [exn_msg e])) in
    match body fs0 with
    | (r, fs) => (r, snd (cleanup temp_dir fs))
    end.

(** What the one [subprocess.run] of [run_pytest_with_coverage] does, for
    the test file it has just written. *)
Definition pytest_outcome (solution_path : string) (test_cases : list string)
    (problem_id : string) (fs0 : files) : run_outcome :=
  let temp_dir := mkdtemp "pytest_cov_" fs0 in
  match create_pytest_test_file solution_path test_cases problem_id temp_dir fs0 with
  | (Returned test_file, fs) =>
      subprocess_run
        (pytest_command test_file (path_stem solution_path)
           (path_join temp_dir "coverage.json") (path_join temp_dir "htmlcov"))
        temp_dir fs
  | (Raised e, _) => RunError e
  end.

End Analyzer.

(** ** Outcomes, one per test: the reading of the loops the properties use *)






Section Classification.
Context {py : PyInterp}.





(** The claim that a runner tells runtime faults from assertion failures:
    a test whose [exec] raises [e], not an [AssertionError], is recorded
    with a message that names [e]'s type and carries its text, and that no
    test failing an assertion is recorded with. *)
Definition tags_runtime_faults
    (step : obj -> nat -> string -> list nat * list (nat * string)
            -> SE world (list nat * list (nat * string))) : Prop :=
  forall candidate i test_case passed failed w e w',
    py_exec candidate (normalize_test test_case) w = (Raised e, w') ->
    exn_is_assertion e = false ->
    exists reason w'',
      step candidate i test_case (passed, failed) w
      = (Returned (passed, failed ++ [(i, reason)]), w'')
      /\ contains reason (exn_type e) = true
      /\ contains reason (exn_msg e) = true
      /\ forall test_case2 w2 e2 w2' reason2 w2'',
           py_exec candidate (normalize_test test_case2) w2 = (Raised e2, w2') ->
           exn_is_assertion e2 = true ->
           step candidate i test_case2 (passed, failed) w2
           = (Returned (passed, failed ++ [(i, reason2)]), w2'') ->
           reason2 <> reason.

(** The claim that a runner survives an artifact it cannot load or
    resolve: when loading raises [e], the run returns, with every test
    recorded under the text of [e] and a pass rate of 0. *)
Definition survives_load_failure {L R : Type}
    (load : string -> SE world L)
    (run : string -> list string -> SE world R)
    (r_passed : R -> list nat) (r_failed : R -> list (nat * string))
    (r_rate : R -> float) : Prop :=
  forall code_file test_cases w e w',
    load code_file w = (Raised e, w') ->
    exists r w'',
      run code_file test_cases w = (Returned r, w'')
      /\ r_passed r = []
      /\ r_failed r = map (fun i => (i, exn_msg e)) (seq 0 (length test_cases))
      /\ r_rate r = 0%float.

End Classification.

(** ** A small interpreter, to run the model on concrete artifacts *)

Module Toy.

Inductive value :=
| VNone
| VInt (n : nat)
| VFun (name : string).

Definition value_callable (v : value) : bool :=
  match v with VFun _ => true | _ => false end.

Definition value_truthy (v : value) : bool :=
  match v with VNone => false | VInt n => negb (Nat.eqb n 0) | VFun _ => true end.

Definition value_name (v : value) : py_result string :=
  match v with
  | VFun name => Returned name
  | VInt _ => Raised (AttributeError "'int' object has no attribute '__name__'")
  | VNone => Raised (AttributeError "'NoneType' object has no attribute '__name__'")
  end.

Definition SyntaxError : exn := Exn "SyntaxError" "invalid syntax" false.
Definition TypeError (msg : string) : exn := Exn "TypeError" msg false.
Definition NameError (name : string) : exn :=
  Exn "NameError" ("name '" +:+ name +:+ "' is not defined") false.
Definition AssertionError (msg : string) : exn := Exn "AssertionError" msg true.

Fixpoint all_digits (s : string) : bool :=
  match s with
  | EmptyString => true
  | String c s' => is_digit c && all_digits s'
  end.

(** The text before the first occurrence of the character [stop]. *)
Fixpoint take_until (stop : ascii) (s : string) : string :=
  match s with
  | EmptyString => EmptyString
  | String c s' => if ascii_eqb c stop then EmptyString else String c (take_until stop s')
  end.

(** The state counts the calls made to the function under test. *)
Definition calls := nat.

(** Expressions are decimal literals. *)
Definition eval_literal (s : string) : SE calls value :=
  match s with
  | EmptyString => raise SyntaxError
  | _ => if all_digits s then ret (VInt (digits_value s)) else raise (NameError s)
  end.

(** The text of the [TypeError] of [None * None]. *)
Definition none_times_none : string :=
  "unsupported operand type(s) for *: 'NoneType' and 'NoneType'".

Definition call (f arg : value) : SE calls value :=
  fun n =>
    match f, arg with
    | VFun "square", VInt k => (Returned (VInt (k * k)), S n)
    | VFun "square", VNone => (Raised (TypeError none_times_none), S n)
    | VFun "square", VFun _ =>
        (Raised (TypeError
                   "unsupported operand type(s) for *: 'function' and 'function'"),
         S n)
    | VFun "reciprocal", VInt 0 => (Raised ZeroDivisionError, S n)
    | VFun "reciprocal", VInt k => (Returned (VInt (1 / k)), S n)
    | VFun _, _ => (Returned arg, S n)
    | VInt _, _ => (Raised (TypeError "'int' object is not callable"), n)
    | VNone, _ => (Raised (TypeError "'NoneType' object is not callable"), n)
    end.

Definition repr (v : value) : SE calls string :=
  match v with
  | VNone => ret "None"
  | VInt k => ret (of_nat k)
  | VFun name => ret ("<function " +:+ name +:+ ">")
  end.

(** Statements are [assert True], [assert False], [assert False, 'text'],
    [assert 0 and ...], where nothing after [and] is evaluated, and
    [assert candidate(literal) == literal]. *)
Definition exec (candidate : value) (code : string) : SE calls unit :=
  if negb (startswith code "assert ") then raise SyntaxError
  else
    let body := drop 7 code in
    if String.eqb body "True" then ret tt
    else if String.eqb body "False" then raise (AssertionError "")
    else if startswith body "0 and " then raise (AssertionError "")
    else if startswith body "False, '" then
      raise (AssertionError (take_until "'"%char (drop 8 body)))
    else
      match Re.search_candidate_eq body with
      | Some (input_val, group2) =>
          arg <- eval_literal input_val ;;
          actual <- call candidate arg ;;
          shown <- repr actual ;;
          if String.eqb shown (strip group2) then ret tt
          else raise (AssertionError "")
      | None => raise SyntaxError
      end.

(** The integers written in a text, in its order. *)
Fixpoint scan_ints (cur : option nat) (s : string) : list Z :=
  match s with
  | EmptyString =>
      match cur with Some n => [Z.of_nat n] | None => [] end
  | String c s' =>
      if is_digit c then
        scan_ints (Some (10 * default 0 cur + (N.to_nat (code c) - 48))) s'
      else
        match cur with
        | Some n => Z.of_nat n :: scan_ints None s'
        | None => scan_ints None s'
        end
  end.

(** [eval] in the frame of the runner.  Besides decimal literals the
    expressions are [passed.append(n)], [passed.extend([n, ...])] and
    [test_cases.append(test_case)], which change a list of the runner and
    have the value [None]. *)
Definition eval (fr : frame value) (s : string) : SE (calls * lists) value :=
  if startswith s "passed.append(" || startswith s "passed.extend(" then
    fun st =>
      (Returned VNone,
       (fst st, Lists (l_test_cases (snd st))
                  (l_passed (snd st) ++ scan_ints None (drop 14 s))
                  (l_failed (snd st))))
  else if String.eqb s "test_cases.append(test_case)" then
    fun st =>
      (Returned VNone,
       (fst st, Lists (l_test_cases (snd st) ++ [f_test_case _ fr])
                  (l_passed (snd st)) (l_failed (snd st))))
  else lift_world (eval_literal s).

Definition def (name : string) : string * value := (name, VFun name).

(** The artifacts of the examples. *)
Definition load (code_file : string) : SE calls (list (string * value)) :=
  if String.eqb code_file "square.py" then ret [("candidate", VFun "square")]
  else if String.eqb code_file "reciprocal.py" then ret [def "reciprocal"]
  else if String.eqb code_file "solution.py" then
    ret [def "foo"; def "_helper"; def "bar"]
  else if String.eqb code_file "private.py" then
    ret [("limit", VInt 3); def "_helper"]
  else if String.eqb code_file "broken.py" then raise SyntaxError
  else raise (FileNotFoundError code_file).

(** A parser for flat files: every line [def name(...] at the left margin
    is a function definition; a line [def (] is a syntax error. *)
Definition parse_line (line : string) : py_result (list ast_node) :=
  if startswith line "def (" then Raised SyntaxError
  else if startswith line "def " then
    Returned [AstNode (FunctionDef (take_until "("%char (drop 4 line))) []]
  else Returned [].

Fixpoint parse_lines (lines : list string) : py_result (list ast_node) :=
  match lines with
  | [] => Returned []
  | line :: rest =>
      match parse_line line, parse_lines rest with
      | Returned a, Returned b => Returned (a ++ b)
      | Raised e, _ => Raised e
      | _, Raised e => Raised e
      end
  end.

Definition parse (content : string) : py_result ast_node :=
  match parse_lines (split_lines content) with
  | Returned body => Returned (AstNode OtherNode body)
  | Raised e => Raised e
  end.

Definition interp : PyInterp := {|
  obj := value;
  world := calls;
  py_None := VNone;
  callable := value_callable;
  truthy := value_truthy;
  truthy_None := eq_refl;
  py_name := value_name;
  load_module := load;
  py_exec := exec;
  py_eval := eval;
  py_call := fun f arg => lift_world (call f arg);
  py_repr := fun v => lift_world (repr v);
  ast_parse := parse
|}.

(** A host whose [pytest] process ends the way [outcome] says. *)
Definition host (outcome : run_outcome) : Host := {|
  mkdtemp := fun prefix _ => "/tmp/" +:+ prefix +:+ "0";
  path_stem := fun p => take_until "."%char (last_segment p);
  path_parent_absolute := fun p => "/work";
  subprocess_run := fun _ _ _ => outcome;
  _parse_coverage := fun _ _ _ => (0%Q, None)
|}.

(** A solution for HumanEval/94 under another name. *)
Definition solution_94 : string :=
  join [ "def largest_prime_digit_sum(lst):"; nl;
         "    return 0"; nl;
         nl; nl ].

(** The same solution with a comment that mentions the name the benchmark
    uses, and a solution whose function has a name that starts with it. *)
Definition solution_94_commented : string :=
  join [ "# HumanEval/94 calls this function skjkasdkd"; nl;
         "def largest_prime_digit_sum(lst):"; nl;
         "    return 0"; nl ].

Definition solution_94_v2 : string :=
  join [ "def skjkasdkd_v2(lst):"; nl;
         "    return 0"; nl ].

End Toy.


(** The module of the squaring artifact, and a file system with one
    solution in it. *)
Definition square_module : list (string * Toy.value) :=
  module_dict (py := Toy.interp) [("candidate", Toy.VFun "square")].

Definition reciprocal_module : list (string * Toy.value) :=
  module_dict (py := Toy.interp) [Toy.def "reciprocal"].

Definition one_solution : files := {["codes/HumanEval_94.py" := Toy.solution_94]}.

Definition commented_solution : files :=
  {["codes/HumanEval_94.py" := Toy.solution_94_commented]}.

Definition v2_solution : files :=
  {["codes/HumanEval_94.py" := Toy.solution_94_v2]}.

(** ** Further artifacts and readings, for the properties beyond the
    specification *)

Fixpoint no_newline (s : string) : bool :=
  match s with
  | EmptyString => true
  | String c s' => negb (is_newline c) && no_newline s'
  end.

(** The small interpreter with another table of artifacts. *)
Definition interp_loading
    (loader : string -> SE Toy.calls (list (string * Toy.value))) : PyInterp := {|
  obj := Toy.value;
  world := Toy.calls;
  py_None := Toy.VNone;
  callable := Toy.value_callable;
  truthy := Toy.value_truthy;
  truthy_None := eq_refl;
  py_name := Toy.value_name;
  load_module := loader;
  py_exec := Toy.exec;
  py_eval := Toy.eval;
  py_call := fun f arg => lift_world (Toy.call f arg);
  py_repr := fun v => lift_world (Toy.repr v);
  ast_parse := Toy.parse
|}.

(** An artifact whose [candidate] is a number, not a function. *)
Definition load_number (code_file : string) : SE Toy.calls (list (string * Toy.value)) :=
  ret [Toy.def "helper"; ("candidate", Toy.VInt 5)].

(** A text is at the end of a line: nothing follows, or a newline does. *)
Definition end_of_line (s : string) : bool :=
  match s with
  | EmptyString => true
  | String c _ => is_newline c
  end.

(** The language of [candidate\((.*?)\)\s*==\s*(.+)] with its two groups:
    [s] holds [candidate(], the first group, [)], whitespace, [==],
    whitespace, and the second group up to the end of its line. *)
Definition equality_form (s args expected : string) : Prop :=
  exists before ws1 ws2 after,
    s = before +:+ "candidate(" +:+ args +:+ ")" +:+ ws1 +:+ "==" +:+ ws2
        +:+ expected +:+ after
    /\ all_space ws1 = true /\ all_space ws2 = true
    /\ no_newline args = true
    /\ expected <> "" /\ no_newline expected = true
    /\ end_of_line after = true.

(** [s.replace(old, new)]: the occurrences of [old] are taken from the
    left and do not overlap; [skip] counts the characters of the occurrence
    in hand that are still to pass. *)
Fixpoint replace_from (skip : nat) (old new s : string) : string :=
  match s with
  | EmptyString => EmptyString
  | String c s' =>
      match skip with
      | S k => replace_from k old new s'
      | O =>
          if startswith s old
          then new +:+ replace_from (String.length old - 1) old new s'
          else String c (replace_from 0 old new s')
      end
  end.

Definition replace (old new s : string) : string :=
  match old with
  | EmptyString =>
      new +:+ (fix between (s : string) : string :=
                 match s with
                 | EmptyString => EmptyString
                 | String c s' => String c (new +:+ between s')
                 end) s
  | String _ _ => replace_from 0 old new s
  end.

(** Lines 149-150 of [enhance_all_codes]: the problem of a file name. *)
Definition problem_id_of_filename (filename : string) : string :=
  let problem_num := replace ".py" "" (replace "HumanEval_" "" filename) in
  "HumanEval/" +:+ problem_num.

(** Lines 348-349 of [analyze_all_solutions]: the file name of a problem. *)
Definition solution_file_of_problem (problem_id : string) : string :=
  let problem_num := last_segment problem_id in
  "HumanEval_" +:+ problem_num +:+ ".py".

Fixpoint only_digits (s : string) : bool :=
  match s with
  | EmptyString => true
  | String c s' => is_digit c && only_digits s'
  end.

Fixpoint ends_with_digit (s : string) : bool :=
  match s with
  | EmptyString => false
  | String c EmptyString => is_digit c
  | String _ s' => ends_with_digit s'
  end.

Fixpoint no_digit (s : string) : bool :=
  match s with
  | EmptyString => true
  | String c s' => negb (is_digit c) && no_digit s'
  end.

(** The test of line 304 of [_extract_errors]. *)
Definition mentions_failure (line : string) : bool :=
  contains line "FAILED" || contains line "ERROR" || contains line "AssertionError".

(** [sum(...)] over naturals and over rationals. *)
Definition sum_nat (l : list nat) : nat := foldr Nat.add 0 l.
Definition sum_Q (l : list Q) : Q := foldr Qplus 0%Q l.

(** The overall statistics of lines 692-707 of [main], as it computes and
    formats them: the totals, the two guarded averages, and the share of
    passed tests that line 704 prints. *)
Record statistics := Statistics {
  st_total_tests : nat;
  st_total_passed : nat;
  st_avg_line_cov : Q;
  st_avg_branch_cov : Q;
  st_passed_share : Q
}.

Definition overall_statistics (results : list CoverageResult) : py_result statistics :=
  let total_tests := sum_nat (map total_tests results) in
  let total_passed := sum_nat (map tests_passed results) in
  let avg_line_cov :=
    match results with
    | _ :: _ => (sum_Q (map line_coverage results)
                 / inject_Z (Z.of_nat (length results)))%Q
    | [] => 0%Q
    end in
  let branch_covs := omap branch_coverage results in
  let avg_branch_cov :=
    match branch_covs with
    | _ :: _ => (sum_Q branch_covs / inject_Z (Z.of_nat (length branch_covs)))%Q
    | [] => 0%Q
    end in
  match truediv total_passed total_tests with
  | Returned share =>
      Returned (Statistics total_tests total_passed avg_line_cov avg_branch_cov
                  (share * 100)%Q)
  | Raised e => Raised e
  end.

(** ** Task3/Buggy_code_files/apps.py

    The artifact the runner of Task 3 is pointed at.  The model starts at
    line 19 of [candidate], with the four numbers and the heights already
    read: [A], [R] and [M] are the prices of adding, removing and moving a
    brick, [h] is [list(map(int, parts[4:]))].  Python's integers are
    unbounded, so they are [Z]. *)

Module Apps.

(** Lines 31-33. *)
Definition move_cost (A R M : Z) : Z :=
  let move_cost := if (M <? A + R)%Z then M else (A + R)%Z in
  if (move_cost >=? Z.max A R)%Z then Z.min move_cost (A + R) else move_cost.

(** The loop of lines 42-46 of [cost]: one height. *)
Definition tally (H : Z) (acc : Z * Z) (x : Z) : Z * Z :=
  let '(surplus, deficit) := acc in
  if (x >? H)%Z then ((surplus + (x - H))%Z, deficit)
  else if (x <? H)%Z then (surplus, (deficit + (H - x))%Z)
  else (surplus, deficit).

(** [cost(H)], lines 39-51, over the list [h] and the [move_cost] it closes
    over. *)
Definition cost (h : list Z) (A R move_cost : Z) (H : Z) : Z :=
  let '(surplus, deficit) := foldl (tally H) (0%Z, 0%Z) h in
  let m := Z.min surplus deficit in
  let c := (m * move_cost + (surplus - m) * R + (deficit - m) * A)%Z in
  if (c <? 0)%Z then 0%Z else c.

(** The [while] of lines 57-69, on the variables [lo], [hi] and
    [best_cost]; [fuel] bounds the number of iterations. *)
Fixpoint search (fuel : nat) (cost : Z -> Z) (lo hi best_cost : Z)
  : option (Z * Z * Z) :=
  if (lo <? hi)%Z then
    match fuel with
    | O => None
    | S fuel =>
        let mid := ((lo + hi) / 2)%Z in
        let c1 := cost mid in
        let c2 := cost (mid + 1)%Z in
        if (c1 <? c2)%Z then search fuel cost lo mid (Z.min best_cost c1)
        else if (c1 >? c2)%Z then search fuel cost (mid + 1)%Z hi (Z.min best_cost c2)
        else search fuel cost (mid + 1)%Z hi (Z.min best_cost c1)
    end
  else Some (lo, hi, best_cost).

(** [range(start, stop)] *)
Definition range (start stop : Z) : list Z :=
  map (fun i => (start + Z.of_nat i)%Z) (seq 0 (Z.to_nat (stop - start))).

(** [str] of an integer, and [str.isdigit] on such a text. *)
Definition str (z : Z) : string :=
  if (z <? 0)%Z then "-" +:+ of_nat (Z.to_nat (- z)) else of_nat (Z.to_nat z).

Definition isdigit (s : string) : bool :=
  negb (String.eqb s "") && only_digits s.

(** Lines 19-28: the lists for which [candidate] answers ['0'] at once.
    After lines 19-20 [N] is [len(h)], so line 27 never decides. *)
Definition levelled (h : list Z) : bool :=
  (length h =? 0) || (length h =? 1) || forallb (fun x => (x =? hd 0 h)%Z) h.

(** Lines 19-78 of [candidate].  [int_of_float best_cost] stands for
    [int(float(best_cost))] of line 77. *)
Definition candidate_numbers (int_of_float : Z -> Z) (fuel : nat) (A R M : Z)
    (h : list Z) : option string :=
  if levelled h then Some "0"
  else
    let move_cost := move_cost A R M in
    let h := merge_sort Z.le h in
    let lo := hd 0%Z h in
    let hi := List.last h 0%Z in
    let cost := cost h A R move_cost in
    let best_cost := cost lo in
    let edge_cost := cost hi in
    let best_cost := Z.min best_cost edge_cost in
    match search fuel cost lo hi best_cost with
    | None => None
    | Some (lo, hi, best_cost) =>
        let best_cost :=
          foldl (fun best_cost H => Z.min best_cost (cost H)) best_cost
            (range (Z.max (lo - 2) (hd 0%Z h)) (Z.min (hi + 3) (List.last h 0%Z + 1))) in
        let result := str best_cost in
        Some (if negb (isdigit result) then str (int_of_float best_cost)
              else result)
    end.

End Apps.

(** * Properties *)

(** ** Strings *)

#[local] Arguments String.append !_ _ / : simpl nomatch.

Section StringFacts.

Lemma app_empty_r (s : string) : s +:+ "" = s.
Proof. induction s as [|c s IH]; simpl; [done | by f_equal]. Qed.

Lemma app_assoc_str (a b c : string) : (a +:+ b) +:+ c = a +:+ b +:+ c.
Proof. induction a as [|x a IH]; simpl; [done | by f_equal]. Qed.

Lemma ascii_eqb_true (a b : ascii) : ascii_eqb a b = true <-> a = b.
Proof. apply Ascii.eqb_eq. Qed.

Lemma startswith_app (p s : string) : startswith (p +:+ s) p = true.
Proof.
  induction p as [|c p IH]; simpl; [done |].
  rewrite IH, andb_true_r. by apply ascii_eqb_true.
Qed.

Lemma startswith_split (s p : string) :
  startswith s p = true -> exists t, s = p +:+ t.
Proof.
  revert s; induction p as [|c p IH]; intros s H; simpl in *.
  - by exists s.
  - destruct s as [|d s]; [done |].
    apply andb_true_iff in H as [Hc Hs].
    apply ascii_eqb_true in Hc as ->.
    destruct (IH _ Hs) as [t ->]. by exists t.
Qed.

Lemma startswith_weaken (s t p : string) :
  startswith s p = true -> startswith (s +:+ t) p = true.
Proof.
  intros [u ->]%startswith_split.
  rewrite app_assoc_str. apply startswith_app.
Qed.

Lemma contains_prefix (s p : string) :
  startswith s p = true -> contains s p = true.
Proof. intros H. destruct s; simpl in *; by rewrite H. Qed.

Lemma contains_app_l (s t p : string) :
  contains s p = true -> contains (s +:+ t) p = true.
Proof.
  induction s as [|c s IH]; simpl.
  - rewrite orb_false_r. intros H.
    apply contains_prefix. by apply (startswith_weaken "").
  - intros [H|H]%orb_true_iff.
    + apply (startswith_weaken _ t) in H. simpl in H. by rewrite H.
    + rewrite (IH H). apply orb_true_r.
Qed.

Lemma contains_app_r (s t p : string) :
  contains t p = true -> contains (s +:+ t) p = true.
Proof.
  intros H. induction s as [|c s IH]; simpl; [done |].
  rewrite IH. apply orb_true_r.
Qed.

Lemma contains_refl (s : string) : contains s s = true.
Proof.
  apply contains_prefix. rewrite <- (app_empty_r s) at 1. apply startswith_app.
Qed.

Lemma contains_middle (a p b : string) : contains (a +:+ p +:+ b) p = true.
Proof. apply contains_app_r, contains_prefix, startswith_app. Qed.

Lemma contains_nonempty (s p : string) :
  contains s p = true -> p <> "" -> s <> "".
Proof. intros H Hp ->. simpl in H. by destruct p. Qed.


Lemma rstrip_split (s : string) :
  exists r, s = rstrip s +:+ r /\ all_space r = true.
Proof.
  induction s as [|c s (r & Hr & Hs)]; simpl.
  - by exists "".
  - destruct (rstrip s) as [|d t] eqn:Ht.
    + simpl in Hr. subst s. destruct (is_space c) eqn:Hc.
      * exists (String c r). simpl. by rewrite Hc, Hs.
      * by exists r.
    + exists r. simpl. by rewrite Hr at 1.
Qed.

Lemma lstrip_idem (s : string) : lstrip (lstrip s) = lstrip s.
Proof.
  induction s as [|c s IH]; simpl; [done |].
  destruct (is_space c) eqn:Hc; [done |]. simpl. by rewrite Hc.
Qed.



(** A pattern that has no space at its end survives [rstrip]. *)
Lemma rstrip_app_solid (p t : string) :
  rstrip p = p -> p <> "" -> exists t', rstrip (p +:+ t) = p +:+ t'.
Proof.
  induction p as [|c p IH]; [done |]. intros Hp _. simpl in *.
  destruct (rstrip p) as [|d u] eqn:Hu.
  - destruct (is_space c) eqn:Hc; [done |].
    injection Hp as <-. simpl.
    exists (rstrip t). destruct (rstrip t); by rewrite ?Hc.
  - injection Hp as Hp. destruct (IH Hp) as [t' Ht']; [by rewrite <- Hp |].
    exists t'. rewrite Ht'. by rewrite <- Hp.
Qed.

Lemma contains_rstrip (s p : string) :
  rstrip p = p -> p <> "" -> contains s p = true -> contains (rstrip s) p = true.
Proof.
  intros Hp Hne. induction s as [|c s IH]; simpl.
  - by destruct p.
  - intros [H|H]%orb_true_iff.
    + apply startswith_split in H as [t Ht].
      destruct (rstrip_app_solid p t Hp Hne) as [t' Ht'].
      change (contains (rstrip (String c s)) p = true).
      rewrite Ht, Ht'. apply contains_prefix, startswith_app.
    + specialize (IH H). pose proof (contains_nonempty _ _ IH Hne) as Hr.
      destruct (rstrip s) as [|d u] eqn:Hu; [done |].
      simpl. simpl in IH. rewrite IH. apply orb_true_r.
Qed.

End StringFacts.

(** ** Outcome lists *)

Section OutcomeLists.







End OutcomeLists.

(** ** The loops of the two runners *)

Section ExecutorFacts.
Context {py : PyInterp}.

Lemma assertion_reason_returns (fr : frame obj) (s : world * lists) :
  exists reason s', assertion_reason fr s = (Returned reason, s').
Proof.
  unfold assertion_reason, try_except.
  destruct (Re.search_candidate_eq _) as [[input_val group2]|].
  - destruct (bind _ _ s) as [[r|e] s']; unfold ret; eauto.
  - unfold ret; eauto.
Qed.

(** The messages of the assertion handler. *)
Lemma assertion_reason_shape (fr : frame obj) (s s' : world * lists)
    (reason : string) :
  assertion_reason fr s = (Returned reason, s') ->
  startswith reason "Expected: " = true \/ startswith reason "Assertion failed" = true.
Proof.
  unfold assertion_reason, try_except.
  destruct (Re.search_candidate_eq (f_test_code obj fr)) as [[input_val group2]|].
  - unfold bind.
    destruct (py_eval fr input_val s) as [[arg|e] s1];
      [| intros [= <- <-]; by right].
    destruct (py_call (f_candidate obj fr) arg s1) as [[actual|e] s2];
      [| intros [= <- <-]; by right].
    destruct (py_repr actual s2) as [[shown|e] s3]; intros [= <- <-];
      [by left | by right].
  - intros [= <- <-]. by right.
Qed.

(** They never look like the message of a runtime fault. *)
Lemma assertion_reason_not_error (fr : frame obj) (s s' : world * lists)
    (reason : string) :
  assertion_reason fr s = (Returned reason, s') ->
  startswith reason "Error: " = false.
Proof.
  by intros [[t ->]%startswith_split | [t ->]%startswith_split]%assertion_reason_shape.
Qed.








End ExecutorFacts.

(** ** Whole runs *)

Section WholeRuns.
Context {py : PyInterp}.









(** When loading fails, lines 55-62 return the all-failed dictionary,
    whatever the bound on the loop. *)
Lemma run_tests_and_report_load_failed fuel code_file test_cases w e w1 :
  load_candidate code_file w = (Raised e, w1) ->
  run_tests_and_report fuel code_file test_cases w
  = (Returned (Some (load_failure_report e test_cases)), w1).
Proof.
  intros Hload. unfold run_tests_and_report, bind, try_except. by rewrite Hload.
Qed.

(** When loading succeeds, the run is the loop from empty lists followed
    by lines 120-145. *)
Lemma run_tests_and_report_loaded fuel code_file test_cases w module candidate w1 :
  load_candidate code_file w = (Returned (module, candidate), w1) ->
  run_tests_and_report fuel code_file test_cases w
  = match run_loop fuel code_file module candidate 0
            (w1, Lists test_cases [] []) with
    | (Returned true, (w', ls)) => (r <- summary ls ;; ret (Some r)) w'
    | (Returned false, (w', _)) => (Returned None, w')
    | (Raised e, (w', _)) => (Raised e, w')
    end.
Proof.
  intros Hload. unfold run_tests_and_report, bind at 1, try_except.
  unfold bind at 1. by rewrite Hload.
Qed.

(** The notebook runner has no handler around loading. *)
Lemma run_tests_load_failed code_file test_cases w e w1 :
  nb_load_candidate code_file w = (Raised e, w1) ->
  run_tests code_file test_cases w = (Raised e, w1).
Proof. intros Hload. unfold run_tests, bind. by rewrite Hload. Qed.

(** The dictionary of a run that loaded has its two last keys. *)
Lemma summary_has_both_keys {St} (ls : lists) (s s' : St) (r : report) :
  summary ls s = (Returned r, s') ->
  exists names pairs, passed_tests r = Some names /\ failed_tests r = Some pairs.
Proof.
  unfold summary, bind.
  destruct (mapM _ (l_failed ls) s) as [[printed|e] s1]; [| done].
  destruct (mapM _ (l_passed ls) s1) as [[names|e] s2]; [| done].
  destruct (mapM _ (l_failed ls) s2) as [[pairs|e] s3]; [| done].
  intros [= <- _]. by eauto.
Qed.

End WholeRuns.

(** ** The executor *)

Section Executor.


End Executor.

(** ** Normalisation of test strings *)

Section Normalisation.
Context {py : PyInterp}.


Lemma join_app (a b : list string) : join (a ++ b) = join a +:+ join b.
Proof.
  induction a as [|x a IH]; simpl; [done |].
  by rewrite IH, app_assoc_str.
Qed.


End Normalisation.

(** ** Failed and errored tests *)

Section Classify.
Context {py : PyInterp}.


(** What [run_tests_and_report] records for a runtime fault. *)
Lemma run_one_runtime_fault code_file module candidate i test_case w ls e w' :
  py_exec candidate (normalize_test test_case) w = (Raised e, w') ->
  exn_is_assertion e = false ->
  run_one code_file module candidate i test_case (w, ls)
  = (Returned tt, (w', add_failed ls (Z.of_nat i, error_reason e))).
Proof.
  intros Hexec Hassert. unfold run_one, try_except, bind, lift_world. cbn [fst snd].
  by rewrite Hexec, Hassert.
Qed.

(** What it records for a failed assertion. *)
Lemma run_one_assertion_failure code_file module candidate i test_case w ls e w' :
  py_exec candidate (normalize_test test_case) w = (Raised e, w') ->
  exn_is_assertion e = true ->
  exists reason w'' ls',
    run_one code_file module candidate i test_case (w, ls)
    = (Returned tt, (w'', add_failed ls' (Z.of_nat i, reason)))
    /\ (startswith reason "Expected: " = true
        \/ startswith reason "Assertion failed" = true)
    /\ startswith reason "Error: " = false.
Proof.
  intros Hexec Hassert. unfold run_one, try_except, bind at 1, lift_world.
  cbn [fst snd]. rewrite Hexec, Hassert. unfold bind.
  match goal with |- context [assertion_reason ?fr ?s] =>
    destruct (assertion_reason_returns fr s) as (r & [w2 ls2] & Hr) end.
  rewrite Hr. exists r, w2, ls2. split; [done |].
  split; [by eapply assertion_reason_shape | by eapply assertion_reason_not_error].
Qed.

(** What the notebook's [run_tests] records for any exception. *)
Lemma nb_run_one_raised candidate i test_case passed failed w e w' :
  py_exec candidate (normalize_test test_case) w = (Raised e, w') ->
  nb_run_one candidate i test_case (passed, failed) w
  = (Returned (passed, failed ++ [(i, exn_msg e)]), w').
Proof.
  intros Hexec. unfold nb_run_one, try_except, bind. by rewrite Hexec.
Qed.

(** C3, as amended.  In [run_tests_and_report], a test whose evaluation
    raises an exception that is not an assertion failure is recorded in
    [failed] with exactly the message [Error: <type name>: <text>], and
    [passed] is left alone; a failed assertion is recorded with a message
    that starts with [Expected: ] or [Assertion failed], never with
    [Error: ].  In the notebook's [run_tests] every exception is recorded
    with its text alone. *)
Theorem runtime_faults_are_tagged
    (code_file : string) (module : list (string * obj)) :
  (forall candidate i test_case w ls e w',
      py_exec candidate (normalize_test test_case) w = (Raised e, w') ->
      exn_is_assertion e = false ->
      run_one code_file module candidate i test_case (w, ls)
      = (Returned tt,
         (w', Lists (l_test_cases ls) (l_passed ls)
                (l_failed ls ++ [(Z.of_nat i,
                                  "Error: " +:+ exn_type e +:+ ": " +:+ exn_msg e)]))))
  /\ (forall candidate i test_case w ls e w',
      py_exec candidate (normalize_test test_case) w = (Raised e, w') ->
      exn_is_assertion e = true ->
      exists reason w'' ls',
        run_one code_file module candidate i test_case (w, ls)
        = (Returned tt,
           (w'', Lists (l_test_cases ls') (l_passed ls')
                   (l_failed ls' ++ [(Z.of_nat i, reason)])))
        /\ (startswith reason "Expected: " = true
            \/ startswith reason "Assertion failed" = true)
        /\ startswith reason "Error: " = false)
  /\ (forall candidate i test_case passed failed w e w',
       py_exec candidate (normalize_test test_case) w = (Raised e, w') ->
       nb_run_one candidate i test_case (passed, failed) w
       = (Returned (passed, failed ++ [(i, exn_msg e)]), w')).
Proof.
  split_and!.
  - intros. by apply run_one_runtime_fault.
  - intros candidate i test_case w ls e w' Hexec Hassert.
    by apply (run_one_assertion_failure _ _ _ _ _ _ _ _ _ Hexec Hassert).
  - intros. by apply nb_run_one_raised.
Qed.

End Classify.

(** ** Resolution *)

Section Resolution.
Context {py : PyInterp}.

Lemma sorted_elem (y : string) (l : list string) : y ∈ sorted l -> y ∈ l.
Proof. unfold sorted. by rewrite merge_sort_Permutation. Qed.

Lemma elem_sorted (y : string) (l : list string) : y ∈ l -> y ∈ sorted l.
Proof. unfold sorted. by rewrite merge_sort_Permutation. Qed.

Lemma sorted_sorted (l : list string) : StronglySorted String.le (sorted l).
Proof. apply StronglySorted_merge_sort; apply _. Qed.

Lemma dict_get_Some_key {V} (k : string) (v : V) (d : list (string * V)) :
  dict_get k d = Some v -> k ∈ dict_keys d.
Proof.
  induction d as [|[k' v'] d IH]; simpl; [done |].
  destruct (String.eqb_spec k k') as [->|Hne]; [left | right; auto].
Qed.

Lemma dict_get_key {V} (k : string) (d : list (string * V)) :
  k ∈ dict_keys d -> exists v, dict_get k d = Some v.
Proof.
  induction d as [|[k' v] d IH]; simpl; [by intros ?%elem_of_nil |].
  destruct (String.eqb_spec k k') as [->|Hne]; [by eauto |].
  intros [?|H]%elem_of_cons; [done | by apply IH].
Qed.

(** The scan finds nothing when every attribute is private or not
    callable. *)
Lemma scan_callable_none {St} (module : list (string * obj)) (names : list string)
    (s : St) :
  (forall name, name ∈ names -> name ∈ dict_keys module) ->
  (forall name o, dict_get name module = Some o ->
                  startswith name "_" = true \/ callable o = false) ->
  scan_callable module names s = (Returned None, s).
Proof.
  intros Hkeys Hnone. induction names as [|name names IH];
    cbn [scan_callable]; [done |].
  destruct (dict_get_key name module) as [o Ho]; [apply Hkeys; left |].
  unfold bind, getattr. rewrite Ho. cbv beta iota delta [ret].
  destruct (Hnone _ _ Ho) as [-> | ->]; cbn [negb andb];
    rewrite ?andb_false_r; apply IH; intros; apply Hkeys; by right.
Qed.

(** The scan stops at the first name, in the order it is given them, that
    is public and bound to a callable. *)
Lemma scan_callable_found {St} (module : list (string * obj)) (names : list string)
    (s s' : St) (c : obj) :
  scan_callable module names s = (Returned (Some c), s') ->
  exists before name after,
    names = before ++ name :: after
    /\ dict_get name module = Some c
    /\ startswith name "_" = false
    /\ callable c = true
    /\ forall n o, n ∈ before -> dict_get n module = Some o ->
                   startswith n "_" = true \/ callable o = false.
Proof.
  induction names as [|name names IH]; cbn [scan_callable]; [done |].
  unfold bind, getattr.
  destruct (dict_get name module) as [o|] eqn:Ho; [| done].
  cbv beta iota delta [ret].
  destruct (startswith name "_") eqn:Hn; cbn [negb andb].
  - intros (before & name' & after & -> & ? & ? & ? & Hb)%IH.
    exists (name :: before), name', after. split_and!; try done.
    intros n o' [->|Hin]%elem_of_cons Hget; [by left | by eapply Hb].
  - destruct (callable o) eqn:Hc.
    + intros [= -> _]. exists [], name, names. split_and!; try done.
      by intros n o' ?%elem_of_nil.
    + intros (before & name' & after & -> & ? & ? & ? & Hb)%IH.
      exists (name :: before), name', after. split_and!; try done.
      intros n o' [->|Hin]%elem_of_cons Hget; [| by eapply Hb].
      right. congruence.
Qed.

(** The fallback of the runners binds the public callable whose name comes
    first in the order of [sorted], whatever the order of the
    declarations. *)
Lemma runner_fallback_takes_least_name (module : list (string * obj))
    (w w' : world) (c : obj) :
  scan_callable module (dir module) w = (Returned (Some c), w') ->
  exists name,
    dict_get name module = Some c
    /\ startswith name "_" = false
    /\ callable c = true
    /\ forall name' o', dict_get name' module = Some o' ->
                        startswith name' "_" = false -> callable o' = true ->
                        String.le name name'.
Proof.
  intros (before & name & after & Hdir & Hget & Hpub & Hcall & Hbefore)%scan_callable_found.
  exists name. split_and!; try done.
  intros name' o' Hget' Hpub' Hcall'.
  assert (Hin : name' ∈ dir module)
    by (apply elem_sorted; by eapply dict_get_Some_key).
  pose proof (sorted_sorted (dict_keys module)) as Hsorted.
  unfold dir in Hin, Hdir. rewrite Hdir in Hin, Hsorted.
  apply elem_of_app in Hin as [Hin | [-> | Hin]%elem_of_cons].
  - destruct (Hbefore _ _ Hin Hget'); congruence.
  - done.
  - apply StronglySorted_app_1_r, StronglySorted_cons in Hsorted as [Hall _].
    by eapply list.Forall_forall in Hall.
Qed.

Lemma load_candidate_load_error code_file w e w1 :
  load_module code_file w = (Raised e, w1) ->
  load_candidate code_file w = (Raised e, w1).
Proof. intros H. unfold load_candidate, bind. by rewrite H. Qed.

Lemma load_candidate_nothing_found code_file w bindings w1 :
  load_module code_file w = (Returned bindings, w1) ->
  hasattr (module_dict bindings) "candidate" = false ->
  (forall name o, dict_get name (module_dict bindings) = Some o ->
                  startswith name "_" = true \/ callable o = false) ->
  load_candidate code_file w
  = (Raised (ValueError "No function found in module"), w1).
Proof.
  intros Hload Hattr Hnone. unfold load_candidate, bind at 1. rewrite Hload.
  rewrite Hattr. unfold bind.
  rewrite scan_callable_none; [done | | done].
  intros name. apply sorted_elem.
Qed.

Lemma nb_load_candidate_nothing_found code_file w bindings w1 :
  load_module code_file w = (Returned bindings, w1) ->
  dict_get "candidate" (module_dict bindings) = None ->
  (forall name o, dict_get name (module_dict bindings) = Some o ->
                  startswith name "_" = true \/ callable o = false) ->
  nb_load_candidate code_file w = (Returned py_None, w1).
Proof.
  intros Hload Hattr Hnone. unfold nb_load_candidate, bind at 1. rewrite Hload.
  rewrite Hattr. simpl. rewrite truthy_None. simpl. unfold bind.
  rewrite scan_callable_none; [done | | done].
  intros name. apply sorted_elem.
Qed.

Lemma mapM_returns {St A B} (f : A -> SE St B) (l : list A) :
  (forall a s, exists b s', f a s = (Returned b, s')) ->
  forall s, exists bs s', mapM f l s = (Returned bs, s') /\ length bs = length l.
Proof.
  intros Hf. induction l as [|a l IH]; intros s; simpl.
  - by exists [], s.
  - unfold bind. destruct (Hf a s) as (b & s1 & ->).
    destruct (IH s1) as (bs & s2 & -> & Hlen).
    exists (b :: bs), s2. simpl. by rewrite Hlen.
Qed.

End Resolution.

(** ** Load failures *)

Section Aggregates.
Context {py : PyInterp}.

(** A batch of artifacts that do not load: a report for each. *)
Lemma batch_of_load_failures (fuel : nat) (artifacts : list (string * list string)) :
  (forall a w0, a ∈ artifacts ->
                exists e w1, load_candidate (fst a) w0 = (Raised e, w1)) ->
  forall w, exists reports w',
    mapM (fun a => run_tests_and_report fuel (fst a) (snd a)) artifacts w
    = (Returned reports, w')
    /\ Forall2 (fun a r => exists rep,
                  r = Some rep /\ passed rep = []
                  /\ length (failed rep) = length (snd a)
                  /\ total rep = length (snd a)
                  /\ pass_rate rep = 0%float) artifacts reports.
Proof.
  induction artifacts as [|a artifacts IH]; intros Hall w.
  - exists [], w. by split.
  - destruct (Hall a w ltac:(by left)) as (e & w1 & Hload).
    destruct (IH (fun b w0 Hb => Hall b w0 ltac:(by right)) w1)
      as (reports & w' & Hrest & Hreports).
    exists (Some (load_failure_report e (snd a)) :: reports), w'. split.
    + cbn [mapM]. unfold bind at 1.
      rewrite (run_tests_and_report_load_failed _ _ _ _ _ _ Hload).
      unfold bind at 1. by rewrite Hrest.
    + constructor; [| done]. eexists. split; [done |]. cbn.
      by rewrite length_map, length_seq.
Qed.

(** C4, as amended.  When the file cannot be loaded, or holds no
    attribute [candidate] and no public callable, [run_tests_and_report]
    does not raise: it returns a report in which every test is recorded in
    [failed] under the same text, that of the exception, [passed] is empty
    and the pass rate is 0; a caller that runs it on one such artifact
    after another gets a report for each.  The notebook's [run_tests] has no
    such handler: an exception raised while loading reaches its caller, and
    when nothing public is callable it runs the tests with [candidate] at
    [None]. *)
Theorem load_failure_is_contained :
  (forall fuel code_file test_cases w e w',
      load_candidate code_file w = (Raised e, w') ->
      run_tests_and_report fuel code_file test_cases w
      = (Returned
           (Some (Report [] (map (fun i => (Z.of_nat i, exn_msg e))
                               (seq 0 (length test_cases)))
                    (length test_cases) 0%float None None)), w'))
  /\ (forall code_file w e w1,
        load_module code_file w = (Raised e, w1) ->
        load_candidate code_file w = (Raised e, w1))
  /\ (forall code_file w bindings w1,
        load_module code_file w = (Returned bindings, w1) ->
        hasattr (module_dict bindings) "candidate" = false ->
        (forall name o, dict_get name (module_dict bindings) = Some o ->
                        startswith name "_" = true \/ callable o = false) ->
        load_candidate code_file w
        = (Raised (ValueError "No function found in module"), w1))
  /\ (forall fuel (artifacts : list (string * list string)) w,
        (forall a w0, a ∈ artifacts ->
                      exists e w1, load_candidate (fst a) w0 = (Raised e, w1)) ->
        exists reports w',
          mapM (fun a => run_tests_and_report fuel (fst a) (snd a)) artifacts w
          = (Returned reports, w')
          /\ Forall2 (fun a r => exists rep,
                        r = Some rep /\ passed rep = []
                        /\ length (failed rep) = length (snd a)
                        /\ total rep = length (snd a)
                        /\ pass_rate rep = 0%float) artifacts reports)
  /\ (forall code_file test_cases w e w1,
        nb_load_candidate code_file w = (Raised e, w1) ->
        run_tests code_file test_cases w = (Raised e, w1))
  /\ (forall code_file w bindings w1,
        load_module code_file w = (Returned bindings, w1) ->
        dict_get "candidate" (module_dict bindings) = None ->
        (forall name o, dict_get name (module_dict bindings) = Some o ->
                        startswith name "_" = true \/ callable o = false) ->
        nb_load_candidate code_file w = (Returned py_None, w1)).
Proof.
  split_and!.
  - intros fuel code_file test_cases w e w' Hload.
    by rewrite (run_tests_and_report_load_failed _ _ test_cases _ _ _ Hload).
  - apply load_candidate_load_error.
  - apply load_candidate_nothing_found.
  - intros fuel artifacts w Hall. by apply batch_of_load_failures.
  - intros. by apply run_tests_load_failed.
  - apply nb_load_candidate_nothing_found.
Qed.

End Aggregates.

(** ** The enhancer *)

Section EnhancerFacts.
Context {py : PyInterp}.

Lemma get_function_info_read file_path problem_id (fs : files) content :
  fs !! file_path = Some content ->
  get_function_info file_path problem_id fs
  = (Returned (info_of_text content problem_id), fs).
Proof.
  intros Hread. unfold get_function_info, info_of_text, try_except, bind, read_file.
  rewrite Hread. unfold lift.
  destruct (ast_parse content) as [tree|e]; [| done].
  by destruct (public_function_names tree).
Qed.

Lemma copy2_ok src dst (fs : files) content :
  fs !! src = Some content -> src <> dst ->
  copy2 src dst fs = (Returned tt, <[dst := content]> fs).
Proof.
  intros Hread Hne. unfold copy2. rewrite Hread.
  by destruct (String.eqb_spec src dst).
Qed.

(** [enhance_file] on a source that exists and is not the target. *)
Lemma enhance_file_target source_path target_path problem_id (fs : files) content :
  fs !! source_path = Some content ->
  source_path <> target_path ->
  enhance_file source_path target_path problem_id fs
  = (Returned (fst (target_text content (info_of_text content problem_id))),
     <[target_path := snd (target_text content (info_of_text content problem_id))]> fs).
Proof.
  intros Hread Hne. unfold enhance_file, try_except, bind at 1.
  unfold read_file at 1. rewrite Hread.
  unfold bind at 1. rewrite (get_function_info_read _ _ _ _ Hread).
  destruct (info_of_text content problem_id) as [[[|c p]|] aliases]; simpl.
  - unfold bind. by rewrite (copy2_ok _ _ _ _ Hread Hne).
  - destruct aliases as [|a aliases]; simpl.
    + unfold bind. by rewrite (copy2_ok _ _ _ _ Hread Hne).
    + destruct (filter _ (a :: aliases)) as [|n needed]; simpl.
      * unfold bind. by rewrite (copy2_ok _ _ _ _ Hread Hne).
      * done.
  - unfold bind. by rewrite (copy2_ok _ _ _ _ Hread Hne).
Qed.

Lemma needed_aliases_for_elem (a primary_func problem_id : string) :
  a ∈ needed_aliases_for primary_func problem_id <->
  (a = "candidate" /\ primary_func <> "candidate")
  \/ (a = "skjkasdkd" /\ problem_id = "HumanEval/94" /\ primary_func <> "skjkasdkd").
Proof.
  unfold needed_aliases_for. rewrite elem_of_app.
  destruct (String.eqb_spec primary_func "candidate") as [Hc|Hc];
    destruct (String.eqb_spec problem_id "HumanEval/94") as [Hp|Hp];
    destruct (String.eqb_spec primary_func "skjkasdkd") as [Hs|Hs]; simpl;
    rewrite ?list_elem_of_singleton, ?elem_of_nil; intuition congruence.
Qed.

Lemma enhanced_text_keeps (content primary_func : string) (needed : list string)
    (a : string) :
  rstrip a = a -> a <> "" -> contains content a = true ->
  contains (enhanced_text content primary_func needed) a = true.
Proof.
  intros Ha Hne Hc. unfold enhanced_text.
  by apply contains_app_l, contains_rstrip.
Qed.

Lemma alias_lines_contain (primary_func : string) (needed : list string) (a : string) :
  a ∈ needed ->
  contains (join (map (fun alias => alias +:+ " = " +:+ primary_func +:+ nl) needed)) a
  = true.
Proof.
  induction needed as [|n needed IH]; [by intros ?%elem_of_nil |].
  intros [->|H]%elem_of_cons; cbn [map join foldr].
  - apply contains_app_l, contains_prefix, startswith_app.
  - by apply contains_app_r, IH.
Qed.

Lemma enhanced_text_alias (content primary_func : string) (needed : list string)
    (a : string) :
  a ∈ needed -> contains (enhanced_text content primary_func needed) a = true.
Proof.
  intros Ha. unfold enhanced_text.
  do 5 apply contains_app_r. by apply alias_lines_contain.
Qed.

Lemma enhanced_text_primary (content primary_func : string) (needed : list string) :
  needed <> [] -> contains (enhanced_text content primary_func needed) primary_func = true.
Proof.
  intros Hne. unfold enhanced_text. do 5 apply contains_app_r.
  destruct needed as [|n needed]; [done |]. cbn [map join foldr].
  apply contains_app_l, contains_app_r. apply (contains_middle " = ").
Qed.

(** An enhanced file holds every alias a later run could ask for. *)
Lemma enhanced_text_has_all_aliases (content primary_func problem_id : string)
    (needed : list string) :
  needed = filter (fun alias => negb (contains content alias))
             (needed_aliases_for primary_func problem_id) ->
  needed <> [] ->
  forall a primary2,
    a ∈ needed_aliases_for primary2 problem_id ->
    contains (enhanced_text content primary_func needed) a = true.
Proof.
  intros Hneeded Hne a primary2 Ha.
  assert (Hin : forall b, rstrip b = b -> b <> "" ->
                  b ∈ needed_aliases_for primary_func problem_id ->
                  contains (enhanced_text content primary_func needed) b = true).
  { intros b Hb Hbne Hb_in. destruct (contains content b) eqn:Hc.
    - by apply enhanced_text_keeps.
    - apply enhanced_text_alias. rewrite Hneeded.
      apply list_elem_of_filter. split; [by rewrite Hc | done]. }
  apply needed_aliases_for_elem in Ha as [[-> _] | (-> & Hpid & _)].
  - destruct (decide (primary_func = "candidate")) as [->|Hp].
    + by apply enhanced_text_primary.
    + apply Hin; [done | done |]. apply needed_aliases_for_elem. by left.
  - destruct (decide (primary_func = "skjkasdkd")) as [->|Hp].
    + by apply enhanced_text_primary.
    + apply Hin; [done | done |]. apply needed_aliases_for_elem. by right.
Qed.

Lemma info_of_text_shape (content problem_id : string) :
  info_of_text content problem_id = (None, [])
  \/ exists primary_func,
       info_of_text content problem_id
       = (Some primary_func, needed_aliases_for primary_func problem_id).
Proof.
  unfold info_of_text. destruct (ast_parse content) as [tree|e]; [| by left].
  destruct (public_function_names tree) as [|primary_func names]; [by left |].
  right. by exists primary_func.
Qed.

Lemma filter_all_contained (text : string) (aliases : list string) :
  (forall a, a ∈ aliases -> contains text a = true) ->
  filter (fun alias => negb (contains text alias)) aliases = [].
Proof.
  intros Hall. destruct (filter _ aliases) as [|x l] eqn:Hf; [done |].
  assert (Hx : x ∈ filter (fun alias => negb (contains text alias)) aliases)
    by (rewrite Hf; left).
  apply list_elem_of_filter in Hx as [Hx Hin]. by rewrite (Hall _ Hin) in Hx.
Qed.

(** A file whose text holds every alias it needs is copied. *)
Lemma target_text_copy (content : string) (primary : option string)
    (aliases : list string) :
  (forall a, a ∈ aliases -> contains content a = true) ->
  target_text content (primary, aliases) = (false, content).
Proof.
  intros Hall. unfold target_text.
  destruct primary as [[|c p]|]; [done | | done].
  destruct aliases as [|a aliases]; [done |].
  by rewrite filter_all_contained.
Qed.

(** What a run leaves at the target, a second run copies. *)
Lemma target_text_settled (content problem_id : string) :
  let out := snd (target_text content (info_of_text content problem_id)) in
  target_text out (info_of_text out problem_id) = (false, out).
Proof.
  simpl.
  destruct (target_text content (info_of_text content problem_id))
    as [changed out] eqn:Hrun. simpl.
  destruct changed.
  - destruct (info_of_text_shape content problem_id) as [Hi | [primary_func Hi]];
      rewrite Hi in Hrun; [done |].
    unfold target_text in Hrun.
    destruct primary_func as [|c p]; [done |].
    destruct (needed_aliases_for (String c p) problem_id) as [|a aliases] eqn:Hal;
      [done |].
    destruct (filter _ (a :: aliases)) as [|n needed] eqn:Hf; [done |].
    injection Hrun as <-.
    destruct (info_of_text_shape (enhanced_text content (String c p) (n :: needed))
                problem_id) as [-> | [primary2 ->]]; [done |].
    apply target_text_copy. intros a2 Ha2.
    apply (enhanced_text_has_all_aliases _ _ problem_id _) with primary2;
      [by rewrite Hal, Hf | done | done].
  - assert (out = content) as ->.
    { revert Hrun. unfold target_text.
      destruct (info_of_text content problem_id) as [[[|c p]|] [|a aliases]];
        try by intros [= <-].
      destruct (filter _ (a :: aliases)); by intros [=]. }
    by rewrite Hrun.
Qed.

(** C10.  For a source file that exists and a target that is another
    path, [enhance_file] leaves at the target either the text of the source
    as it is, or that text stripped on the right and followed by a blank
    line, the comment line and one line [alias = primary] for each alias that
    was missing; the stripped text is the source without its trailing
    whitespace.  When every alias asked for already occurs in the text the
    file is copied, and enhancing the file just written copies it: a second
    application changes nothing. *)
Theorem enhancement_preserves_and_settles
    (source_path target_path target_path2 problem_id : string)
    (fs : files) (content : string) :
  fs !! source_path = Some content ->
  source_path <> target_path ->
  target_path <> target_path2 ->
  exists changed out,
    enhance_file source_path target_path problem_id fs
    = (Returned changed, <[target_path := out]> fs)
    /\ ((changed = false /\ out = content)
        \/ (exists primary_func needed,
              changed = true
              /\ needed <> []
              /\ Forall (fun a => (a = "candidate" \/ a = "skjkasdkd")
                                  /\ contains content a = false) needed
              /\ out = rstrip content +:+ nl +:+ nl
                       +:+ "# Auto-generated aliases for test compatibility" +:+ nl
                       +:+ join (map (fun alias =>
                                        alias +:+ " = " +:+ primary_func +:+ nl)
                                     needed)))
    /\ (exists trailing, content = rstrip content +:+ trailing
                         /\ all_space trailing = true)
    /\ (forall primary aliases,
          get_function_info source_path problem_id fs
          = (Returned (primary, aliases), fs) ->
          (forall a, a ∈ aliases -> contains content a = true) ->
          changed = false /\ out = content)
    /\ enhance_file target_path target_path2 problem_id (<[target_path := out]> fs)
       = (Returned false, <[target_path2 := out]> (<[target_path := out]> fs)).
Proof.
  intros Hread Hne Hne2.
  exists (fst (target_text content (info_of_text content problem_id))),
         (snd (target_text content (info_of_text content problem_id))).
  split_and!.
  - by apply enhance_file_target.
  - destruct (info_of_text_shape content problem_id) as [-> | [primary_func ->]];
      [by left |].
    unfold target_text.
    destruct primary_func as [|c p]; [by left |].
    destruct (needed_aliases_for (String c p) problem_id) as [|a aliases] eqn:Hal;
      [by left |].
    destruct (filter _ (a :: aliases)) as [|n needed] eqn:Hf; [by left |].
    right. exists (String c p), (n :: needed). split_and!; try done.
    rewrite <- Hf. apply list.Forall_forall. intros b [Hb Hin]%list_elem_of_filter.
    split; [| by destruct (contains content b)].
    rewrite <- Hal in Hin. apply needed_aliases_for_elem in Hin. tauto.
  - apply rstrip_split.
  - intros primary aliases Hinfo Hall.
    rewrite (get_function_info_read _ _ _ _ Hread) in Hinfo.
    injection Hinfo as ->. by rewrite target_text_copy.
  - rewrite (enhance_file_target _ _ _ _
               (snd (target_text content (info_of_text content problem_id))));
      [| by rewrite lookup_insert_eq | done].
    by rewrite target_text_settled.
Qed.

End EnhancerFacts.

(** ** Syntax trees: the order of [ast.walk] *)

Section Walk.

Lemma forest_count_app (a b : list ast_node) :
  forest_count (a ++ b) = forest_count a + forest_count b.
Proof. induction a as [|n a IH]; simpl; [done | rewrite IH; lia]. Qed.

Lemma node_count_children (n : ast_node) :
  node_count n = S (forest_count (child_nodes n)).
Proof. by destruct n. Qed.

(** With fuel for every node in it, the queue is walked first to last
    before anything that is added behind it. *)
Lemma walk_queue_prefix (fuel : nat) :
  forall todo, forest_count todo <= fuel ->
               exists deeper, walk_queue fuel todo = todo ++ deeper.
Proof.
  induction fuel as [|fuel IH]; intros [|n todo] Hfuel; simpl.
  - by exists [].
  - simpl in Hfuel. rewrite node_count_children in Hfuel. lia.
  - by exists [].
  - destruct (IH (todo ++ child_nodes n)) as [deeper Hd].
    + rewrite forest_count_app. simpl in Hfuel.
      rewrite node_count_children in Hfuel. lia.
    + exists (child_nodes n ++ deeper). by rewrite Hd, <- app_assoc.
Qed.

(** [ast.walk] yields the tree, then its top-level statements in the order
    of the file, then what lies deeper. *)
Lemma ast_walk_top_level (kind : node_kind) (body : list ast_node) :
  exists deeper, ast_walk (AstNode kind body) = AstNode kind body :: body ++ deeper.
Proof.
  unfold ast_walk. simpl.
  destruct (walk_queue_prefix (forest_count body) body) as [deeper Hd]; [done |].
  exists deeper. f_equal. exact Hd.
Qed.

(** The primary function of the enhancer and of the analyzer: the first
    public [def] among the top-level statements, when there is one. *)
Lemma public_function_names_top_level (kind : node_kind) (body : list ast_node)
    (name : string) (others : list string) :
  public_name (AstNode kind body) = None ->
  omap public_name body = name :: others ->
  exists rest, public_function_names (AstNode kind body) = name :: rest.
Proof.
  intros Hroot Htop. unfold public_function_names.
  destruct (ast_walk_top_level kind body) as [deeper ->].
  assert (Hcons : forall x l,
             omap public_name (x :: l)
             = match public_name x with
               | Some y => y :: omap public_name l
               | None => omap public_name l
               end) by done.
  rewrite Hcons, Hroot, omap_app, Htop. by eexists.
Qed.

End Walk.

(** ** Aliases and the coverage run *)

Section Analysis.
Context {py : PyInterp} {host : Host}.

Lemma get_function_info_returns file_path problem_id (fs : files) :
  get_function_info file_path problem_id fs
  = (Returned (match fs !! file_path with
               | Some content => info_of_text content problem_id
               | None => (None, [])
               end), fs).
Proof.
  destruct (fs !! file_path) as [content|] eqn:Hread.
  - by apply get_function_info_read.
  - unfold get_function_info, try_except, bind, read_file. by rewrite Hread.
Qed.

(** [get_function_name] always answers, and leaves the files as they are. *)
Lemma get_function_name_returns solution_path problem_id (fs : files) :
  exists func_name,
    get_function_name solution_path problem_id fs = (Returned func_name, fs).
Proof.
  unfold get_function_name, try_except, bind, read_file.
  destruct (fs !! solution_path) as [content|]; [| by eexists].
  destruct (_ && _); [by eexists |].
  unfold lift. destruct (ast_parse content) as [tree|e]; [| by eexists].
  destruct (public_function_names tree); by eexists.
Qed.

Lemma test_file_header_aliases (problem_id solution_dir solution_module func_name : string) :
  contains (test_file_header problem_id solution_dir solution_module func_name)
    ("candidate = " +:+ func_name +:+ nl
     +:+ "skjkasdkd = " +:+ func_name +:+ "  # For HumanEval/94" +:+ nl)
  = true.
Proof.
  unfold test_file_header.
  match goal with |- context [join ?l] =>
    change l with (take 32 l ++ take 7 (skipn 32 l) ++ [nl]) end.
  rewrite !join_app. apply contains_app_r, contains_app_l, contains_refl.
Qed.

(** The coverage run always returns a record, and the record counts every
    test it was given. *)
Lemma run_pytest_with_coverage_returns solution_path test_cases problem_id
    (fs : files) :
  exists r fs',
    run_pytest_with_coverage solution_path test_cases problem_id fs
    = (Returned r, fs')
    /\ total_tests r = length test_cases.
Proof.
  unfold run_pytest_with_coverage, try_except, bind.
  destruct (create_pytest_test_file _ _ _ _ fs) as [[test_file|e] fs1];
    [| by eexists _, _].
  destruct (subprocess_run _ _ fs1) as [stdout stderr| |e]; [| by eexists _, _ ..].
  destruct (_parse_test_counts _ _) as [n_passed n_failed].
  destruct (_parse_coverage _ _ fs1) as [line_cov branch_cov].
  by eexists _, _.
Qed.

(** The test file holds one test function for every test case. *)
Lemma test_functions_contains (test_cases : list string) :
  forall i j t, test_cases !! j = Some t ->
                contains (test_functions i test_cases) (test_function (i + j) t) = true.
Proof.
  induction test_cases as [|t0 rest IH]; intros i j t Hj; [done |].
  cbn [test_functions]. destruct j as [|j]; simpl in Hj.
  - injection Hj as ->. rewrite Nat.add_0_r.
    apply contains_app_l, contains_refl.
  - apply contains_app_r. replace (i + S j) with (S i + j) by lia. by apply IH.
Qed.

(** C8.  The analyzer writes one test file with a test function for every
    test case of the artifact and runs it in one [pytest] process under one
    timeout.  When that timeout expires, the record it returns reports no
    test as passed and all [len(T)] tests as failed, with the one detail
    [Timeout], whatever part of the batch had completed:
    [tests_passed + tests_failed = total_tests = len(T)]. *)
Theorem timeout_fails_the_whole_batch (solution_path : string)
    (test_cases : list string) (problem_id : string) (fs : files) :
  pytest_outcome solution_path test_cases problem_id fs = TimeoutExpired ->
  (exists test_file text,
      create_pytest_test_file solution_path test_cases problem_id
        (mkdtemp "pytest_cov_" fs) fs
      = (Returned test_file, <[test_file := text]> fs)
      /\ forall i t, test_cases !! i = Some t ->
                     contains text (test_function i t) = true)
  /\ exists r fs',
      run_pytest_with_coverage solution_path test_cases problem_id fs
      = (Returned r, fs')
      /\ r = MkCoverageResult problem_id "" 0 (length test_cases) (length test_cases)
               0%Q None "Timeout - execution exceeded 30 seconds" ["Timeout"]
      /\ tests_passed r + tests_failed r = total_tests r
      /\ total_tests r = length test_cases.
Proof.
  intros Htimeout. split.
  - destruct (get_function_name_returns solution_path problem_id fs)
      as [func_name Hname].
    eexists _, _. unfold create_pytest_test_file, bind, write_file.
    rewrite Hname. split; [done |].
    intros i t Hi. apply contains_app_r.
    by apply (test_functions_contains test_cases 0 i t).
  - revert Htimeout.
    unfold pytest_outcome, run_pytest_with_coverage, try_except, bind.
    destruct (create_pytest_test_file _ _ _ _ fs) as [[test_file|e] fs1]; [| done].
    intros ->. by eexists _, _.
Qed.

End Analysis.

(** ** The model at work on concrete artifacts *)

Section Examples.

(** The scenarios of the specification, on a squaring function. *)
Example scenario_passed :
  run_tests_and_report (py := Toy.interp) 1 "square.py" ["candidate(3) == 9"] 0
  = (Returned (Some (Report [0%Z] [] 1 100 (Some ["candidate(3) == 9"]) (Some []))),
     1).
Proof. reflexivity. Qed.

Example scenario_failed :
  run_tests_and_report (py := Toy.interp) 1 "square.py" ["candidate(3) == 10"] 0
  = (Returned (Some (Report [] [(0%Z, "Expected: 10, Got: 9")] 1 0 (Some [])
                       (Some [("candidate(3) == 10", "Expected: 10, Got: 9")]))),
     2).
Proof. reflexivity. Qed.

Example scenario_errored :
  run_tests_and_report (py := Toy.interp) 1 "reciprocal.py" ["candidate(0) == 1"] 0
  = (Returned
       (Some (Report [] [(0%Z, "Error: ZeroDivisionError: division by zero")] 1
                0 (Some [])
                (Some [("candidate(0) == 1",
                        "Error: ZeroDivisionError: division by zero")]))), 1).
Proof. reflexivity. Qed.

Example scenario_no_tests :
  run_tests_and_report (py := Toy.interp) 0 "square.py" [] 0
  = (Returned (Some (Report [] [] 0 0 (Some []) (Some []))), 0).
Proof. reflexivity. Qed.

Example scenario_nothing_callable :
  run_tests_and_report (py := Toy.interp) 0 "private.py"
    ["candidate(3) == 9"; "assert True"] 0
  = (Returned (Some (Report [] [(0%Z, "No function found in module");
                                (1%Z, "No function found in module")] 2 0
                       None None)), 0).
Proof. reflexivity. Qed.

(** One third of the tests passed: the rate is the float Python computes,
    the product of 100 and the float nearest to one third, which is not the
    float nearest to 100/3. *)
Example scenario_one_of_three :
  run_tests_and_report (py := Toy.interp) 3 "square.py"
    ["candidate(3) == 9"; "candidate(3) == 10"; "candidate(2) == 5"] 0
  = (Returned
       (Some (Report [0%Z] [(1%Z, "Expected: 10, Got: 9");
                            (2%Z, "Expected: 5, Got: 4")]
                3 0x1.0aaaaaaaaaaaap+5
                (Some ["candidate(3) == 9"])
                (Some [("candidate(3) == 10", "Expected: 10, Got: 9");
                       ("candidate(2) == 5", "Expected: 5, Got: 4")]))), 5)
  /\ (100 / 3)%float = 0x1.0aaaaaaaaaaabp+5%float.
Proof. split; reflexivity. Qed.

(** The report of a failed load has no [failed_tests]: printing it in
    detail, as the script of [test_runner.py] does, raises [KeyError]. *)
Example detailed_report_of_failed_load :
  (r <- run_tests_and_report (py := Toy.interp) 1 "broken.py" ["candidate(3) == 9"] ;;
   match r with
   | Some r => print_detailed_report r
   | None => ret tt
   end) 0
  = (Raised (KeyError "'failed_tests'"), 0).
Proof. reflexivity. Qed.

(** When re-deriving the actual value raises, the record falls back. *)
Example scenario_fallback :
  run_one (py := Toy.interp) "square.py" square_module (Toy.VFun "square") 0
    "assert False, 'candidate(x) == 1'"
    (0, Lists ["assert False, 'candidate(x) == 1'"] [] [])
  = (Returned tt,
     (0, Lists ["assert False, 'candidate(x) == 1'"] []
           [(0%Z, "Assertion failed: name 'x' is not defined")])).
Proof. reflexivity. Qed.

(** A test whose argument text appends the test to [test_cases] keeps the
    loop going: it has not ended after any number of iterations. *)
Example scenario_endless (fuel : nat) :
  fst (run_loop (py := Toy.interp) fuel "square.py" square_module
         (Toy.VFun "square") 0
         (0, Lists ["0 and candidate(test_cases.append(test_case)) == 1"] [] []))
  = Returned false.
Proof.
  assert (H : forall i calls before passed failed,
             length before = i ->
             fst (run_loop (py := Toy.interp) fuel "square.py" square_module
                    (Toy.VFun "square") i
                    (calls,
                     Lists (before
                            ++ ["0 and candidate(test_cases.append(test_case)) == 1"])
                       passed failed))
             = Returned false).
  { induction fuel as [|fuel IH]; intros i calls before passed failed <-.
    - cbn [run_loop snd l_test_cases].
      by rewrite (list_lookup_middle before [] _ (length before) eq_refl).
    - cbn [run_loop snd l_test_cases].
      rewrite (list_lookup_middle before [] _ (length before) eq_refl).
      unfold bind at 1.
      change (run_one (py := Toy.interp) "square.py" square_module
                (Toy.VFun "square") (length before)
                "0 and candidate(test_cases.append(test_case)) == 1"
                (calls,
                 Lists (before
                        ++ ["0 and candidate(test_cases.append(test_case)) == 1"])
                   passed failed))
        with (@Returned unit tt,
              (S calls,
               Lists ((before
                       ++ ["0 and candidate(test_cases.append(test_case)) == 1"])
                      ++ ["0 and candidate(test_cases.append(test_case)) == 1"])
                 passed
                 (failed ++ [(Z.of_nat (length before),
                              ("Assertion failed: " +:+ Toy.none_times_none))]))).
      apply IH. rewrite length_app. simpl. lia. }
  by apply (H 0 0 []).
Qed.

(** C1.  On an artifact that declares [foo], [_helper] and [bar] in that
    order and no [candidate], both runners bind [bar]: the scan goes through
    [dir(module)], which is sorted, not through the declarations. *)
Theorem runner_fallback_binds_bar :
  dir (py := Toy.interp)
    (module_dict (py := Toy.interp) [Toy.def "foo"; Toy.def "_helper"; Toy.def "bar"])
  = ["__builtins__"; "__cached__"; "__doc__"; "__file__"; "__loader__";
     "__name__"; "__package__"; "__spec__"; "_helper"; "bar"; "foo"]
  /\ load_candidate (py := Toy.interp) "solution.py" 0
     = (Returned (module_dict (py := Toy.interp)
                    [Toy.def "foo"; Toy.def "_helper"; Toy.def "bar"],
                  Toy.VFun "bar"), 0)
  /\ nb_load_candidate (py := Toy.interp) "solution.py" 0
     = (Returned (Toy.VFun "bar"), 0).
Proof. repeat split; reflexivity. Qed.

(** On the same declarations the enhancer and the analyzer take [foo]. *)
Example enhancer_takes_foo :
  let text := join ["def foo(x):"; nl; "    return _helper(x)"; nl;
                    "def _helper(x):"; nl; "    return x"; nl;
                    "def bar(x):"; nl; "    return x"; nl] in
  get_function_info (py := Toy.interp) "solution.py" "HumanEval/1"
    {["solution.py" := text]}
  = (Returned (Some "foo", ["candidate"]), {["solution.py" := text]})
  /\ get_function_name (py := Toy.interp) "solution.py" "HumanEval/1"
       {["solution.py" := text]}
     = (Returned "foo", {["solution.py" := text]}).
Proof. split; reflexivity. Qed.

(** C2.  [eval(input_val)] in the handler of a failed assertion runs among
    the variables of [run_tests_and_report], unlike [exec], which is given a
    namespace of its own.  On the single test
    [0 and candidate(passed.append(0)) == 1] the assertion fails, the
    argument text appends 0 to [passed], and the test is recorded in
    [failed] as well: index 0 is in both lists, and the two lists hold two
    outcomes for one test.  The notebook's [run_tests] records the same
    test once. *)
Theorem handler_eval_records_a_test_twice :
  run_tests_and_report (py := Toy.interp) 1 "square.py"
    ["0 and candidate(passed.append(0)) == 1"] 0
  = (Returned
       (Some (Report [0%Z]
                [(0%Z, ("Assertion failed: " +:+ Toy.none_times_none))]
                1 100
                (Some ["0 and candidate(passed.append(0)) == 1"])
                (Some [("0 and candidate(passed.append(0)) == 1",
                        ("Assertion failed: " +:+ Toy.none_times_none))]))),
     1)
  /\ run_tests (py := Toy.interp) "square.py"
       ["0 and candidate(passed.append(0)) == 1"] 0
     = (Returned (NbReport [] [(0, "")] 1 0 0 1
                    [(0, "0 and candidate(passed.append(0)) == 1", "")]), 0).
Proof. split; reflexivity. Qed.

(** C5.  By the same [eval], [passed] can hold more indices than there
    are tests: on two tests of which the first fails its assertion with the
    argument text [passed.extend([0, 1, 1])] and the second passes,
    [run_tests_and_report] returns a pass rate of 200.  For an empty test
    list the rate is 0, without a division. *)
Theorem pass_rate_exceeds_100 :
  run_tests_and_report (py := Toy.interp) 2 "square.py"
    ["0 and candidate(passed.extend([0, 1, 1])) == 1"; "True"] 0
  = (Returned
       (Some (Report [0%Z; 1%Z; 1%Z; 1%Z]
                [(0%Z, ("Assertion failed: " +:+ Toy.none_times_none))]
                2 200
                (Some ["0 and candidate(passed.extend([0, 1, 1])) == 1";
                       "True"; "True"; "True"])
                (Some [("0 and candidate(passed.extend([0, 1, 1])) == 1",
                        ("Assertion failed: " +:+ Toy.none_times_none))]))),
     1)
  /\ (forall (passed : list Z), compute_pass_rate passed (@nil string) = 0%float)
  /\ run_tests_and_report (py := Toy.interp) 0 "square.py" [] 0
     = (Returned (Some (Report [] [] 0 0 (Some []) (Some []))), 0).
Proof. repeat split; reflexivity. Qed.

(** An index that [eval] put in [passed] and that no test has makes line
    143 raise: the run ends in [IndexError]. *)
Example scenario_index_error :
  run_tests_and_report (py := Toy.interp) 1 "square.py"
    ["0 and candidate(passed.append(5)) == 1"] 0
  = (Raised (IndexError "list index out of range"), 1).
Proof. reflexivity. Qed.

(** C7.  The enhancer looks for an alias in the text of the file, not
    among its names.  For [HumanEval/94], on a solution that defines
    [largest_prime_digit_sum] and mentions [skjkasdkd] in a comment,
    [get_function_info] asks for the aliases [candidate] and [skjkasdkd];
    [enhance_file] writes the line for [candidate] and none for
    [skjkasdkd], so the enhanced file does not define that name.  The
    analyzer looks for [def skjkasdkd] in the text: on a solution that
    defines [skjkasdkd_v2] it answers [skjkasdkd], and the test file imports
    a name the solution does not define. *)
Theorem special_alias_is_dropped :
  get_function_info (py := Toy.interp) "codes/HumanEval_94.py" "HumanEval/94"
    commented_solution
  = (Returned (Some "largest_prime_digit_sum", ["candidate"; "skjkasdkd"]),
     commented_solution)
  /\ fst (enhance_file (py := Toy.interp) "codes/HumanEval_94.py"
            "enhanced/HumanEval_94.py" "HumanEval/94" commented_solution)
     = Returned true
  /\ snd (enhance_file (py := Toy.interp) "codes/HumanEval_94.py"
            "enhanced/HumanEval_94.py" "HumanEval/94" commented_solution)
       !! "enhanced/HumanEval_94.py"
     = Some (join [ "# HumanEval/94 calls this function skjkasdkd"; nl;
                    "def largest_prime_digit_sum(lst):"; nl;
                    "    return 0"; nl; nl;
                    "# Auto-generated aliases for test compatibility"; nl;
                    "candidate = largest_prime_digit_sum"; nl ])
  /\ get_function_name (py := Toy.interp) "codes/HumanEval_94.py" "HumanEval/94"
       v2_solution
     = (Returned "skjkasdkd", v2_solution)
  /\ Toy.parse Toy.solution_94_v2
     = Returned (AstNode OtherNode [AstNode (FunctionDef "skjkasdkd_v2") []])
  /\ (exists test_file text,
        fst (create_pytest_test_file (py := Toy.interp)
               (host := Toy.host TimeoutExpired) "codes/HumanEval_94.py"
               ["candidate([3]) == 3"] "HumanEval/94" "/tmp/pytest_cov_0"
               v2_solution) = Returned test_file
        /\ snd (create_pytest_test_file (py := Toy.interp)
                  (host := Toy.host TimeoutExpired) "codes/HumanEval_94.py"
                  ["candidate([3]) == 3"] "HumanEval/94" "/tmp/pytest_cov_0"
                  v2_solution) !! test_file = Some text
        /\ contains text ("    from HumanEval_94 import skjkasdkd" +:+ nl) = true
        /\ contains text ("    skjkasdkd = None" +:+ nl) = true).
Proof.
  split_and!; try reflexivity.
  eexists _, _. split_and!; reflexivity.
Qed.

(** The notebook runner records a runtime fault and a failed assertion
    alike. *)
Example notebook_records_text_only :
  run_tests (py := Toy.interp) "reciprocal.py"
    ["candidate(0) == 1"; "assert False, 'division by zero'"] 0
  = (Returned (NbReport [] [(0, "division by zero"); (1, "division by zero")]
                 2 0 0 2
                 [(0, "candidate(0) == 1", "division by zero");
                  (1, "assert False, 'division by zero'", "division by zero")]), 1).
Proof. reflexivity. Qed.

(** It runs the tests against [None] when nothing public is callable. *)
Example notebook_runs_without_candidate :
  run_tests (py := Toy.interp) "private.py" ["candidate(3) == 9"; "assert True"] 0
  = (Returned (NbReport [1] [(0, "'NoneType' object is not callable")]
                 2 50 1 1
                 [(0, "candidate(3) == 9", "'NoneType' object is not callable")]), 0).
Proof. reflexivity. Qed.

(** C3, as first stated, fails on the notebook runner: the record of a
    division fault does not name [ZeroDivisionError]. *)
Lemma notebook_does_not_tag_faults :
  ~ tags_runtime_faults (py := Toy.interp) (nb_run_one (py := Toy.interp)).
Proof.
  intros Hclaim.
  destruct (Hclaim (Toy.VFun "reciprocal") 0 "candidate(0) == 1" [] [] 0
              ZeroDivisionError 1 eq_refl eq_refl)
    as (reason & w'' & Hrun & Htype & _).
  injection Hrun as <- _. discriminate Htype.
Qed.

(** C4, as first stated, fails on the notebook runner: a file that does
    not load makes [run_tests] raise. *)
Lemma notebook_does_not_survive_load_failure :
  ~ survives_load_failure (py := Toy.interp)
      (nb_load_candidate (py := Toy.interp)) (run_tests (py := Toy.interp))
      nb_passed nb_failed nb_pass_rate.
Proof.
  intros Hclaim.
  destruct (Hclaim "broken.py" ["candidate(3) == 9"] 0 Toy.SyntaxError 0 eq_refl)
    as (r & w'' & Hrun & _).
  discriminate Hrun.
Qed.

Lemma runtime_faults_are_tagged_witness :
  run_one (py := Toy.interp) "reciprocal.py" reciprocal_module
    (Toy.VFun "reciprocal") 0 "candidate(0) == 1"
    (0, Lists ["candidate(0) == 1"] [] [])
  = (Returned tt,
     (1, Lists ["candidate(0) == 1"] []
           [(0%Z, "Error: ZeroDivisionError: division by zero")])).
Proof.
  exact (proj1 (runtime_faults_are_tagged (py := Toy.interp) "reciprocal.py"
                  reciprocal_module)
           (Toy.VFun "reciprocal") 0 "candidate(0) == 1" 0
           (Lists ["candidate(0) == 1"] [] []) ZeroDivisionError 1
           eq_refl eq_refl).
Defined.

Lemma load_failure_is_contained_witness :
  run_tests_and_report (py := Toy.interp) 0 "broken.py"
    ["candidate(3) == 9"; "candidate(4) == 16"] 0
  = (Returned (Some (Report [] [(0%Z, "invalid syntax"); (1%Z, "invalid syntax")]
                       2 0 None None)), 0).
Proof.
  exact (proj1 (load_failure_is_contained (py := Toy.interp)) 0 "broken.py"
           ["candidate(3) == 9"; "candidate(4) == 16"] 0 Toy.SyntaxError 0
           eq_refl).
Defined.


Lemma timeout_fails_the_whole_batch_witness :
  exists r fs',
    run_pytest_with_coverage (py := Toy.interp) (host := Toy.host TimeoutExpired)
      "codes/HumanEval_94.py" ["candidate([3]) == 3"; "candidate([2]) == 2"]
      "HumanEval/94" one_solution = (Returned r, fs')
    /\ tests_passed r = 0 /\ tests_failed r = 2 /\ total_tests r = 2
    /\ error_details r = ["Timeout"].
Proof.
  destruct (timeout_fails_the_whole_batch (py := Toy.interp)
              (host := Toy.host TimeoutExpired) "codes/HumanEval_94.py"
              ["candidate([3]) == 3"; "candidate([2]) == 2"] "HumanEval/94"
              one_solution eq_refl) as (_ & r & fs' & Hrun & -> & _).
  eexists _, fs'. split; [exact Hrun |]. by repeat split.
Defined.

Lemma enhancement_preserves_and_settles_witness :
  exists changed out,
    enhance_file (py := Toy.interp) "codes/HumanEval_94.py" "enhanced/HumanEval_94.py"
      "HumanEval/94" one_solution
    = (Returned changed, <["enhanced/HumanEval_94.py" := out]> one_solution)
    /\ enhance_file (py := Toy.interp) "enhanced/HumanEval_94.py" "again/HumanEval_94.py"
         "HumanEval/94" (<["enhanced/HumanEval_94.py" := out]> one_solution)
       = (Returned false,
          <["again/HumanEval_94.py" := out]>
            (<["enhanced/HumanEval_94.py" := out]> one_solution)).
Proof.
  destruct (enhancement_preserves_and_settles (py := Toy.interp)
              "codes/HumanEval_94.py" "enhanced/HumanEval_94.py"
              "again/HumanEval_94.py" "HumanEval/94" one_solution Toy.solution_94)
    as (changed & out & Hrun & _ & _ & _ & Hagain); [reflexivity | done | done |].
  exists changed, out. split; [exact Hrun | exact Hagain].
Defined.

(** The enhanced text of that solution, and the copy a second run makes. *)
Example enhancement_of_solution_94 :
  fst (enhance_file (py := Toy.interp) "codes/HumanEval_94.py"
         "enhanced/HumanEval_94.py" "HumanEval/94" one_solution) = Returned true
  /\ snd (enhance_file (py := Toy.interp) "codes/HumanEval_94.py"
            "enhanced/HumanEval_94.py" "HumanEval/94" one_solution)
       !! "enhanced/HumanEval_94.py"
     = Some (join [ "def largest_prime_digit_sum(lst):"; nl;
                    "    return 0"; nl; nl;
                    "# Auto-generated aliases for test compatibility"; nl;
                    "candidate = largest_prime_digit_sum"; nl;
                    "skjkasdkd = largest_prime_digit_sum"; nl ]).
Proof. split; reflexivity. Qed.

End Examples.

(** * Further properties of the code *)

(** ** The runners *)

Section RunnerExtras.
Context {py : PyInterp}.

Lemma scan_callable_state {St} (module : list (string * obj)) (names : list string)
    (s : St) :
  forall r s', scan_callable module names s = (r, s') -> s' = s.
Proof.
  induction names as [|name names IH]; cbn [scan_callable]; intros r s'.
  - by intros [= _ <-].
  - unfold bind, getattr. destruct (dict_get name module) as [o|].
    + cbv beta iota delta [ret]. destruct (_ && _); [by intros [= _ <-] | apply IH].
    + by intros [= _ <-].
Qed.

Lemma scan_callable_none_inv {St} (module : list (string * obj))
    (names : list string) (s s' : St) :
  scan_callable module names s = (Returned None, s') ->
  forall name o, name ∈ names -> dict_get name module = Some o ->
                 startswith name "_" = true \/ callable o = false.
Proof.
  induction names as [|n names IH]; cbn [scan_callable]; intros Hscan name o Hin Hget.
  - by apply elem_of_nil in Hin.
  - revert Hscan. unfold bind, getattr.
    destruct (dict_get n module) as [o'|] eqn:Ho'; [| done].
    cbv beta iota delta [ret].
    destruct (startswith n "_") eqn:Hn; cbn [negb andb].
    + intros Hscan. apply elem_of_cons in Hin as [-> | Hin]; [by left | by eapply IH].
    + destruct (callable o') eqn:Hc; [done |].
      intros Hscan. apply elem_of_cons in Hin as [-> | Hin]; [| by eapply IH].
      right. congruence.
Qed.

(** X1.  When the module has no attribute [candidate], what either runner
    binds is the public callable whose name comes first among the sorted
    attribute names: no other public callable of the module has a smaller
    name.  The notebook runner binds [None] when there is none. *)
Theorem fallback_binds_least_public_name (code_file : string) (w w1 : world)
    (bindings : list (string * obj)) :
  load_module code_file w = (Returned bindings, w1) ->
  dict_get "candidate" (module_dict bindings) = None ->
  (forall module c w2,
      load_candidate code_file w = (Returned (module, c), w2) ->
      module = module_dict bindings
      /\ exists name,
          dict_get name module = Some c
          /\ startswith name "_" = false
          /\ callable c = true
          /\ forall name' o', dict_get name' module = Some o' ->
                              startswith name' "_" = false -> callable o' = true ->
                              String.le name name')
  /\ (forall c w2,
      nb_load_candidate code_file w = (Returned c, w2) ->
      (c = py_None
       /\ forall name o, dict_get name (module_dict bindings) = Some o ->
                         startswith name "_" = true \/ callable o = false)
      \/ exists name,
          dict_get name (module_dict bindings) = Some c
          /\ startswith name "_" = false
          /\ callable c = true
          /\ forall name' o', dict_get name' (module_dict bindings) = Some o' ->
                              startswith name' "_" = false -> callable o' = true ->
                              String.le name name').
Proof.
  intros Hload Hattr. split.
  - intros module c w2. unfold load_candidate, bind at 1. rewrite Hload.
    unfold hasattr. rewrite Hattr. unfold bind at 1, bind at 1.
    destruct (scan_callable (module_dict bindings) (dir (module_dict bindings)) w1)
      as [[[found|]|e] w3] eqn:Hscan; [| done | done].
    pose proof (scan_callable_state _ _ _ _ _ Hscan) as ->.
    unfold bind, ret, lift. destruct (py_name found); [| done].
    intros [= <- <- <-]. split; [done |].
    by apply (runner_fallback_takes_least_name _ w1 w1).
  - intros c w2. unfold nb_load_candidate, bind at 1. rewrite Hload, Hattr.
    cbn [default negb]. rewrite truthy_None. cbn [negb]. unfold bind.
    destruct (scan_callable (module_dict bindings) (dir (module_dict bindings)) w1)
      as [[[found|]|e] w3] eqn:Hscan; [| | done].
    + pose proof (scan_callable_state _ _ _ _ _ Hscan) as ->.
      intros [= <- <-]. right.
      by apply (runner_fallback_takes_least_name _ w1 w1).
    + intros [= <- <-]. left. split; [done |].
      intros name o Hget.
      destruct (startswith name "_") eqn:Hn; [by left |].
      destruct (callable o) eqn:Hc; [| by right].
      exfalso.
      assert (Hin : name ∈ dir (module_dict bindings))
        by (apply elem_sorted; by eapply dict_get_Some_key).
      destruct (scan_callable_none_inv _ _ _ _ Hscan _ _ Hin Hget); congruence.
Qed.

(** X2.  [run_tests_and_report] reads [candidate.__name__] inside the
    [try] that loads the file: when the object it resolved, the attribute
    [candidate] or the callable the scan found, has no [__name__], no test
    runs and every test is recorded as failed under the text of that
    [AttributeError]. *)
Theorem candidate_without_name_fails_all (fuel : nat) (code_file : string)
    (test_cases : list string) (w w1 : world)
    (bindings : list (string * obj)) (c : obj) (e : exn) :
  load_module code_file w = (Returned bindings, w1) ->
  (dict_get "candidate" (module_dict bindings) = Some c
   \/ (dict_get "candidate" (module_dict bindings) = None
       /\ scan_callable (module_dict bindings) (dir (module_dict bindings)) w1
          = (Returned (Some c), w1))) ->
  py_name c = Raised e ->
  run_tests_and_report fuel code_file test_cases w
  = (Returned
       (Some (Report [] (map (fun i => (Z.of_nat i, exn_msg e))
                           (seq 0 (length test_cases)))
                (length test_cases) 0%float None None)), w1).
Proof.
  intros Hload Hresolved Hname.
  apply run_tests_and_report_load_failed.
  unfold load_candidate, bind at 1. rewrite Hload. unfold hasattr.
  destruct Hresolved as [Hattr | [Hattr Hscan]]; rewrite Hattr.
  - unfold getattr. rewrite Hattr. unfold bind, ret, lift. by rewrite Hname.
  - unfold bind at 1, bind at 1. rewrite Hscan. unfold bind, ret, lift.
    by rewrite Hname.
Qed.


(** X4.  [print_detailed_report] reads the key [failed_tests] whenever
    [failed] is not empty, and the dictionary of a failed load has no such
    key: when the file does not load and there is at least one test, printing
    the returned report in detail raises [KeyError]; the report of a file
    that loaded, and the report of an empty test list, print without it. *)
Theorem detailed_report_needs_a_loaded_file (fuel : nat) (code_file : string)
    (test_cases : list string) (w w1 : world) (r : report) :
  run_tests_and_report fuel code_file test_cases w = (Returned (Some r), w1) ->
  forall St (s : St),
    print_detailed_report r s
    = (match load_candidate code_file w, test_cases with
       | (Raised _, _), _ :: _ => Raised (KeyError "'failed_tests'")
       | _, _ => Returned tt
       end, s).
Proof.
  intros Hrun St s.
  destruct (load_candidate code_file w) as [[[module candidate]|e] w2] eqn:Hload.
  - rewrite (run_tests_and_report_loaded _ _ _ _ _ _ _ Hload) in Hrun.
    destruct (run_loop _ _ _ _ _ _) as [[[|]|e] [w3 ls]]; [| done | done].
    unfold bind in Hrun.
    destruct (summary ls w3) as [[r'|e] w4] eqn:Hsum; [| done].
    injection Hrun as <- <-.
    destruct (summary_has_both_keys _ _ _ _ Hsum) as (names & pairs & Hn & Hp).
    unfold print_detailed_report, bind. rewrite Hn, Hp.
    by destruct (passed r'), (failed r').
  - rewrite (run_tests_and_report_load_failed _ _ test_cases _ _ _ Hload) in Hrun.
    injection Hrun as <- <-. by destruct test_cases.
Qed.

End RunnerExtras.

(** ** The regular expression of the runner *)

Section RegexExtras.

Lemma is_newline_space (c : ascii) : is_newline c = true -> is_space c = true.
Proof.
  unfold is_newline, is_space. intros ->%N.eqb_eq. reflexivity.
Qed.

Lemma take_line_split (s : string) :
  exists after, s = take_line s +:+ after
                /\ no_newline (take_line s) = true /\ end_of_line after = true.
Proof.
  induction s as [|c s (after & Hs & Hn & He)]; simpl.
  - by exists "".
  - destruct (is_newline c) eqn:Hc.
    + exists (String c s). simpl. by rewrite Hc.
    + exists after. simpl. rewrite Hc, Hn. by rewrite <- Hs.
Qed.

Lemma take_line_whole (s after : string) :
  no_newline s = true -> end_of_line after = true -> take_line (s +:+ after) = s.
Proof.
  intros Hs Ha. induction s as [|c s IH]; simpl in *.
  - destruct after as [|d after]; simpl in *; [done | by rewrite Ha].
  - apply andb_true_iff in Hs as [Hc Hs]. apply negb_true_iff in Hc.
    by rewrite Hc, IH.
Qed.

Lemma ws_then_rest_sound (s g : string) :
  Re.ws_then_rest s = Some g ->
  exists ws after, s = ws +:+ g +:+ after
                   /\ all_space ws = true /\ g <> ""
                   /\ no_newline g = true /\ end_of_line after = true.
Proof.
  revert g. induction s as [|c s IH]; intros g; simpl; [done |].
  assert (Hhere : is_newline c = false ->
            exists ws after, String c s = ws +:+ String c (take_line s) +:+ after
                             /\ all_space ws = true /\ String c (take_line s) <> ""
                             /\ no_newline (String c (take_line s)) = true
                             /\ end_of_line after = true).
  { intros Hc. destruct (take_line_split s) as (after & Hs & Hn & He).
    exists "", after. simpl. rewrite Hc, Hn. by rewrite <- Hs. }
  destruct (is_space c) eqn:Hsp.
  - destruct (Re.ws_then_rest s) as [g'|] eqn:Hrest.
    + intros [= <-]. destruct (IH _ eq_refl) as (ws & after & -> & Hws & ?).
      exists (String c ws), after. simpl. by rewrite Hsp, Hws.
    + destruct (is_newline c) eqn:Hc; [done |]. intros [= <-]. by apply Hhere.
  - destruct (is_newline c) eqn:Hc.
    + apply is_newline_space in Hc. congruence.
    + intros [= <-]. by apply Hhere.
Qed.

Lemma eq_then_rest_sound (s g : string) :
  Re.eq_then_rest s = Some g ->
  exists ws after, s = "==" +:+ ws +:+ g +:+ after
                   /\ all_space ws = true /\ g <> ""
                   /\ no_newline g = true /\ end_of_line after = true.
Proof.
  unfold Re.eq_then_rest. destruct (startswith s "==") eqn:Hs; [| done].
  apply startswith_split in Hs as [t ->]. simpl.
  intros (ws & after & -> & ?)%ws_then_rest_sound. by exists ws, after.
Qed.

Lemma ws_eq_then_rest_sound (s g : string) :
  Re.ws_eq_then_rest s = Some g ->
  exists ws1 ws2 after, s = ws1 +:+ "==" +:+ ws2 +:+ g +:+ after
                        /\ all_space ws1 = true /\ all_space ws2 = true
                        /\ g <> "" /\ no_newline g = true
                        /\ end_of_line after = true.
Proof.
  revert g. induction s as [|c s IH]; intros g; [done |].
  assert (Hhere : Re.eq_then_rest (String c s) = Some g ->
            exists ws1 ws2 after,
              String c s = ws1 +:+ "==" +:+ ws2 +:+ g +:+ after
              /\ all_space ws1 = true /\ all_space ws2 = true
              /\ g <> "" /\ no_newline g = true /\ end_of_line after = true).
  { intros (ws & after & Hs & ?)%eq_then_rest_sound. by exists "", ws, after. }
  cbn [Re.ws_eq_then_rest]. destruct (is_space c) eqn:Hsp; [| done].
  destruct (Re.ws_eq_then_rest s) as [g'|] eqn:Hrest; [| done].
  intros [= <-]. destruct (IH _ eq_refl) as (ws1 & ws2 & after & -> & Hws & ?).
  exists (String c ws1), ws2, after. simpl. by rewrite Hsp, Hws.
Qed.

Lemma args_then_rest_sound (s args g : string) :
  Re.args_then_rest s = Some (args, g) ->
  exists ws1 ws2 after,
    s = args +:+ ")" +:+ ws1 +:+ "==" +:+ ws2 +:+ g +:+ after
    /\ all_space ws1 = true /\ all_space ws2 = true
    /\ no_newline args = true
    /\ g <> "" /\ no_newline g = true /\ end_of_line after = true.
Proof.
  revert args g. induction s as [|c s IH]; intros args g; [done |].
  cbn [Re.args_then_rest].
  destruct (if ascii_eqb c ")" then Re.ws_eq_then_rest s else None) as [g'|] eqn:Hclose.
  - destruct (ascii_eqb c ")") eqn:Hc; [| done].
    apply ascii_eqb_true in Hc as ->. intros [= <- <-].
    apply ws_eq_then_rest_sound in Hclose
      as (ws1 & ws2 & after & -> & ? & ? & ? & ? & ?).
    exists ws1, ws2, after. by split_and!.
  - destruct (is_newline c) eqn:Hn; [done |].
    destruct (Re.args_then_rest s) as [[a g']|] eqn:Hrest; [| done].
    intros [= <- <-].
    destruct (IH _ _ eq_refl) as (ws1 & ws2 & after & -> & ? & ? & Ha & ?).
    exists ws1, ws2, after. simpl. by rewrite Hn, Ha.
Qed.

(** X6.  What the runner's pattern extracts: when the search succeeds on a
    test, the test holds [candidate(], the argument text, [)], optional
    whitespace, [==], optional whitespace and the expected text; the argument
    text has no newline, and the expected text is not empty and runs to the
    end of its line. *)
Theorem search_candidate_eq_sound (s args expected : string) :
  Re.search_candidate_eq s = Some (args, expected) ->
  equality_form s args expected.
Proof.
  induction s as [|c s IH].
  - simpl. by destruct (startswith "" "candidate(").
  - cbn [Re.search_candidate_eq].
    destruct (if startswith (String c s) "candidate("
              then Re.args_then_rest (drop 10 (String c s)) else None)
      as [[a g]|] eqn:Hhere.
    + destruct (startswith (String c s) "candidate(") eqn:Hs; [| done].
      apply startswith_split in Hs as [t Ht]. rewrite Ht in *.
      change (drop 10 ("candidate(" +:+ t)) with t in Hhere.
      intros [= <- <-].
      apply args_then_rest_sound in Hhere as (ws1 & ws2 & after & -> & ?).
      by exists "", ws1, ws2, after.
    + intros (before & ws1 & ws2 & after & -> & ?)%IH.
      by exists (String c before), ws1, ws2, after.
Qed.

Lemma ws_then_rest_skip (ws t g : string) :
  all_space ws = true -> Re.ws_then_rest t = Some g ->
  Re.ws_then_rest (ws +:+ t) = Some g.
Proof.
  intros Hws Ht. induction ws as [|c ws IH]; simpl in *; [done |].
  apply andb_true_iff in Hws as [Hc Hws]. by rewrite Hc, IH.
Qed.

Lemma ws_eq_then_rest_skip (ws t g : string) :
  all_space ws = true -> Re.ws_eq_then_rest t = Some g ->
  Re.ws_eq_then_rest (ws +:+ t) = Some g.
Proof.
  intros Hws Ht. induction ws as [|c ws IH]; simpl in *; [done |].
  apply andb_true_iff in Hws as [Hc Hws]. by rewrite Hc, IH.
Qed.

Lemma contains_cons_false (c : ascii) (s p : string) :
  contains (String c s) p = false -> contains s p = false.
Proof. simpl. by intros [_ ?]%orb_false_iff. Qed.

(** X7.  A test written in the usual form is read back as written: for
    text before it that has no letter [c], an argument text without [)] and
    without newline, and an expected text that is on one line and does not
    start with whitespace, the search returns exactly the argument text and
    the expected text. *)
Theorem search_candidate_eq_reads_back
    (before args ws1 ws2 expected after : string) (c : ascii) (rest : string) :
  contains before "c" = false ->
  contains args ")" = false -> no_newline args = true ->
  all_space ws1 = true -> all_space ws2 = true ->
  expected = String c rest -> is_space c = false -> no_newline expected = true ->
  end_of_line after = true ->
  Re.search_candidate_eq
    (before +:+ "candidate(" +:+ args +:+ ")" +:+ ws1 +:+ "==" +:+ ws2
     +:+ expected +:+ after)
  = Some (args, expected).
Proof.
  intros Hbefore Hparen Hargs Hws1 Hws2 -> Hc Hexp Hafter.
  assert (Hrest : Re.ws_then_rest (ws2 +:+ String c rest +:+ after)
                  = Some (String c rest)).
  { apply ws_then_rest_skip; [done |].
    change (String c rest +:+ after) with (String c (rest +:+ after)).
    cbn [Re.ws_then_rest]. rewrite Hc.
    change (String c (rest +:+ after)) with (String c rest +:+ after).
    by rewrite take_line_whole. }
  assert (Hclose : Re.ws_eq_then_rest
                     (ws1 +:+ "==" +:+ ws2 +:+ String c rest +:+ after)
                   = Some (String c rest)).
  { apply ws_eq_then_rest_skip; [done |]. exact Hrest. }
  assert (Hargs' : Re.args_then_rest
                     (args +:+ ")" +:+ ws1 +:+ "==" +:+ ws2 +:+ String c rest +:+ after)
                   = Some (args, String c rest)).
  { clear Hbefore. induction args as [|a args IH].
    - change ("" +:+ ")" +:+ ?t) with (String ")"%char t).
      cbn [Re.args_then_rest]. change (ascii_eqb ")" ")") with true.
      cbv iota. by rewrite Hclose.
    - change (String a args +:+ ?t) with (String a (args +:+ t)).
      cbn [Re.args_then_rest].
      simpl in Hargs. apply andb_true_iff in Hargs as [Ha Hargs].
      apply negb_true_iff in Ha.
      assert (ascii_eqb a ")" = false) as ->.
      { cbn [contains startswith] in Hparen.
        apply orb_false_iff in Hparen as [Hp _].
        rewrite andb_true_r in Hp.
        unfold ascii_eqb in *. by rewrite Ascii.eqb_sym. }
      rewrite Ha, IH; [done | | done].
      by apply contains_cons_false in Hparen. }
  induction before as [|b before IH].
  - change ("" +:+ ?t) with t.
    match goal with |- Re.search_candidate_eq ("candidate(" +:+ ?t) = _ =>
      change ("candidate(" +:+ t) with (String "c"%char ("andidate(" +:+ t));
      cbn [Re.search_candidate_eq];
      change (String "c"%char ("andidate(" +:+ t)) with ("candidate(" +:+ t);
      rewrite (startswith_app "candidate(" t);
      change (drop 10 ("candidate(" +:+ t)) with t
    end.
    by rewrite Hargs'.
  - change (String b before +:+ ?t) with (String b (before +:+ t)).
    cbn [Re.search_candidate_eq].
    assert (startswith (String b (before +:+ "candidate(" +:+ args +:+ ")" +:+ ws1
                                  +:+ "==" +:+ ws2 +:+ String c rest +:+ after))
              "candidate(" = false) as ->.
    { cbn [contains startswith] in Hbefore.
      apply orb_false_iff in Hbefore as [Hb _].
      rewrite andb_true_r in Hb. cbn [startswith]. by rewrite Hb. }
    apply IH. by apply contains_cons_false in Hbefore.
Qed.

End RegexExtras.

(** ** The enhancer and the two syntax-tree resolvers *)

Section EnhancerExtras.
Context {py : PyInterp}.

Lemma target_text_changed (content : string) (info : option string * list string) :
  fst (target_text content info) = true <-> snd (target_text content info) <> content.
Proof.
  unfold target_text. destruct info as [[[|c p]|] [|a aliases]]; simpl;
    try (split; [done | by intros []]).
  destruct (filter _ (a :: aliases)) as [|n needed] eqn:Hf; simpl;
    [split; [done | by intros []] |].
  split; [intros _ Heq | done].
  assert (Hn : n ∈ filter (fun alias => negb (contains content alias)) (a :: aliases))
    by (rewrite Hf; left).
  apply list_elem_of_filter in Hn as [Hn _].
  pose proof (enhanced_text_alias content (String c p) (n :: needed) n) as Hin.
  rewrite Heq in Hin. rewrite Hin in Hn; [done | left].
Qed.

(** [enhance_file] onto the source itself. *)
Lemma enhance_file_in_place source_path problem_id (fs : files) content :
  fs !! source_path = Some content ->
  enhance_file source_path source_path problem_id fs
  = if fst (target_text content (info_of_text content problem_id))
    then (Returned true,
          <[source_path := snd (target_text content (info_of_text content problem_id))]> fs)
    else (Raised (SameFileError source_path source_path), fs).
Proof.
  intros Hread.
  assert (Hsame : copy2 source_path source_path fs
                  = (Raised (SameFileError source_path source_path), fs)).
  { unfold copy2. rewrite Hread. by rewrite String.eqb_refl. }
  unfold enhance_file, try_except, bind at 1, read_file at 1. rewrite Hread.
  unfold bind at 1. rewrite (get_function_info_read _ _ _ _ Hread).
  unfold target_text.
  destruct (info_of_text content problem_id) as [[[|c p]|] [|a aliases]]; simpl;
    try (unfold bind; by rewrite !Hsame).
  destruct (filter _ (a :: aliases)) as [|n needed]; simpl; [| done].
  unfold bind. by rewrite !Hsame.
Qed.

(** What [enhance_file] leaves at the target when it returns. *)
Lemma enhance_file_returned source_path target_path problem_id (fs fs' : files)
    content changed :
  fs !! source_path = Some content ->
  enhance_file source_path target_path problem_id fs = (Returned changed, fs') ->
  changed = fst (target_text content (info_of_text content problem_id))
  /\ fs' !! target_path
     = Some (snd (target_text content (info_of_text content problem_id))).
Proof.
  intros Hread. destruct (decide (source_path = target_path)) as [<-|Hne].
  - rewrite (enhance_file_in_place _ _ _ _ Hread).
    destruct (fst (target_text _ _)); [| done].
    intros [= <- <-]. by rewrite lookup_insert_eq.
  - rewrite (enhance_file_target _ _ _ _ _ Hread Hne).
    intros [= <- <-]. by rewrite lookup_insert_eq.
Qed.

(** X5.  The alias of [HumanEval/94] as [enhance_file] writes it.  For a
    source whose first public function is [primary], not [skjkasdkd], the
    text left at the target when [enhance_file] returns is decided by two
    searches in the text of the source: when the text holds [skjkasdkd]
    nowhere, the run returns [True] and the target ends with the line
    [skjkasdkd = primary], after the source without its trailing
    whitespace, a blank line, the comment line and, unless [candidate] is
    the primary function or occurs in the text, the line
    [candidate = primary]; when the text holds [skjkasdkd] anywhere, no line
    for it is written. *)
Theorem special_alias_line_is_written
    (source_path target_path : string) (fs fs' : files)
    (content : string) (tree : ast_node) (primary : string) (changed : bool) :
  fs !! source_path = Some content ->
  ast_parse content = Returned tree ->
  head (public_function_names tree) = Some primary ->
  primary <> "" ->
  primary <> "skjkasdkd" ->
  enhance_file source_path target_path "HumanEval/94" fs = (Returned changed, fs') ->
  let candidate_line :=
    if String.eqb primary "candidate" || contains content "candidate" then ""
    else "candidate = " +:+ primary +:+ nl in
  let written_head :=
    rstrip content +:+ nl +:+ nl
    +:+ "# Auto-generated aliases for test compatibility" +:+ nl in
  (contains content "skjkasdkd" = false ->
   changed = true
   /\ fs' !! target_path
      = Some (written_head +:+ candidate_line
              +:+ "skjkasdkd = " +:+ primary +:+ nl))
  /\ (contains content "skjkasdkd" = true ->
      fs' !! target_path
      = Some (if String.eqb primary "candidate" || contains content "candidate"
              then content
              else written_head +:+ "candidate = " +:+ primary +:+ nl)).
Proof.
  intros Hread Hparse Hhead Hne Hname Hrun candidate_line written_head.
  destruct (enhance_file_returned _ _ _ _ _ _ _ Hread Hrun) as [-> ->].
  subst candidate_line written_head.
  unfold info_of_text. rewrite Hparse.
  destruct (public_function_names tree) as [|p names]; [done |].
  injection Hhead as ->.
  destruct primary as [|c p]; [done |].
  unfold target_text, needed_aliases_for, enhanced_text.
  assert (H94 : String.eqb "HumanEval/94" "HumanEval/94" = true) by reflexivity.
  assert (Hsk : String.eqb (String c p) "skjkasdkd" = false)
    by by apply String.eqb_neq.
  rewrite H94, Hsk. cbn [negb andb].
  split.
  - intros Hs.
    destruct (String.eqb (String c p) "candidate"); cbn [negb app orb].
    + rewrite filter_cons_True by (by rewrite Hs). rewrite filter_nil.
      cbn [fst snd map join foldr]. by rewrite app_empty_r, !app_assoc_str.
    + destruct (contains content "candidate") eqn:Hc.
      * rewrite filter_cons_False by (rewrite Hc; exact id).
        rewrite filter_cons_True by (by rewrite Hs). rewrite filter_nil.
        cbn [fst snd map join foldr]. by rewrite app_empty_r, !app_assoc_str.
      * rewrite filter_cons_True by (by rewrite Hc).
        rewrite filter_cons_True by (by rewrite Hs). rewrite filter_nil.
        cbn [fst snd map join foldr]. by rewrite app_empty_r, !app_assoc_str.
  - intros Hs.
    destruct (String.eqb (String c p) "candidate"); cbn [negb app orb].
    + rewrite filter_cons_False by (rewrite Hs; exact id). by rewrite filter_nil.
    + destruct (contains content "candidate") eqn:Hc.
      * rewrite filter_cons_False by (rewrite Hc; exact id).
        rewrite filter_cons_False by (rewrite Hs; exact id). by rewrite filter_nil.
      * rewrite filter_cons_True by (by rewrite Hc).
        rewrite filter_cons_False by (rewrite Hs; exact id). rewrite filter_nil.
        cbn [fst snd map join foldr]. by rewrite app_empty_r, !app_assoc_str.
Qed.

(** X8.  The flag [enhance_file] returns tells whether the target differs
    from the source: whenever it returns for a source that exists, it
    returns [True] exactly when the text it leaves at the target is not the
    text the source had, and [False] exactly when it is that text. *)
Theorem enhance_file_flag_is_accurate
    (source_path target_path problem_id : string) (fs fs' : files)
    (content : string) (changed : bool) :
  fs !! source_path = Some content ->
  enhance_file source_path target_path problem_id fs = (Returned changed, fs') ->
  exists out,
    fs' !! target_path = Some out
    /\ (changed = true <-> out <> content)
    /\ (changed = false <-> out = content).
Proof.
  intros Hread Hrun.
  destruct (enhance_file_returned _ _ _ _ _ _ _ Hread Hrun) as [-> Hout].
  eexists. split; [exact Hout |].
  pose proof (target_text_changed content (info_of_text content problem_id)) as H.
  split; [exact H |].
  destruct (fst (target_text content (info_of_text content problem_id))).
  - split; [done |]. intros Heq. by apply H in Heq.
  - split; [intros _ | done].
    destruct (decide (snd (target_text content (info_of_text content problem_id))
                      = content)) as [|Hd]; [done |].
    by apply H in Hd.
Qed.

(** X9.  The error paths of [enhance_file].  A source that does not exist
    makes it raise [FileNotFoundError], the copy in its handler failing as
    well, with no file touched.  Enhancing a file onto itself raises
    [SameFileError] when a run to another path would only copy, and rewrites
    the file in place with the text that run would write when aliases are
    missing. *)
Theorem enhance_file_error_paths
    (source_path other_path problem_id : string) (fs : files) :
  (fs !! source_path = None ->
   forall target_path,
     enhance_file source_path target_path problem_id fs
     = (Raised (FileNotFoundError source_path), fs))
  /\ (forall content changed out,
        fs !! source_path = Some content ->
        source_path <> other_path ->
        enhance_file source_path other_path problem_id fs
        = (Returned changed, <[other_path := out]> fs) ->
        enhance_file source_path source_path problem_id fs
        = if changed then (Returned true, <[source_path := out]> fs)
          else (Raised (SameFileError source_path source_path), fs)).
Proof.
  split.
  - intros Hmissing target_path.
    unfold enhance_file, try_except, bind at 1, read_file at 1. rewrite Hmissing.
    unfold bind, copy2. by rewrite Hmissing.
  - intros content changed out Hread Hne.
    rewrite (enhance_file_target _ _ _ _ _ Hread Hne).
    intros [= <- Hout].
    assert (out = snd (target_text content (info_of_text content problem_id)))
      as ->.
    { apply (f_equal (fun m => m !! other_path)) in Hout.
      rewrite !lookup_insert_eq in Hout. by injection Hout. }
    assert (Hsame : copy2 source_path source_path fs
                    = (Raised (SameFileError source_path source_path), fs)).
    { unfold copy2. rewrite Hread. by rewrite String.eqb_refl. }
    unfold enhance_file, try_except, bind at 1, read_file at 1. rewrite Hread.
    unfold bind at 1. rewrite (get_function_info_read _ _ _ _ Hread).
    unfold target_text.
    destruct (info_of_text content problem_id) as [[[|c p]|] [|a aliases]]; simpl;
      try (unfold bind; by rewrite !Hsame).
    destruct (filter _ (a :: aliases)) as [|n needed]; simpl; [| done].
    unfold bind. by rewrite !Hsame.
Qed.

(** X10.  [get_function_info] never raises and never touches a file.  It
    answers [(None, [])] for a file that does not exist, that does not
    parse, or that defines no public function; the aliases it lists are
    [candidate] and, for [HumanEval/94] only, [skjkasdkd], without
    repetition, never the name of the primary function itself, and
    [candidate] is listed whenever the primary function has another name. *)
Theorem get_function_info_answers (file_path problem_id : string) (fs : files) :
  exists primary aliases,
    get_function_info file_path problem_id fs = (Returned (primary, aliases), fs)
    /\ (primary = None -> aliases = [])
    /\ (fs !! file_path = None -> primary = None)
    /\ (forall content e, fs !! file_path = Some content ->
                          ast_parse content = Raised e -> primary = None)
    /\ (forall content tree, fs !! file_path = Some content ->
                             ast_parse content = Returned tree ->
                             primary = head (public_function_names tree))
    /\ NoDup aliases
    /\ (forall a, a ∈ aliases ->
                  (a = "candidate" \/ (a = "skjkasdkd" /\ problem_id = "HumanEval/94"))
                  /\ primary <> Some a)
    /\ (forall name, primary = Some name -> name <> "candidate" ->
                     "candidate" ∈ aliases).
Proof.
  rewrite get_function_info_returns.
  destruct (fs !! file_path) as [content|] eqn:Hread.
  - unfold info_of_text.
    destruct (ast_parse content) as [tree|e] eqn:Hparse.
    + destruct (public_function_names tree) as [|name names] eqn:Hnames.
      * exists None, []. split_and!.
        -- done.
        -- done.
        -- done.
        -- done.
        -- intros ?? [= <-]. rewrite Hparse. intros [= <-]. by rewrite Hnames.
        -- constructor.
        -- by intros a ?%elem_of_nil.
        -- done.
      * exists (Some name), (needed_aliases_for name problem_id). split_and!.
        -- done.
        -- done.
        -- done.
        -- intros ?? [= <-]. by rewrite Hparse.
        -- intros ?? [= <-]. rewrite Hparse. intros [= <-]. by rewrite Hnames.
        -- unfold needed_aliases_for.
           destruct (negb (String.eqb name "candidate"));
             destruct (String.eqb problem_id "HumanEval/94"
                       && negb (String.eqb name "skjkasdkd"));
             simpl; rewrite ?NoDup_cons, ?list_elem_of_singleton, ?elem_of_nil;
             split_and?; try done; try apply NoDup_nil_2; tauto.
        -- intros a [[-> Hn] | (-> & -> & Hn)]%needed_aliases_for_elem.
           ++ split; [by left | congruence].
           ++ split; [by right | congruence].
        -- intros n [= ->] Hn. apply needed_aliases_for_elem. by left.
    + exists None, []. split_and!.
      * done.
      * done.
      * done.
      * done.
      * intros ?? [= <-]. by rewrite Hparse.
      * constructor.
      * by intros a ?%elem_of_nil.
      * done.
  - exists None, []. split_and!.
    + done.
    + done.
    + done.
    + done.
    + done.
    + constructor.
    + by intros a ?%elem_of_nil.
    + done.
Qed.

(** X11.  The primary function of the enhancer and of the analyzer is the
    first public [def] among the top-level statements of the file, in the
    order of the file, whatever is nested in the statements before it:
    [ast.walk] is breadth first. *)
Theorem primary_is_first_top_level_def
    (file_path problem_id : string) (fs : files) (content : string)
    (kind : node_kind) (body : list ast_node) (name : string) (others : list string) :
  fs !! file_path = Some content ->
  ast_parse content = Returned (AstNode kind body) ->
  public_name (AstNode kind body) = None ->
  omap public_name body = name :: others ->
  get_function_info file_path problem_id fs
  = (Returned (Some name, needed_aliases_for name problem_id), fs)
  /\ (String.eqb problem_id "HumanEval/94" && contains content "def skjkasdkd" = false ->
      get_function_name file_path problem_id fs = (Returned name, fs)).
Proof.
  intros Hread Hparse Hroot Htop.
  destruct (public_function_names_top_level kind body name others Hroot Htop)
    as [rest Hnames].
  split.
  - rewrite (get_function_info_read _ _ _ _ Hread).
    unfold info_of_text. by rewrite Hparse, Hnames.
  - intros Hspecial.
    unfold get_function_name, try_except, bind, read_file. rewrite Hread, Hspecial.
    unfold lift. by rewrite Hparse, Hnames.
Qed.

(** X12.  The enhancer and the analyzer agree on the function under test:
    unless the problem is [HumanEval/94] and the text holds [def skjkasdkd],
    [get_function_name] returns the primary function of [get_function_info],
    and [candidate] when there is none.  In that special case it returns
    [skjkasdkd] without parsing the file. *)
Theorem resolvers_agree (file_path problem_id : string) (fs : files) :
  (forall content,
      fs !! file_path = Some content ->
      String.eqb problem_id "HumanEval/94" && contains content "def skjkasdkd" = true ->
      get_function_name file_path problem_id fs = (Returned "skjkasdkd", fs))
  /\ ((forall content,
         fs !! file_path = Some content ->
         String.eqb problem_id "HumanEval/94" && contains content "def skjkasdkd"
         = false) ->
      exists primary aliases,
        get_function_info file_path problem_id fs
        = (Returned (primary, aliases), fs)
        /\ get_function_name file_path problem_id fs
           = (Returned (default "candidate" primary), fs)).
Proof.
  split.
  - intros content Hread Hspecial.
    unfold get_function_name, try_except, bind, read_file.
    by rewrite Hread, Hspecial.
  - intros Hplain. rewrite get_function_info_returns.
    unfold get_function_name, try_except, bind, read_file.
    destruct (fs !! file_path) as [content|] eqn:Hread.
    + rewrite (Hplain _ eq_refl). unfold info_of_text, lift.
      destruct (ast_parse content) as [tree|e]; [| by eexists _, _].
      destruct (public_function_names tree); by eexists _, _.
    + by eexists _, _.
Qed.

End EnhancerExtras.

(** ** File names, counts and messages of the analyzer *)

Section AnalyzerExtras.
Context {py : PyInterp} {host : Host}.

Lemma only_digits_no_slash (num : string) :
  only_digits num = true -> contains num "/" = false.
Proof.
  induction num as [|c num IH]; [done |]. cbn [only_digits contains startswith].
  intros [Hc Hnum]%andb_true_iff. rewrite (IH Hnum), andb_true_r, orb_false_r.
  apply Ascii.eqb_neq. intros <-. done.
Qed.

Lemma last_segment_after_slash (before num : string) :
  contains num "/" = false -> last_segment (before +:+ "/" +:+ num) = num.
Proof.
  intros Hnum. induction before as [|c before IH].
  - change ("" +:+ "/" +:+ num) with (String "/"%char num).
    cbn [last_segment]. by rewrite Hnum.
  - change (String c before +:+ ?t) with (String c (before +:+ t)).
    cbn [last_segment]. by rewrite contains_middle.
Qed.

Lemma replace_from_digits (old' new num rest : string) (c0 : ascii) :
  is_digit c0 = false -> only_digits num = true ->
  replace_from 0 (String c0 old') new (num +:+ rest)
  = num +:+ replace_from 0 (String c0 old') new rest.
Proof.
  intros Hc0 Hnum. induction num as [|c num IH]; [done |].
  cbn [only_digits] in Hnum. apply andb_true_iff in Hnum as [Hc Hnum].
  change (String c num +:+ rest) with (String c (num +:+ rest)).
  cbn [replace_from startswith].
  assert (ascii_eqb c0 c = false) as ->
    by (apply Ascii.eqb_neq; intros <-; congruence).
  cbn [andb]. by rewrite (IH Hnum).
Qed.

(** X13.  The enhancer and the analyzer name files the same way: for a
    problem number written in digits, the problem the enhancer derives from
    the analyzer's file name of [HumanEval/<number>] is [HumanEval/<number>]
    again, and the file the analyzer looks for under the problem the
    enhancer derived from [HumanEval_<number>.py] is that file. *)
Theorem file_names_and_problems_round_trip (num : string) :
  only_digits num = true ->
  problem_id_of_filename (solution_file_of_problem ("HumanEval/" +:+ num))
  = "HumanEval/" +:+ num
  /\ solution_file_of_problem (problem_id_of_filename ("HumanEval_" +:+ num +:+ ".py"))
     = "HumanEval_" +:+ num +:+ ".py".
Proof.
  intros Hnum.
  assert (Hseg : last_segment ("HumanEval/" +:+ num) = num)
    by (apply (last_segment_after_slash "HumanEval"); by apply only_digits_no_slash).
  assert (Hback : replace ".py" "" (replace "HumanEval_" "" ("HumanEval_" +:+ num +:+ ".py"))
                  = num).
  { assert (replace "HumanEval_" "" ("HumanEval_" +:+ num +:+ ".py") = num +:+ ".py")
      as ->.
    { unfold replace.
      change (replace_from 0 "HumanEval_" "" ("HumanEval_" +:+ num +:+ ".py"))
        with (replace_from 0 "HumanEval_" "" (num +:+ ".py")).
      by rewrite (replace_from_digits "umanEval_" "" num ".py" "H"). }
    unfold replace.
    rewrite (replace_from_digits "py" "" num ".py" "."); [| done | done].
    apply app_empty_r. }
  unfold problem_id_of_filename, solution_file_of_problem.
  by rewrite Hseg, Hback, Hseg.
Qed.

(** X14.  [run_pytest_with_coverage] never raises: it returns a record for
    the problem it was given, with [total_tests = len(test_cases)].  When
    running [pytest] raises anything but a timeout, the record reports no
    test as passed and all of them as failed, no coverage, and the text of
    the exception as interpretation and only detail. *)
Theorem coverage_run_contains_errors (solution_path : string)
    (test_cases : list string) (pid : string) (fs : files) :
  exists r fs',
    run_pytest_with_coverage solution_path test_cases pid fs = (Returned r, fs')
    /\ problem_id r = pid
    /\ llm_implementation r = ""
    /\ total_tests r = length test_cases
    /\ forall e, pytest_outcome solution_path test_cases pid fs = RunError e ->
                 r = MkCoverageResult pid "" 0 (length test_cases) (length test_cases)
                       0%Q None ("Error: " +:+ exn_msg e) [exn_msg e].
Proof.
  unfold pytest_outcome, run_pytest_with_coverage, try_except, bind.
  destruct (create_pytest_test_file _ _ _ _ fs) as [[test_file|e] fs1].
  - destruct (subprocess_run _ _ fs1) as [stdout stderr| |e].
    + destruct (_parse_test_counts _ _) as [n_passed n_failed].
      destruct (_parse_coverage _ _ fs1) as [line_cov branch_cov].
      eexists _, _. by split_and!.
    + eexists _, _. by split_and!.
    + eexists _, _. split_and!; try done. by intros e' [= <-].
  - eexists _, _. split_and!; try done. by intros e' [= <-].
Qed.

(** *** Reading the counts *)

Lemma digits_then_run (w0 : ascii) (word' d after : string) :
  is_digit w0 = false -> only_digits d = true -> d <> "" ->
  Re.digits_then (String w0 word') (d +:+ String w0 word' +:+ after) = Some d.
Proof.
  intros Hw0 Hd Hne. induction d as [|c d IH]; [done |].
  cbn [only_digits] in Hd. apply andb_true_iff in Hd as [Hc Hd].
  change (String c d +:+ ?t) with (String c (d +:+ t)).
  cbn [Re.digits_then]. rewrite Hc.
  destruct d as [|c' d'].
  - change ("" +:+ ?t) with t.
    change (String w0 word' +:+ after) with (String w0 (word' +:+ after)) at 1.
    cbn [Re.digits_then]. rewrite Hw0.
    change (String w0 (word' +:+ after)) with (String w0 word' +:+ after).
    by rewrite startswith_app.
  - by rewrite IH.
Qed.

Lemma startswith_app_inv (a b w : string) :
  startswith (a +:+ b) w = true ->
  startswith a w = true \/ exists v, w = a +:+ v /\ startswith b v = true.
Proof.
  revert w. induction a as [|c a IH]; intros w H.
  - right. by exists w.
  - destruct w as [|x w]; [by left |].
    change (String c a +:+ b) with (String c (a +:+ b)) in H.
    cbn [startswith] in *. apply andb_true_iff in H as [Hx H].
    destruct (IH _ H) as [Ha | (v & -> & Hv)].
    + left. by rewrite Hx, Ha.
    + right. exists v. apply ascii_eqb_true in Hx as ->. by split.
Qed.

Lemma no_digit_app_r (a v : string) : no_digit (a +:+ v) = true -> no_digit v = true.
Proof.
  induction a as [|c a IH]; [done |]. simpl. by intros [_ ?%IH]%andb_true_iff.
Qed.

(** No match begins in a text that is free of the word and does not end
    in a digit, when a run of digits follows it. *)
Lemma digits_then_not_before (word before d after : string) :
  no_digit word = true -> only_digits d = true -> d <> "" ->
  before <> "" -> contains before word = false -> ends_with_digit before = false ->
  Re.digits_then word (before +:+ d +:+ after) = None.
Proof.
  intros Hword Hd Hne. induction before as [|c before IH]; [done |].
  intros _ Hfree Hend.
  change (String c before +:+ ?t) with (String c (before +:+ t)).
  cbn [Re.digits_then]. destruct (is_digit c) eqn:Hc; [| done].
  assert (Hb : before <> "") by (intros ->; simpl in Hend; congruence).
  assert (Hfree' : contains before word = false)
    by (by apply contains_cons_false in Hfree).
  assert (Hend' : ends_with_digit before = false)
    by (destruct before; [done | exact Hend]).
  rewrite (IH Hb Hfree' Hend').
  destruct (startswith (before +:+ d +:+ after) word) eqn:Hs; [| done].
  exfalso. apply startswith_app_inv in Hs as [Hs | (v & -> & Hv)].
  - apply contains_prefix in Hs. congruence.
  - apply no_digit_app_r in Hword.
    destruct v as [|v0 v]; [| destruct d as [|d0 d]; [done |]].
    + rewrite app_empty_r in Hfree'. by rewrite contains_refl in Hfree'.
    + change (String d0 d +:+ after) with (String d0 (d +:+ after)) in Hv.
      cbn [startswith] in Hv. apply andb_true_iff in Hv as [Hv _].
      apply ascii_eqb_true in Hv as ->.
      cbn [only_digits] in Hd. cbn [no_digit] in Hword.
      apply andb_true_iff in Hd as [Hd _]. apply andb_true_iff in Hword as [Hw _].
      rewrite Hd in Hw. done.
Qed.

(** The search finds the run of digits before the first occurrence of the
    word. *)
Lemma search_count_first (w0 : ascii) (word' before d after : string) :
  no_digit (String w0 word') = true -> only_digits d = true -> d <> "" ->
  contains before (String w0 word') = false -> ends_with_digit before = false ->
  Re.search_count (String w0 word') (before +:+ d +:+ String w0 word' +:+ after)
  = Some d.
Proof.
  intros Hword Hd Hne. induction before as [|c before IH]; intros Hfree Hend.
  - change ("" +:+ ?t) with t.
    assert (Hrun : Re.digits_then (String w0 word') (d +:+ String w0 word' +:+ after)
                   = Some d).
    { apply digits_then_run; [| done | done].
      cbn [no_digit] in Hword. apply andb_true_iff in Hword as [Hw _].
      by apply negb_true_iff in Hw. }
    destruct d as [|d0 d]; [done |].
    change (String d0 d +:+ ?t) with (String d0 (d +:+ t)) in *.
    cbn [Re.search_count]. by rewrite Hrun.
  - pose proof (digits_then_not_before (String w0 word') (String c before) d
                  (String w0 word' +:+ after) Hword Hd Hne) as Hnot.
    change (String c before +:+ ?t) with (String c (before +:+ t)) in *.
    cbn [Re.search_count]. rewrite Hnot; [| done | done | done].
    apply IH; [by apply contains_cons_false in Hfree |].
    destruct before; [done | exact Hend].
Qed.

Lemma digits_value_go (d : Decimal.uint) (acc : nat) :
  (fix go (s : string) (acc : nat) {struct s} : nat :=
     match s with
     | EmptyString => acc
     | String c s' => go s' (10 * acc + (N.to_nat (code c) - 48))
     end) (NilEmpty.string_of_uint d) acc
  = Nat.of_uint_acc d acc.
Proof.
  revert acc. induction d as [|d IH|d IH|d IH|d IH|d IH|d IH|d IH|d IH|d IH|d IH];
    intros acc; cbn [NilEmpty.string_of_uint Nat.of_uint_acc]; [done | ..];
    rewrite IH; f_equal; rewrite Nat.tail_mul_spec; cbn; lia.
Qed.

Lemma only_digits_uint (d : Decimal.uint) :
  only_digits (NilEmpty.string_of_uint d) = true.
Proof. induction d; cbn; done. Qed.

(** [int(str(n)) = n], and [str(n)] is a non-empty run of digits. *)
Lemma of_nat_digits (n : nat) :
  digits_value (of_nat n) = n /\ only_digits (of_nat n) = true /\ of_nat n <> "".
Proof.
  unfold of_nat, digits_value, NilZero.string_of_uint.
  pose proof (DecimalNat.Unsigned.of_to n) as Hn.
  destruct (Nat.to_uint n) as [|d|d|d|d|d|d|d|d|d|d] eqn:Hd;
    (split; [| split; [| done]]);
    try (rewrite (digits_value_go _ 0); exact Hn);
    try (apply (only_digits_uint (Decimal.D0 d)) || apply only_digits_uint).
  - by rewrite <- Hn.
  - done.
Qed.

Lemma digits_then_sound (word s d : string) :
  Re.digits_then word s = Some d -> contains s word = true.
Proof.
  revert d. induction s as [|c s IH]; intros d; [done |].
  cbn [Re.digits_then]. destruct (is_digit c); [| done].
  destruct (Re.digits_then word s) as [d'|] eqn:Hrest.
  - intros _. cbn [contains]. rewrite (IH _ eq_refl). apply orb_true_r.
  - destruct (startswith s word) eqn:Hs; [| done].
    intros _. cbn [contains]. rewrite (contains_prefix _ _ Hs). apply orb_true_r.
Qed.

Lemma search_count_sound (word s d : string) :
  Re.search_count word s = Some d -> contains s word = true.
Proof.
  induction s as [|c s IH]; [done |].
  cbn [Re.search_count].
  destruct (Re.digits_then word (String c s)) as [d'|] eqn:Hhere.
  - intros _. by eapply digits_then_sound.
  - intros H%IH. cbn [contains]. rewrite H. apply orb_true_r.
Qed.

Lemma search_count_absent (word s : string) :
  contains s word = false -> Re.search_count word s = None.
Proof.
  intros Hc. destruct (Re.search_count word s) as [d|] eqn:Hs; [| done].
  apply search_count_sound in Hs. congruence.
Qed.

(** X15.  [_parse_test_counts] never answers zero passed and zero failed
    for a batch that has tests: when the output names no count, it counts
    every test as passed if the word [passed] occurs, in any case of letters,
    and every test as failed otherwise, as for an empty output. *)
Theorem parse_test_counts_fallback (output : string) (total : nat) :
  (fst (_parse_test_counts output total) = 0 ->
   snd (_parse_test_counts output total) = 0 -> total = 0)
  /\ (contains output " passed" = false -> contains output " failed" = false ->
      _parse_test_counts output total
      = if contains (lower output) "passed" then (total, 0) else (0, total))
  /\ _parse_test_counts "" total = (0, total).
Proof.
  split_and!.
  - unfold _parse_test_counts.
    destruct (Nat.eqb _ 0 && Nat.eqb _ 0) eqn:Hzero.
    + destruct (contains (lower output) "passed"); simpl; congruence.
    + simpl. intros H1 H2. by rewrite H1, H2 in Hzero.
  - intros Hp Hf. unfold _parse_test_counts.
    by rewrite (search_count_absent _ _ Hp), (search_count_absent _ _ Hf).
  - done.
Qed.

(** X16.  [_parse_test_counts] reads the counts of a [pytest] summary: when
    the output holds [<n> passed] and [<m> failed], each number written in
    decimal, not glued to a digit before it and with no earlier [ passed]
    (or [ failed]) in the output, and the two are not both zero, the answer
    is [(n, m)]; with no [ failed] in the output and [n > 0] it is [(n, 0)],
    and with no [ passed] and [m > 0] it is [(0, m)]. *)
Theorem parse_test_counts_reads_summary (output : string) (total : nat) :
  (forall a1 b1 a2 b2 n m,
      output = a1 +:+ of_nat n +:+ " passed" +:+ b1 ->
      contains a1 " passed" = false -> ends_with_digit a1 = false ->
      output = a2 +:+ of_nat m +:+ " failed" +:+ b2 ->
      contains a2 " failed" = false -> ends_with_digit a2 = false ->
      0 < n + m ->
      _parse_test_counts output total = (n, m))
  /\ (forall a1 b1 n,
      output = a1 +:+ of_nat n +:+ " passed" +:+ b1 ->
      contains a1 " passed" = false -> ends_with_digit a1 = false ->
      contains output " failed" = false ->
      0 < n ->
      _parse_test_counts output total = (n, 0))
  /\ (forall a2 b2 m,
      output = a2 +:+ of_nat m +:+ " failed" +:+ b2 ->
      contains a2 " failed" = false -> ends_with_digit a2 = false ->
      contains output " passed" = false ->
      0 < m ->
      _parse_test_counts output total = (0, m)).
Proof.
  assert (Hfind : forall w0 word' a b k,
            no_digit (String w0 word') = true ->
            output = a +:+ of_nat k +:+ String w0 word' +:+ b ->
            contains a (String w0 word') = false -> ends_with_digit a = false ->
            match Re.search_count (String w0 word') output with
            | Some d => digits_value d
            | None => 0
            end = k).
  { intros w0 word' a b k Hw -> Hfree Hend.
    destruct (of_nat_digits k) as (Hval & Hdig & Hne).
    by rewrite search_count_first. }
  assert (Hnonzero : forall n m, 0 < n + m -> Nat.eqb n 0 && Nat.eqb m 0 = false).
  { intros n m Hnm. destruct n; [destruct m; [lia | done] | done]. }
  split_and!.
  - intros a1 b1 a2 b2 n m H1 Hf1 He1 H2 Hf2 He2 Hnm.
    unfold _parse_test_counts.
    rewrite (Hfind " "%char "passed" a1 b1 n eq_refl H1 Hf1 He1).
    rewrite (Hfind " "%char "failed" a2 b2 m eq_refl H2 Hf2 He2).
    by rewrite Hnonzero.
  - intros a1 b1 n H1 Hf1 He1 Hnone Hn.
    unfold _parse_test_counts.
    rewrite (Hfind " "%char "passed" a1 b1 n eq_refl H1 Hf1 He1).
    rewrite (search_count_absent _ _ Hnone).
    rewrite Hnonzero; [done | lia].
  - intros a2 b2 m H2 Hf2 He2 Hnone Hm.
    unfold _parse_test_counts.
    rewrite (Hfind " "%char "failed" a2 b2 m eq_refl H2 Hf2 He2).
    rewrite (search_count_absent _ _ Hnone).
    by rewrite Hnonzero.
Qed.

(** *** The error lines *)

Lemma extract_errors_from_spec (lines errors : list string) :
  length errors < 3 ->
  _extract_errors_from lines errors
  = errors ++ take (3 - length errors)
                (strip <$> filter (fun line => mentions_failure line) lines).
Proof.
  revert errors. induction lines as [|line lines IH]; intros errors Hlen.
  - cbn [_extract_errors_from]. rewrite filter_nil. cbn [fmap list_fmap].
    by rewrite take_nil, app_nil_r.
  - cbn [_extract_errors_from].
    change (contains line "FAILED" || contains line "ERROR"
            || contains line "AssertionError") with (mentions_failure line).
    destruct (mentions_failure line) eqn:Hm.
    + rewrite filter_cons_True by (by rewrite Hm). cbn [fmap list_fmap].
      rewrite length_app. cbn [length].
      destruct (Nat.leb 3 (length errors + 1)) eqn:Hfull.
      * apply Nat.leb_le in Hfull.
        replace (3 - length errors) with 1 by lia. cbn [take]. by rewrite take_0.
      * apply Nat.leb_gt in Hfull.
        rewrite IH by (rewrite length_app; simpl; lia).
        rewrite length_app. cbn [length]. rewrite <- app_assoc. cbn [app].
        by replace (3 - length errors) with (S (3 - (length errors + 1))) by lia.
    + rewrite filter_cons_False by (rewrite Hm; exact id). by apply IH.
Qed.

(** X17.  [_extract_errors] returns the first three lines of the output
    that mention [FAILED], [ERROR] or [AssertionError], each stripped, in the
    order of the output: never more than three, and all of them when there
    are fewer. *)
Theorem extract_errors_first_three (output : string) :
  _extract_errors output
  = take 3 (strip <$> filter (fun line => mentions_failure line) (split_lines output))
  /\ length (_extract_errors output) <= 3.
Proof.
  assert (H : _extract_errors output
              = take 3 (strip <$> filter (fun line => mentions_failure line)
                                     (split_lines output))).
  { unfold _extract_errors. by rewrite extract_errors_from_spec by (simpl; lia). }
  split; [exact H |]. rewrite H, length_take. lia.
Qed.

(** *** The one-line interpretation *)

Lemma Qltb_false (a b : Q) : Qltb a b = false <-> (b <= a)%Q.
Proof.
  unfold Qltb. rewrite negb_false_iff. apply Qle_bool_iff.
Qed.

Lemma Qltb_true (a b : Q) : Qltb a b = true <-> (a < b)%Q.
Proof.
  unfold Qltb. rewrite negb_true_iff. split.
  - intros H. apply Qnot_le_lt. intros Hle. apply Qle_bool_iff in Hle. congruence.
  - intros H. destruct (Qle_bool b a) eqn:Hle; [| done].
    apply Qle_bool_iff in Hle. by apply Qlt_not_le in H.
Qed.

(** X18.  The interpretation of a result: a failed test hides every
    coverage figure; without one, the answer is [Excellent coverage] exactly
    when line and branch coverage are both at least 90, a line coverage
    below 80 is reported without looking at the branch coverage, and
    [Good line coverage achieved] is never the answer when a branch coverage
    was measured. *)
Theorem interpretation_table (passed failed : nat) (line : Q) (branch : option Q) :
  (0 < failed ->
   _generate_interpretation passed failed line branch
   = of_nat failed +:+ " test(s) failed - fix failing tests first")
  /\ (failed = 0 ->
      (_generate_interpretation passed failed line branch
       = "Excellent coverage - well-tested code"
       <-> (90 <= line)%Q /\ exists b, branch = Some b /\ (90 <= b)%Q))
  /\ (failed = 0 -> (line < 80)%Q ->
      _generate_interpretation passed failed line branch
      = _generate_interpretation passed failed line None)
  /\ (failed = 0 -> forall b, branch = Some b ->
      _generate_interpretation passed failed line branch
      <> "Good line coverage achieved").
Proof.
  split_and!.
  - intros Hf. unfold _generate_interpretation.
    by destruct failed; [lia |].
  - intros ->. unfold _generate_interpretation. cbn [Nat.ltb Nat.leb].
    destruct (Qltb line 50) eqn:H50.
    { split; [done |]. intros (H90 & _). apply Qltb_true in H50.
      exfalso. apply (Qlt_not_le _ _ H50). eapply Qle_trans; [| exact H90]. done. }
    destruct (Qltb line 80) eqn:H80.
    { split; [done |]. intros (H90 & _). apply Qltb_true in H80.
      exfalso. apply (Qlt_not_le _ _ H80). eapply Qle_trans; [| exact H90]. done. }
    destruct branch as [b|].
    + destruct (Qltb b 50) eqn:Hb50.
      { split; [done |]. intros (_ & b' & [= <-] & Hb90). apply Qltb_true in Hb50.
        exfalso. apply (Qlt_not_le _ _ Hb50). eapply Qle_trans; [| exact Hb90]. done. }
      destruct (Qltb b 80) eqn:Hb80.
      { split; [done |]. intros (_ & b' & [= <-] & Hb90). apply Qltb_true in Hb80.
        exfalso. apply (Qlt_not_le _ _ Hb80). eapply Qle_trans; [| exact Hb90]. done. }
      destruct (Qle_bool 90 line) eqn:Hl90.
      * apply Qltb_false in Hb80.
        assert (Hnz : Qeq_bool b 0 = false).
        { destruct (Qeq_bool b 0) eqn:Hz; [| done].
          apply Qeq_bool_iff in Hz. rewrite Hz in Hb80. by compute in Hb80. }
        rewrite Hnz. cbn [negb andb].
        destruct (Qle_bool 90 b) eqn:Hb90.
        -- split; [| done]. intros _. split; [by apply Qle_bool_iff |].
           exists b. split; [done | by apply Qle_bool_iff].
        -- split; [done |]. intros (_ & b' & [= <-] & Hb).
           apply Qle_bool_iff in Hb. congruence.
      * split; [done |]. intros (Hl & _). apply Qle_bool_iff in Hl. congruence.
    + destruct (Qle_bool 90 line); (split; [done |]); by intros (_ & b & ? & _).
  - intros -> Hlt. unfold _generate_interpretation. cbn [Nat.ltb Nat.leb].
    destruct (Qltb line 50) eqn:H50; [done |].
    by rewrite (proj2 (Qltb_true line 80) Hlt).
  - intros -> b ->. unfold _generate_interpretation. cbn [Nat.ltb Nat.leb].
    destruct (Qltb line 50); [done |]. destruct (Qltb line 80); [done |].
    destruct (Qltb b 50); [done |]. destruct (Qltb b 80) eqn:Hb80; [done |].
    destruct (Qle_bool 90 line); [| done].
    apply Qltb_false in Hb80.
    assert (Hnz : Qeq_bool b 0 = false).
    { destruct (Qeq_bool b 0) eqn:Hz; [| done].
      apply Qeq_bool_iff in Hz. rewrite Hz in Hb80. by compute in Hb80. }
    rewrite Hnz. cbn [negb andb]. by destruct (Qle_bool 90 b).
Qed.

(** *** The overall statistics *)

Lemma sum_nat_le (results : list CoverageResult) :
  Forall (fun r => tests_passed r <= total_tests r) results ->
  sum_nat (map tests_passed results) <= sum_nat (map total_tests results).
Proof.
  induction 1 as [|r results Hr _ IH]; [done |].
  unfold sum_nat in *. cbn [map foldr]. lia.
Qed.

(** X19.  The overall statistics of [main] divide the tests passed by the
    tests run without a guard, unlike the two averages: they raise
    [ZeroDivisionError] exactly when the results hold no test at all, and so
    for an empty list of results; otherwise the share printed lies between 0
    and 100 whenever no result passed more tests than it ran. *)
Theorem overall_statistics_need_a_test (results : list CoverageResult) :
  (overall_statistics results = Raised ZeroDivisionError
   <-> sum_nat (map total_tests results) = 0)
  /\ overall_statistics [] = Raised ZeroDivisionError
  /\ (0 < sum_nat (map total_tests results) ->
      Forall (fun r => tests_passed r <= total_tests r) results ->
      exists st, overall_statistics results = Returned st
                 /\ st_total_tests st = sum_nat (map total_tests results)
                 /\ st_total_passed st = sum_nat (map tests_passed results)
                 /\ (0 <= st_passed_share st)%Q /\ (st_passed_share st <= 100)%Q).
Proof.
  split_and!.
  - unfold overall_statistics, truediv.
    destruct (Nat.eqb_spec (sum_nat (map total_tests results)) 0) as [Hz|Hz];
      [done |]. split; [done | by intros ?].
  - done.
  - intros Hpos Hle. apply sum_nat_le in Hle.
    unfold overall_statistics, truediv.
    destruct (Nat.eqb_spec (sum_nat (map total_tests results)) 0) as [Hz|Hz];
      [lia |].
    eexists. split; [done |]. cbn [st_total_tests st_total_passed st_passed_share].
    split; [done |]. split; [done |].
    set (p := sum_nat (map tests_passed results)) in *.
    set (n := sum_nat (map total_tests results)) in *.
    clearbody p n. destruct n as [|n]; [lia |].
    unfold Qle, Qdiv, Qmult, Qinv, inject_Z. simpl.
    rewrite Pos.mul_1_r. split; nia.
Qed.

End AnalyzerExtras.

(** ** The artifact of Task 3 *)

Section AppsExtras.
Import Apps.
Local Open Scope Z_scope.

(** X20.  The branch of lines 32-33 of [apps.py], marked as the injected
    boundary bug, never changes [move_cost]: whatever the three prices, the
    price of a move is the smaller of [M] and [A + R], as line 31 left it. *)
Theorem injected_branch_changes_nothing (A R M : Z) :
  move_cost A R M = Z.min M (A + R)
  /\ move_cost A R M = (if M <? A + R then M else A + R).
Proof.
  unfold move_cost.
  destruct (Z.ltb_spec M (A + R)); rewrite Z.geb_leb;
    destruct (Z.leb_spec (Z.max A R) M), (Z.leb_spec (Z.max A R) (A + R));
    split; lia.
Qed.

Lemma cost_nonneg (h : list Z) (A R mc H : Z) : 0 <= cost h A R mc H.
Proof.
  unfold cost. destruct (foldl _ _ _) as [surplus deficit].
  cbv zeta. destruct (Z.ltb_spec (Z.min surplus deficit * mc
                                  + (surplus - Z.min surplus deficit) * R
                                  + (deficit - Z.min surplus deficit) * A) 0); lia.
Qed.

(** The loop ends within [hi - lo] iterations, whatever the costs. *)
Lemma search_fuel (f : Z -> Z) (fuel fuel' : nat) :
  forall lo hi best,
    (Z.to_nat (hi - lo) <= fuel)%nat -> (Z.to_nat (hi - lo) <= fuel')%nat ->
    search fuel f lo hi best = search fuel' f lo hi best.
Proof.
  revert fuel'. induction fuel as [|fuel IH]; intros fuel' lo hi best Hf Hf'.
  - destruct fuel'; cbn [search]; destruct (Z.ltb_spec lo hi); try done; lia.
  - destruct fuel' as [|fuel']; cbn [search]; destruct (Z.ltb_spec lo hi) as [Hlt|];
      try done; [lia |].
    assert (Hmid : lo <= (lo + hi) / 2 < hi)
      by (split; [apply Z.div_le_lower_bound | apply Z.div_lt_upper_bound]; lia).
    cbv zeta.
    destruct (_ <? _); [apply IH; lia |].
    destruct (_ >? _); apply IH; lia.
Qed.

(** What the loop keeps: the bounds stay between the first bounds, and
    [best_cost] stays a value of [cost] there that only decreases. *)
Lemma search_spec (f : Z -> Z) (a b : Z) (fuel : nat) :
  forall lo hi best,
    a <= lo -> lo <= hi -> hi <= b ->
    (Z.to_nat (hi - lo) <= fuel)%nat ->
    (exists H, a <= H <= b /\ best = f H) ->
    exists lo' hi' best',
      search fuel f lo hi best = Some (lo', hi', best')
      /\ a <= lo' /\ lo' <= hi' /\ hi' <= b
      /\ best' <= best
      /\ exists H, a <= H <= b /\ best' = f H.
Proof.
  induction fuel as [|fuel IH]; intros lo hi best Ha Hle Hb Hfuel Hbest.
  - cbn [search]. destruct (Z.ltb_spec lo hi); [lia |].
    exists lo, hi, best. by split_and!; try lia.
  - cbn [search]. destruct (Z.ltb_spec lo hi) as [Hlt|];
      [| exists lo, hi, best; by split_and!; try lia].
    assert (Hmid : lo <= (lo + hi) / 2 < hi)
      by (split; [apply Z.div_le_lower_bound | apply Z.div_lt_upper_bound]; lia).
    cbv zeta. set (mid := (lo + hi) / 2) in *.
    assert (Hmin : forall c H, a <= H <= b -> c = f H ->
                   exists H', a <= H' <= b /\ Z.min best c = f H').
    { intros c H HH ->. destruct Hbest as (H0 & HH0 & ->).
      destruct (Z.min_spec (f H0) (f H)) as [[_ ->] | [_ ->]]; eauto. }
    destruct (_ <? _).
    + destruct (IH lo mid (Z.min best (f mid))) as (lo' & hi' & best' & -> & ?);
        [lia | lia | lia | lia | apply (Hmin _ mid); [lia | done] |].
      exists lo', hi', best'. split; [done |]. split_and!; try tauto; try lia.
    + destruct (_ >? _).
      * destruct (IH (mid + 1) hi (Z.min best (f (mid + 1))))
          as (lo' & hi' & best' & -> & ?);
          [lia | lia | lia | lia | apply (Hmin _ (mid + 1)); [lia | done] |].
        exists lo', hi', best'. split; [done |]. split_and!; try tauto; try lia.
      * destruct (IH (mid + 1) hi (Z.min best (f mid)))
          as (lo' & hi' & best' & -> & ?);
          [lia | lia | lia | lia | apply (Hmin _ mid); [lia | done] |].
        exists lo', hi', best'. split; [done |]. split_and!; try tauto; try lia.
Qed.

Lemma elem_of_range (start stop x : Z) :
  x ∈ range start stop -> start <= x < stop.
Proof.
  unfold range. intros Hx. apply list_elem_of_In, in_map_iff in Hx as (i & <- & Hi).
  apply in_seq in Hi. lia.
Qed.

(** The loop of lines 71-73. *)
Lemma sweep_spec (f : Z -> Z) (a b : Z) (levels : list Z) :
  forall best,
    Forall (fun H => a <= H <= b) levels ->
    (exists H, a <= H <= b /\ best = f H) ->
    foldl (fun best_cost H => Z.min best_cost (f H)) best levels <= best
    /\ exists H, a <= H <= b
                 /\ foldl (fun best_cost H => Z.min best_cost (f H)) best levels = f H.
Proof.
  induction levels as [|H levels IH]; intros best Hall Hbest; cbn [foldl].
  - split; [lia | done].
  - apply Forall_cons in Hall as [HH Hall].
    destruct (IH (Z.min best (f H)) Hall) as [Hle Hex].
    + destruct Hbest as (H0 & HH0 & ->).
      destruct (Z.min_spec (f H0) (f H)) as [[_ ->] | [_ ->]]; eauto.
    + split; [lia | done].
Qed.

Lemma hd_le_last (l : list Z) :
  StronglySorted Z.le l -> hd 0 l <= List.last l 0.
Proof.
  destruct 1 as [|x l _ Hx]; [done |].
  cbn [hd]. revert x Hx. induction l as [|y l IH]; intros x Hx; [simpl; lia |].
  apply Forall_cons in Hx as [Hxy Hx].
  change (List.last (x :: y :: l) 0) with (List.last (y :: l) 0).
  destruct l as [|z l]; [simpl; lia |].
  change (List.last (y :: z :: l) 0) with (List.last (z :: l) 0).
  specialize (IH x Hx). by change (List.last (x :: z :: l) 0) with (List.last (z :: l) 0) in IH.
Qed.

Lemma str_nonneg_isdigit (c : Z) : 0 <= c -> isdigit (str c) = true.
Proof.
  intros Hc. unfold str, isdigit.
  destruct (Z.ltb_spec c 0); [lia |].
  destruct (of_nat_digits (Z.to_nat c)) as (_ & -> & Hne).
  rewrite andb_true_r. apply negb_true_iff.
  by apply String.eqb_neq.
Qed.

(** X21.  Lines 19-78 of [candidate] of [apps.py] always answer, within
    [h[-1] - h[0]] iterations of the search on the sorted heights, and the
    answer is the decimal text of a number that is not negative, so that the
    conversion of line 77 is never made.  For heights that are not all equal
    the number is the cost of a level between the lowest and the highest
    height, and at most the cost of either of the two.  The answer depends
    neither on the bound of iterations nor on what line 77 would compute. *)
Theorem candidate_answers_a_level_cost (int_of_float : Z -> Z) (fuel : nat)
    (A R M : Z) (h : list Z) :
  (Z.to_nat (List.last (merge_sort Z.le h) 0%Z - hd 0%Z (merge_sort Z.le h)) <= fuel)%nat ->
  exists c,
    candidate_numbers int_of_float fuel A R M h = Some (str c)
    /\ 0 <= c
    /\ isdigit (str c) = true
    /\ (levelled h = true -> c = 0)
    /\ (levelled h = false ->
        c <= cost (merge_sort Z.le h) A R (move_cost A R M) (hd 0 (merge_sort Z.le h))
        /\ c <= cost (merge_sort Z.le h) A R (move_cost A R M)
                  (List.last (merge_sort Z.le h) 0)
        /\ exists H, hd 0 (merge_sort Z.le h) <= H <= List.last (merge_sort Z.le h) 0
                     /\ c = cost (merge_sort Z.le h) A R (move_cost A R M) H)
    /\ forall int_of_float' fuel',
         (Z.to_nat (List.last (merge_sort Z.le h) 0%Z - hd 0%Z (merge_sort Z.le h))
          <= fuel')%nat ->
         candidate_numbers int_of_float' fuel' A R M h = Some (str c).
Proof.
  intros Hfuel. unfold candidate_numbers.
  destruct (levelled h) eqn:Hlev.
  { exists 0. by split_and!. }
  cbv zeta.
  set (sorted := merge_sort Z.le h) in *.
  set (f := cost sorted A R (move_cost A R M)).
  assert (Hsorted : hd 0 sorted <= List.last sorted 0)
    by (apply hd_le_last, StronglySorted_merge_sort; apply _).
  assert (Hedge : exists H, hd 0 sorted <= H <= List.last sorted 0
                            /\ Z.min (f (hd 0 sorted)) (f (List.last sorted 0)) = f H).
  { destruct (Z.min_spec (f (hd 0 sorted)) (f (List.last sorted 0)))
      as [[_ ->] | [_ ->]]; [exists (hd 0 sorted) | exists (List.last sorted 0)];
      split; try done; lia. }
  destruct (search_spec f (hd 0 sorted) (List.last sorted 0) fuel _ _ _
              (Z.le_refl _) Hsorted (Z.le_refl _) Hfuel Hedge)
    as (lo' & hi' & best' & Hsearch & Hlo & Hlohi & Hhi & Hbest & Hlevel).
  rewrite Hsearch.
  set (levels := range (Z.max (lo' - 2) (hd 0 sorted))
                   (Z.min (hi' + 3) (List.last sorted 0 + 1))).
  destruct (sweep_spec f (hd 0 sorted) (List.last sorted 0) levels best')
    as (Hsweep & H & HH & Hc); [| done |].
  { apply list.Forall_forall. intros x Hx%elem_of_range. lia. }
  set (c := foldl (fun best_cost H => Z.min best_cost (f H)) best' levels) in *.
  assert (Hc0 : 0 <= c) by (rewrite Hc; apply cost_nonneg).
  assert (Hdigit : isdigit (str c) = true) by by apply str_nonneg_isdigit.
  exists c. rewrite Hdigit. cbn [negb]. split_and!; try done; try lia.
  - intros _. split_and!; [lia | lia | by exists H].
  - intros int_of_float' fuel' Hfuel'.
    rewrite (search_fuel f fuel' fuel) by done.
    rewrite Hsearch. fold levels. fold c. by rewrite Hdigit.
Qed.

End AppsExtras.

(** ** The further properties on concrete artifacts *)

Section FurtherExamples.

Lemma fallback_binds_least_public_name_witness :
  exists name,
    dict_get name (module_dict (py := Toy.interp)
                     [Toy.def "foo"; Toy.def "_helper"; Toy.def "bar"])
    = Some (Toy.VFun "bar")
    /\ String.le name "foo".
Proof.
  destruct (fallback_binds_least_public_name (py := Toy.interp) "solution.py" 0 0
              [Toy.def "foo"; Toy.def "_helper"; Toy.def "bar"] eq_refl eq_refl)
    as [Hrunner _].
  destruct (Hrunner _ (Toy.VFun "bar") 0 eq_refl)
    as (_ & name & Hget & _ & _ & Hleast).
  exists name. split; [exact Hget |].
  exact (Hleast "foo" (Toy.VFun "foo") eq_refl eq_refl eq_refl).
Defined.

Lemma candidate_without_name_fails_all_witness :
  run_tests_and_report (py := interp_loading load_number) 2 "number.py"
    ["candidate(3) == 9"; "assert True"] 0
  = (Returned
       (Some (Report [] [(0%Z, "'int' object has no attribute '__name__'");
                         (1%Z, "'int' object has no attribute '__name__'")]
                2 0 None None)), 0).
Proof.
  exact (candidate_without_name_fails_all (py := interp_loading load_number) 2
           "number.py" ["candidate(3) == 9"; "assert True"] 0 0
           [Toy.def "helper"; ("candidate", Toy.VInt 5)] (Toy.VInt 5)
           (AttributeError "'int' object has no attribute '__name__'")
           eq_refl (or_introl eq_refl) eq_refl).
Defined.


Lemma detailed_report_needs_a_loaded_file_witness :
  print_detailed_report
    (Report [] [(0%Z, "invalid syntax")] 1 0%float None None) 0
  = (Raised (KeyError "'failed_tests'"), 0).
Proof.
  exact (detailed_report_needs_a_loaded_file (py := Toy.interp) 1 "broken.py"
           ["candidate(3) == 9"] 0 0 _ eq_refl nat 0).
Defined.

Lemma special_alias_line_is_written_witness :
  snd (enhance_file (py := Toy.interp) "codes/HumanEval_94.py"
         "enhanced/HumanEval_94.py" "HumanEval/94" one_solution)
    !! "enhanced/HumanEval_94.py"
  = Some (rstrip Toy.solution_94 +:+ nl +:+ nl
          +:+ "# Auto-generated aliases for test compatibility" +:+ nl
          +:+ "candidate = largest_prime_digit_sum" +:+ nl
          +:+ "skjkasdkd = largest_prime_digit_sum" +:+ nl).
Proof.
  exact (proj2 (proj1 (special_alias_line_is_written (py := Toy.interp)
                         "codes/HumanEval_94.py" "enhanced/HumanEval_94.py"
                         one_solution _ Toy.solution_94
                         (AstNode OtherNode
                            [AstNode (FunctionDef "largest_prime_digit_sum") []])
                         "largest_prime_digit_sum" true
                         eq_refl eq_refl eq_refl ltac:(done) ltac:(done) eq_refl)
                  eq_refl)).
Defined.

Lemma search_candidate_eq_sound_witness :
  equality_form "assert candidate([1, 2]) ==  3" "[1, 2]" "3".
Proof.
  exact (search_candidate_eq_sound "assert candidate([1, 2]) ==  3" "[1, 2]" "3"
           eq_refl).
Defined.

Lemma search_candidate_eq_reads_back_witness :
  Re.search_candidate_eq "assert candidate([1, 2]) ==  3" = Some ("[1, 2]", "3").
Proof.
  exact (search_candidate_eq_reads_back "assert " "[1, 2]" " " "  " "3" "" "3" ""
           eq_refl eq_refl eq_refl eq_refl eq_refl eq_refl eq_refl eq_refl eq_refl).
Defined.

Lemma enhance_file_flag_is_accurate_witness :
  exists out,
    snd (enhance_file (py := Toy.interp) "codes/HumanEval_94.py"
           "enhanced/HumanEval_94.py" "HumanEval/94" one_solution)
      !! "enhanced/HumanEval_94.py" = Some out
    /\ (true = true <-> out <> Toy.solution_94).
Proof.
  destruct (enhance_file_flag_is_accurate (py := Toy.interp)
              "codes/HumanEval_94.py" "enhanced/HumanEval_94.py" "HumanEval/94"
              one_solution _ Toy.solution_94 true eq_refl eq_refl)
    as (out & Hout & Htrue & _).
  exists out. split; [exact Hout | exact Htrue].
Defined.

Lemma enhance_file_error_paths_witness :
  enhance_file (py := Toy.interp) "codes/HumanEval_1.py" "enhanced/HumanEval_1.py"
    "HumanEval/1" one_solution
  = (Raised (FileNotFoundError "codes/HumanEval_1.py"), one_solution).
Proof.
  exact (proj1 (enhance_file_error_paths (py := Toy.interp) "codes/HumanEval_1.py"
                  "" "HumanEval/1" one_solution)
           eq_refl "enhanced/HumanEval_1.py").
Defined.

Lemma get_function_info_answers_witness :
  exists primary aliases,
    get_function_info (py := Toy.interp) "codes/HumanEval_94.py" "HumanEval/94"
      one_solution = (Returned (primary, aliases), one_solution)
    /\ NoDup aliases.
Proof.
  destruct (get_function_info_answers (py := Toy.interp) "codes/HumanEval_94.py"
              "HumanEval/94" one_solution)
    as (primary & aliases & Hrun & _ & _ & _ & _ & Hnodup & _).
  exists primary, aliases. split; [exact Hrun | exact Hnodup].
Defined.

Lemma primary_is_first_top_level_def_witness :
  get_function_info (py := Toy.interp) "codes/HumanEval_94.py" "HumanEval/94"
    one_solution
  = (Returned (Some "largest_prime_digit_sum", ["candidate"; "skjkasdkd"]),
     one_solution).
Proof.
  exact (proj1 (primary_is_first_top_level_def (py := Toy.interp)
                  "codes/HumanEval_94.py" "HumanEval/94" one_solution
                  Toy.solution_94 OtherNode
                  [AstNode (FunctionDef "largest_prime_digit_sum") []]
                  "largest_prime_digit_sum" [] eq_refl eq_refl eq_refl eq_refl)).
Defined.

Lemma resolvers_agree_witness :
  get_function_name (py := Toy.interp) "codes/HumanEval_94.py" "HumanEval/94"
    {["codes/HumanEval_94.py" := "def skjkasdkd(lst): return 0"]}
  = (Returned "skjkasdkd",
     {["codes/HumanEval_94.py" := "def skjkasdkd(lst): return 0"]}).
Proof.
  exact (proj1 (resolvers_agree (py := Toy.interp) "codes/HumanEval_94.py"
                  "HumanEval/94"
                  {["codes/HumanEval_94.py" := "def skjkasdkd(lst): return 0"]})
           "def skjkasdkd(lst): return 0" eq_refl eq_refl).
Defined.

Lemma file_names_and_problems_round_trip_witness :
  problem_id_of_filename (solution_file_of_problem "HumanEval/94") = "HumanEval/94"
  /\ solution_file_of_problem (problem_id_of_filename "HumanEval_94.py")
     = "HumanEval_94.py".
Proof.
  exact (file_names_and_problems_round_trip "94" eq_refl).
Defined.

Lemma coverage_run_contains_errors_witness :
  exists fs',
    run_pytest_with_coverage (py := Toy.interp)
      (host := Toy.host (RunError (Exn "OSError" "pytest: command not found" false)))
      "codes/HumanEval_94.py" ["candidate([3]) == 3"; "candidate([2]) == 2"]
      "HumanEval/94" one_solution
    = (Returned (MkCoverageResult "HumanEval/94" "" 0 2 2 0%Q None
                   "Error: pytest: command not found"
                   ["pytest: command not found"]), fs').
Proof.
  destruct (coverage_run_contains_errors (py := Toy.interp)
              (host := Toy.host (RunError (Exn "OSError" "pytest: command not found" false)))
              "codes/HumanEval_94.py" ["candidate([3]) == 3"; "candidate([2]) == 2"]
              "HumanEval/94" one_solution)
    as (r & fs' & Hrun & _ & _ & _ & Herr).
  exists fs'. rewrite Hrun.
  by rewrite (Herr (Exn "OSError" "pytest: command not found" false) eq_refl).
Defined.

Lemma parse_test_counts_fallback_witness :
  _parse_test_counts "PASSED test_case_0" 4 = (4, 0)
  /\ _parse_test_counts "no tests ran" 4 = (0, 4).
Proof.
  split.
  - exact (proj1 (proj2 (parse_test_counts_fallback "PASSED test_case_0" 4))
             eq_refl eq_refl).
  - exact (proj1 (proj2 (parse_test_counts_fallback "no tests ran" 4))
             eq_refl eq_refl).
Defined.

Lemma parse_test_counts_reads_summary_witness :
  _parse_test_counts "===== 1 failed, 3 passed in 0.12s =====" 4 = (3, 1).
Proof.
  exact (proj1 (parse_test_counts_reads_summary
                  "===== 1 failed, 3 passed in 0.12s =====" 4)
           "===== 1 failed, " " in 0.12s =====" "===== " ", 3 passed in 0.12s ====="
           3 1 eq_refl eq_refl eq_refl eq_refl eq_refl eq_refl (Nat.lt_0_succ 3)).
Defined.

Lemma interpretation_table_witness :
  _generate_interpretation 3 1 100 (Some 100%Q)
  = "1 test(s) failed - fix failing tests first"
  /\ _generate_interpretation 4 0 (95 # 1) (Some (90 # 1))
     = "Excellent coverage - well-tested code".
Proof.
  split.
  - exact (proj1 (interpretation_table 3 1 100 (Some 100%Q)) (Nat.lt_0_succ 0)).
  - apply (proj1 (proj2 (interpretation_table 4 0 (95 # 1) (Some (90 # 1)))) eq_refl).
    split; [by compute |]. exists (90 # 1). split; [reflexivity | by compute].
Defined.

Lemma overall_statistics_need_a_test_witness :
  overall_statistics [MkCoverageResult "HumanEval/94" "" 0 0 0 0%Q None "" []]
  = Raised ZeroDivisionError.
Proof.
  exact (proj2 (proj1 (overall_statistics_need_a_test
                         [MkCoverageResult "HumanEval/94" "" 0 0 0 0%Q None "" []]))
           eq_refl).
Defined.

Lemma candidate_answers_a_level_cost_witness :
  exists c,
    Apps.candidate_numbers (fun z => z) 7 1 100 100 [1; 3; 8]%Z = Some (Apps.str c)
    /\ (0 <= c)%Z
    /\ forall fuel', 7 <= fuel' ->
         Apps.candidate_numbers (fun _ => 0%Z) fuel' 1 100 100 [1; 3; 8]%Z
         = Some (Apps.str c).
Proof.
  destruct (candidate_answers_a_level_cost (fun z => z) 7 1 100 100 [1; 3; 8]%Z)
    as (c & Hrun & Hc & _ & _ & _ & Hany); [vm_compute; lia |].
  exists c. split; [exact Hrun |]. split; [exact Hc |].
  intros fuel' Hfuel'. apply Hany. vm_compute. exact Hfuel'.
Defined.

(** The first example of the problem statement: three pillars of heights
    1, 3 and 8, with prices 1, 100 and 100. *)
Example candidate_on_three_pillars :
  Apps.candidate_numbers (fun z => z) 7 1 100 100 [1; 3; 8]%Z = Some "12".
Proof. reflexivity. Qed.

End FurtherExamples.

